(** * The krkn-ai analysis engine (package analysisengine)

    A shallow embedding of [New], [Engine.Run], [Engine.writeSummary] and
    [Engine.sendNotifications].  The engine is an orchestrator: almost every
    line of it is a call to a collaborator (aggregator, prompt store, LLM
    client, reporter registry, the os, time and yaml packages).  Those calls
    are the constructors of [Effect]; a Go function is a finite tree [Prog]
    of such calls, and [interp] runs a tree against an arbitrary environment
    (a handler over an arbitrary state), recording every call together with
    the answer it got.  Theorems quantify over all environments. *)

From Stdlib Require Import ZArith String List Lia.
From Stdlib.Strings Require Import Byte.
From stdpp Require Import gmap strings list fin_maps.

Open Scope Z_scope.
Open Scope string_scope.
Set Warnings "-register-all".

(** ** Types declared outside the package

    The packages llm, tools, prompts, reporter, krknai/aggregator, genai,
    context, embed, io/fs and time are imported by the engine but are not
    part of it.  Whatever the engine only passes along is a parameter. *)

Class Externals : Type := {
  ContextT : Type;            (* context.Context *)
  KrknAIAggregatorT : Type;   (* *krknAggregator.KrknAIAggregator *)
  PromptStoreT : Type;        (* *prompts.PromptStore *)
  LLMClientT : Type;          (* llm.LLMClient *)
  ReporterRegistryT : Type;   (* *reporter.ReporterRegistry *)
  ReporterT : Type;           (* what reporter.NewSlackReporter returns *)
  embedFS : Type;             (* embed.FS *)
  fsFS : Type;                (* fs.FS *)
  ToolRegistryT : Type;       (* what tools.NewRegistry returns *)
  TimeT : Type;               (* time.Time *)
  (* fields of the aggregator's data *)
  Float64T : Type;
  ScenarioTypesT : Type;
  TopScenariosT : Type;
  FailedScenariosT : Type;
  HealthCheckReportT : Type;
  LogArtifactsT : Type;
  ConfigSummaryT : Type;
  (* llm.AnalysisConfig: the pointees of its three optional fields, and
     everything else the struct holds *)
  TemperatureT : Type;
  MaxTokensT : Type;
  TopPT : Type;
  LLMOtherT : Type;
  (* genai.FunctionCall and reporter.ReporterConfig, apart from the one
     field of each that the engine reads *)
  FunctionCallRestT : Type;
  ReporterSettingsT : Type;
  (* the embedded template file system, a package-level variable *)
  krknaiTemplatesFS : embedFS;
  (* pure library functions *)
  filepath_Join : string -> string -> string;
  time_Format_RFC3339 : TimeT -> string
}.

(** ** Go values *)

(** An [error] value: one that carries a message ([errors.New], or
    [fmt.Errorf] with no verb), or [fmt.Errorf(prefix ++ "%w", err)]. *)
Inductive error : Type :=
| errors_New (msg : string)
| fmt_Errorf_w (prefix : string) (err : error).

Fixpoint error_Error (e : error) : string :=
  match e with
  | errors_New msg => msg
  | fmt_Errorf_w prefix err => prefix ++ error_Error err
  end.

Definition errors_Unwrap (e : error) : option error :=
  match e with
  | errors_New _ => None
  | fmt_Errorf_w _ err => Some err
  end.

(** Go's [int] on a 64-bit platform. *)
Definition int_wrap (z : Z) : Z := (z + 2 ^ 63) mod 2 ^ 64 - 2 ^ 63.
Definition int_max : Z := 2 ^ 63 - 1.

(** A slice is nil or holds elements; [range] and [len] see a nil slice
    as an empty one. *)
Definition slice (A : Type) : Type := option (list A).
Definition elems {A} (s : slice A) : list A :=
  match s with None => [] | Some l => l end.
Definition len {A} (s : slice A) : Z := Z.of_nat (length (elems s)).

Definition LF : string := String (Ascii.ascii_of_nat 10) EmptyString.

Section Model.
Context `{Externals}.

(** ** Data model *)

(** The aggregator's summary: the fields the engine reads. *)
Record SummaryT : Type := {
  TotalScenarioCount : Z;
  SuccessfulScenarioCount : Z;
  FailedScenarioCount : Z;
  Generations : Z;
  MaxFitnessScore : Float64T;
  AvgFitnessScore : Float64T;
  ScenarioTypes : ScenarioTypesT
}.

(** krknAggregator.KrknAIData: the fields the engine reads. *)
Record KrknAIData : Type := {
  Summary : SummaryT;
  TopScenarios : TopScenariosT;
  FailedScenarios : FailedScenariosT;
  HealthCheckReport : HealthCheckReportT;
  LogArtifacts : LogArtifactsT;
  ConfigSummary : ConfigSummaryT
}.

(** [any]: the dynamic values that the engine stores in its
    [map[string]any] values. *)
Inductive any : Type :=
| any_string (s : string)
| any_int (n : Z)
| any_float64 (f : Float64T)
| any_ScenarioTypes (m : ScenarioTypesT)
| any_Summary (s : SummaryT)
| any_TopScenarios (l : TopScenariosT)
| any_FailedScenarios (l : FailedScenariosT)
| any_HealthCheckReport (r : HealthCheckReportT)
| any_LogArtifacts (l : LogArtifactsT)
| any_ConfigSummary (c : ConfigSummaryT)
| any_map (m : gmap string any).

(** llm.AnalysisConfig; a nil pointer field is [None]. *)
Record llm_AnalysisConfig : Type := {
  Temperature : option TemperatureT;
  MaxTokens : option MaxTokensT;
  TopP : option TopPT;
  llm_Other : LLMOtherT
}.

Record reporter_ReporterConfig : Type := {
  reporter_Type : string;
  reporter_Settings : ReporterSettingsT
}.

Record reporter_NotificationConfig : Type := {
  Enabled : bool;
  Reporters : list reporter_ReporterConfig
}.

(** Config holds configuration for the krkn-ai analysis engine. *)
Record Config : Type := {
  ResultsDir : string;
  APIKey : string;
  LLMConfig : option llm_AnalysisConfig;
  NotificationConfig : option reporter_NotificationConfig;
  TopScenariosCount : Z
}.

Record genai_FunctionCall : Type := {
  Name : string;
  FunctionCall_rest : FunctionCallRestT
}.

(** Result represents the analysis output. *)
Record Result : Type := {
  Status : string;
  Content : string;
  Metadata : gmap string any;
  Error : string;
  Prompt : string;
  ToolCalls : slice genai_FunctionCall
}.

(** What [LLMClient.Analyze] returns: the fields the engine reads. *)
Record llm_AnalysisResult : Type := {
  llm_Content : string;
  llm_ToolCalls : slice genai_FunctionCall
}.

(** reporter.AnalysisResult: the fields the engine sets. *)
Record reporter_AnalysisResult : Type := {
  reporter_Status : string;
  reporter_Content : string;
  reporter_Metadata : gmap string any;
  reporter_Error : string;
  reporter_Prompt : string
}.

(** Engine analyzes krkn-ai chaos test results using LLM.  [New] is the
    only constructor and stores the configuration it has just read from,
    so the [config] of an engine is never nil. *)
Record Engine : Type := {
  config : Config;
  aggregator : KrknAIAggregatorT;
  promptStore : PromptStoreT;
  llmClient : LLMClientT;
  reporterRegistry : ReporterRegistryT
}.

(** ** Calls to collaborators

    One constructor per function or method of another package that the
    engine calls; the index is the type of the answer.  A Go call that
    returns [(value, err)] answers with the error or with the value: the
    engine reads the value only after it has seen a nil error, and takes a
    pointer that comes with a nil error to be non-nil.  An answer of a nil
    pointer together with a nil error, which the engine would dereference,
    is therefore outside the model, and nothing below says what Run does on
    it.  A call that returns
    only an [error] answers with [None] for nil.  Assignments through a
    pointer a collaborator returned (the three overrides) are modelled as a
    new value handed to the next call. *)

Inductive Effect : Type -> Type :=
| NewKrknAIAggregator (ctx : ContextT) : Effect KrknAIAggregatorT
| WithTopScenariosCount (agg : KrknAIAggregatorT) (n : Z) : Effect unit
| fs_Sub (fsys : embedFS) (dir : string) : Effect (error + fsFS)
| NewPromptStore (fsys : fsFS) : Effect (error + PromptStoreT)
| NewGeminiClient (ctx : ContextT) (apiKey : string)
    : Effect (error + LLMClientT)
| NewReporterRegistry : Effect ReporterRegistryT
| NewSlackReporter : Effect ReporterT
| Register (reg : ReporterRegistryT) (r : ReporterT) : Effect unit
| Collect (agg : KrknAIAggregatorT) (ctx : ContextT) (resultsDir : string)
    : Effect (error + KrknAIData)
| tools_NewRegistry (logArtifacts : LogArtifactsT) : Effect ToolRegistryT
| RenderPrompt (ps : PromptStoreT) (templateID : string)
    (vars : gmap string any)
    : Effect (error + string * llm_AnalysisConfig)
| Analyze (c : LLMClientT) (ctx : ContextT) (userPrompt : string)
    (llmConfig : llm_AnalysisConfig) (toolRegistry : ToolRegistryT)
    : Effect (error + llm_AnalysisResult)
| os_MkdirAll (path : string) (perm : Z) : Effect (option error)
| time_Now : Effect TimeT
| yaml_Marshal (v : gmap string any) : Effect (error + list byte)
| os_WriteFile (name : string) (data : list byte) (perm : Z)
    : Effect (option error)
| SendNotification (reg : ReporterRegistryT) (ctx : ContextT)
    (result : reporter_AnalysisResult) (rc : reporter_ReporterConfig)
    : Effect (option error)
| Fprintf_Stderr (msg : string) : Effect unit.

(** A Go function body: it returns, panics, or calls a collaborator and
    goes on with the answer. *)
Inductive Prog (A : Type) : Type :=
| Ret (a : A)
| Panic (msg : string)
| Vis {X : Type} (e : Effect X) (k : X -> Prog A).

Arguments Ret {A} a.
Arguments Panic {A} msg.
Arguments Vis {A X} e k.

Fixpoint bind {A B} (m : Prog A) (f : A -> Prog B) : Prog B :=
  match m with
  | Ret a => f a
  | Panic msg => Panic msg
  | Vis e k => Vis e (fun x => bind (k x) f)
  end.

Definition call {X} (e : Effect X) : Prog X := Vis e Ret.

(** One call as the environment saw it: the call and its answer. *)
Inductive Event : Type :=
| Ev {X : Type} (e : Effect X) (x : X).

Inductive Outcome (A : Type) : Type :=
| Returned (a : A)
| Panicked (msg : string).

Arguments Returned {A} a.
Arguments Panicked {A} msg.

(** An environment answers every call and moves to a next state. *)
Definition Env (S : Type) : Type := forall X, Effect X -> S -> X * S.

Fixpoint interp {S A} (h : Env S) (p : Prog A) (s : S)
  : Outcome A * S * list Event :=
  match p with
  | Ret a => (Returned a, s, [])
  | Panic msg => (Panicked msg, s, [])
  | Vis e k =>
      let '(x, s1) := h _ e s in
      let '(o, s2, tr) := interp h (k x) s1 in
      (o, s2, Ev e x :: tr)
  end.

End Model.

Arguments Ret {_ A} a.
Arguments Panic {_ A} msg.
Arguments Vis {_ A X} e k.
Arguments Returned {A} a.
Arguments Panicked {A} msg.

Notation "'do' x <- m ; k" := (bind m (fun x => k))
  (at level 10, x name, m at level 100, k at level 200).


Section Code.
Context `{Externals}.

(** ** Constants of the package *)

Definition analysisDirName : string := "llm-analysis".
Definition summaryFileName : string := "summary.yaml".
(** krknAIPromptTemplate is the prompt template ID for krkn-ai analysis. *)
Definition krknAIPromptTemplate : string := "krknai".

Definition nil_dereference : string :=
  "runtime error: invalid memory address or nil pointer dereference".

(** ** New creates a new krkn-ai analysis engine.

    [config] is a [*Config]: [None] is the nil pointer, and reading a field
    through it panics. *)
Definition New (ctx : ContextT) (config : option Config)
  : Prog (option Engine * option error) :=
  match config with
  | None => Panic nil_dereference
  | Some c =>
    if String.eqb (ResultsDir c) "" then
      Ret (None, Some (errors_New "results directory is required"))
    else if String.eqb (APIKey c) "" then
      Ret (None,
           Some (errors_New "GEMINI_API_KEY is required for krkn-ai analysis"))
    else
      do agg <- call (NewKrknAIAggregator ctx);
      do _ <- (if (0 <? TopScenariosCount c)%Z
               then call (WithTopScenariosCount agg (TopScenariosCount c))
               else Ret tt);
      do r <- call (fs_Sub krknaiTemplatesFS "prompts");
      match r with
      | inl err =>
          Ret (None,
               Some (fmt_Errorf_w "failed to access embedded prompts: " err))
      | inr templatesFS =>
      do r <- call (NewPromptStore templatesFS);
      match r with
      | inl err =>
          Ret (None,
               Some (fmt_Errorf_w "failed to initialize prompt store: " err))
      | inr ps =>
      do r <- call (NewGeminiClient ctx (APIKey c));
      match r with
      | inl err =>
          Ret (None,
               Some (fmt_Errorf_w "failed to initialize LLM client: " err))
      | inr client =>
      do reg <- call NewReporterRegistry;
      do slack <- call NewSlackReporter;
      do _ <- call (Register reg slack);
      Ret (Some {| config := c;
                   aggregator := agg;
                   promptStore := ps;
                   llmClient := client;
                   reporterRegistry := reg |}, None)
      end end end
  end.

(** ** The pieces of Run *)

(** The template variables (the map literal [vars]). *)
Definition templateVars (data : KrknAIData) : gmap string any :=
  <["Summary" := any_Summary (Summary data)]>
  (<["TopScenarios" := any_TopScenarios (TopScenarios data)]>
  (<["FailedScenarios" := any_FailedScenarios (FailedScenarios data)]>
  (<["HealthCheckReport" := any_HealthCheckReport (HealthCheckReport data)]>
  (<["LogArtifacts" := any_LogArtifacts (LogArtifacts data)]>
  (<["ConfigSummary" := any_ConfigSummary (ConfigSummary data)]> ∅))))).

Definition set_Temperature (v : option TemperatureT) (c : llm_AnalysisConfig)
  : llm_AnalysisConfig :=
  {| Temperature := v; MaxTokens := MaxTokens c; TopP := TopP c;
     llm_Other := llm_Other c |}.
Definition set_MaxTokens (v : option MaxTokensT) (c : llm_AnalysisConfig)
  : llm_AnalysisConfig :=
  {| Temperature := Temperature c; MaxTokens := v; TopP := TopP c;
     llm_Other := llm_Other c |}.
Definition set_TopP (v : option TopPT) (c : llm_AnalysisConfig)
  : llm_AnalysisConfig :=
  {| Temperature := Temperature c; MaxTokens := MaxTokens c; TopP := v;
     llm_Other := llm_Other c |}.

(** "Apply LLM config overrides": the three assignments through the
    [llmConfig] pointer, each under its own nil test. *)
Definition applyOverrides (cfg : Config) (llmConfig : llm_AnalysisConfig)
  : llm_AnalysisConfig :=
  match LLMConfig cfg with
  | None => llmConfig
  | Some o =>
      let llmConfig :=
        match Temperature o with
        | Some _ => set_Temperature (Temperature o) llmConfig
        | None => llmConfig
        end in
      let llmConfig :=
        match MaxTokens o with
        | Some _ => set_MaxTokens (MaxTokens o) llmConfig
        | None => llmConfig
        end in
      let llmConfig :=
        match TopP o with
        | Some _ => set_TopP (TopP o) llmConfig
        | None => llmConfig
        end in
      llmConfig
  end.

(** The function literal under "artifacts_examined": [count] is an [int]
    that starts at 0 and is incremented once per matching tool call. *)
Definition artifactsExamined (toolCalls : slice genai_FunctionCall) : Z :=
  fold_left
    (fun count tc =>
       if String.eqb (Name tc) "read_file" then int_wrap (count + 1)
       else count)
    (elems toolCalls) 0.

Definition resultMetadata (data : KrknAIData) (result : llm_AnalysisResult)
  : gmap string any :=
  <["analysis_type" := any_string "krknai"]>
  (<["total_scenarios" := any_int (TotalScenarioCount (Summary data))]>
  (<["successful_scenarios" :=
       any_int (SuccessfulScenarioCount (Summary data))]>
  (<["failed_scenarios" := any_int (FailedScenarioCount (Summary data))]>
  (<["generations" := any_int (Generations (Summary data))]>
  (<["max_fitness_score" := any_float64 (MaxFitnessScore (Summary data))]>
  (<["artifacts_examined" :=
       any_int (artifactsExamined (llm_ToolCalls result))]>
  (<["tool_calls" := any_int (len (llm_ToolCalls result))]> ∅))))))).

(** "Build analysis result": the fields the literal does not name keep
    their zero value. *)
Definition buildResult (data : KrknAIData) (userPrompt : string)
  (result : llm_AnalysisResult) : Result :=
  {| Status := "completed";
     Content := llm_Content result;
     Metadata := resultMetadata data result;
     Error := "";
     Prompt := userPrompt;
     ToolCalls := None |}.

(** ** writeSummary writes the analysis result to a YAML summary file. *)

Definition runSummary (data : KrknAIData) : gmap string any :=
  <["total_scenarios" := any_int (TotalScenarioCount (Summary data))]>
  (<["successful_scenarios" :=
       any_int (SuccessfulScenarioCount (Summary data))]>
  (<["failed_scenarios" := any_int (FailedScenarioCount (Summary data))]>
  (<["generations" := any_int (Generations (Summary data))]>
  (<["max_fitness_score" := any_float64 (MaxFitnessScore (Summary data))]>
  (<["avg_fitness_score" := any_float64 (AvgFitnessScore (Summary data))]>
  (<["scenario_types" := any_ScenarioTypes (ScenarioTypes (Summary data))]>
   ∅)))))).

Definition summaryDoc (now : TimeT) (result : Result) (data : KrknAIData)
  : gmap string any :=
  <["timestamp" := any_string (time_Format_RFC3339 now)]>
  (<["analysis_type" := any_string "krknai"]>
  (<["run_summary" := any_map (runSummary data)]>
  (<["top_scenarios" := any_TopScenarios (TopScenarios data)]>
  (<["failed_scenarios" := any_FailedScenarios (FailedScenarios data)]>
  (<["status" := any_string (Status result)]>
  (<["prompt" := any_string (Prompt result)]>
  (<["response" := any_string (Content result)]>
  (<["metadata" := any_map (Metadata result)]>
  (<["error" := any_string (Error result)]> ∅))))))))).

Definition writeSummary (e : Engine) (result : Result) (data : KrknAIData)
  : Prog (option error) :=
  let analysisDir := filepath_Join (ResultsDir (config e)) analysisDirName in
  do r <- call (os_MkdirAll analysisDir 493 (* 0o755 *));
  match r with
  | Some err =>
      Ret (Some (fmt_Errorf_w "failed to create analysis directory: " err))
  | None =>
  do now <- call time_Now;
  let summary := summaryDoc now result data in
  do r <- call (yaml_Marshal summary);
  match r with
  | inl err =>
      Ret (Some (fmt_Errorf_w "failed to marshal summary to YAML: " err))
  | inr yamlData =>
  let summaryPath := filepath_Join analysisDir summaryFileName in
  do r <- call (os_WriteFile summaryPath yamlData 420 (* 0o644 *));
  match r with
  | Some err =>
      Ret (Some (fmt_Errorf_w "failed to write summary file: " err))
  | None => Ret None
  end end end.

(** ** sendNotifications sends analysis results to configured reporters. *)

Definition toReporterResult (result : Result) : reporter_AnalysisResult :=
  {| reporter_Status := Status result;
     reporter_Content := Content result;
     reporter_Metadata := Metadata result;
     reporter_Error := Error result;
     reporter_Prompt := Prompt result |}.

Definition warning (rc : reporter_ReporterConfig) (err : error) : string :=
  "Warning: Failed to send notification via " ++ reporter_Type rc ++ ": "
  ++ error_Error err ++ LF.

(** The [range] loop over the configured reporters. *)
Fixpoint sendEach (e : Engine) (ctx : ContextT)
  (reporterResult : reporter_AnalysisResult)
  (reporters : list reporter_ReporterConfig) : Prog unit :=
  match reporters with
  | [] => Ret tt
  | reporterConfig :: rest =>
      do r <- call (SendNotification (reporterRegistry e) ctx reporterResult
                      reporterConfig);
      do _ <- match r with
              | Some err => call (Fprintf_Stderr (warning reporterConfig err))
              | None => Ret tt
              end;
      sendEach e ctx reporterResult rest
  end.

(** Run calls it only under a nil test; called with a nil
    NotificationConfig it would dereference nil. *)
Definition sendNotifications (e : Engine) (ctx : ContextT) (result : Result)
  : Prog unit :=
  let reporterResult := toReporterResult result in
  match NotificationConfig (config e) with
  | None => Panic nil_dereference
  | Some nc => sendEach e ctx reporterResult (Reporters nc)
  end.

(** ** Run executes the krkn-ai analysis workflow. *)

Definition notificationsEnabled (cfg : Config) : bool :=
  match NotificationConfig cfg with
  | None => false
  | Some nc => Enabled nc
  end.

Definition Run (e : Engine) (ctx : ContextT)
  : Prog (option Result * option error) :=
  do r <- call (Collect (aggregator e) ctx (ResultsDir (config e)));
  match r with
  | inl err =>
      Ret (None, Some (fmt_Errorf_w "failed to collect krkn-ai results: " err))
  | inr data =>
  do toolRegistry <- call (tools_NewRegistry (LogArtifacts data));
  let vars := templateVars data in
  do r <- call (RenderPrompt (promptStore e) krknAIPromptTemplate vars);
  match r with
  | inl err => Ret (None, Some (fmt_Errorf_w "failed to render prompt: " err))
  | inr (userPrompt, llmConfig) =>
  let llmConfig := applyOverrides (config e) llmConfig in
  do r <- call (Analyze (llmClient e) ctx userPrompt llmConfig toolRegistry);
  match r with
  | inl err => Ret (None, Some (fmt_Errorf_w "LLM analysis failed: " err))
  | inr result =>
  let analysisResult := buildResult data userPrompt result in
  do r <- writeSummary e analysisResult data;
  match r with
  | Some err =>
      Ret (None, Some (fmt_Errorf_w "failed to write analysis summary: " err))
  | None =>
  do _ <- (if notificationsEnabled (config e)
           then sendNotifications e ctx analysisResult
           else Ret tt);
  Ret (Some analysisResult, None)
  end end end end.

End Code.

(** ** Reading a trace *)

Section Traces.
Context `{Externals}.

(** What each kind of call looked like, or [None] for another kind. *)
Definition as_Collect (ev : Event)
  : option (KrknAIAggregatorT * ContextT * string * (error + KrknAIData)) :=
  match ev with
  | Ev e x =>
      match e in Effect X return X -> option _ with
      | Collect agg ctx dir => fun ans => Some (agg, ctx, dir, ans)
      | _ => fun _ => None
      end x
  end.

Definition as_RenderPrompt (ev : Event)
  : option (PromptStoreT * string * gmap string any
            * (error + string * llm_AnalysisConfig)) :=
  match ev with
  | Ev e x =>
      match e in Effect X return X -> option _ with
      | RenderPrompt ps id vars => fun ans => Some (ps, id, vars, ans)
      | _ => fun _ => None
      end x
  end.

Definition as_Analyze (ev : Event)
  : option (LLMClientT * ContextT * string * llm_AnalysisConfig
            * ToolRegistryT * (error + llm_AnalysisResult)) :=
  match ev with
  | Ev e x =>
      match e in Effect X return X -> option _ with
      | Analyze c ctx p cfg reg => fun ans => Some (c, ctx, p, cfg, reg, ans)
      | _ => fun _ => None
      end x
  end.

Definition as_MkdirAll (ev : Event) : option (string * Z * option error) :=
  match ev with
  | Ev e x =>
      match e in Effect X return X -> option _ with
      | os_MkdirAll path perm => fun ans => Some (path, perm, ans)
      | _ => fun _ => None
      end x
  end.

Definition as_Marshal (ev : Event)
  : option (gmap string any * (error + list byte)) :=
  match ev with
  | Ev e x =>
      match e in Effect X return X -> option _ with
      | yaml_Marshal v => fun ans => Some (v, ans)
      | _ => fun _ => None
      end x
  end.

Definition as_WriteFile (ev : Event)
  : option (string * list byte * Z * option error) :=
  match ev with
  | Ev e x =>
      match e in Effect X return X -> option _ with
      | os_WriteFile name data perm => fun ans => Some (name, data, perm, ans)
      | _ => fun _ => None
      end x
  end.

Definition as_Send (ev : Event)
  : option (ReporterRegistryT * ContextT * reporter_AnalysisResult
            * reporter_ReporterConfig * option error) :=
  match ev with
  | Ev e x =>
      match e in Effect X return X -> option _ with
      | SendNotification reg ctx r rc => fun ans => Some (reg, ctx, r, rc, ans)
      | _ => fun _ => None
      end x
  end.

Definition as_Stderr (ev : Event) : option string :=
  match ev with
  | Ev e x =>
      match e in Effect X return X -> option _ with
      | Fprintf_Stderr msg => fun _ => Some msg
      | _ => fun _ => None
      end x
  end.

Definition as_Now (ev : Event) : option TimeT :=
  match ev with
  | Ev e x =>
      match e in Effect X return X -> option _ with
      | time_Now => fun now => Some now
      | _ => fun _ => None
      end x
  end.

Definition collects (tr : list Event) := omap as_Collect tr.
Definition clock (tr : list Event) := omap as_Now tr.
Definition renders (tr : list Event) := omap as_RenderPrompt tr.
Definition analyzes (tr : list Event) := omap as_Analyze tr.
Definition mkdirs (tr : list Event) := omap as_MkdirAll tr.
Definition marshals (tr : list Event) := omap as_Marshal tr.
Definition fileWrites (tr : list Event) := omap as_WriteFile tr.
Definition sends (tr : list Event) := omap as_Send tr.
Definition stderr (tr : list Event) := omap as_Stderr tr.

(** The summary file was written in this trace. *)
Definition persisted (tr : list Event) : bool :=
  existsb (fun w => match w with (_, _, _, None) => true | _ => false end)
          (fileWrites tr).

(** ** The calls Run makes, by stage *)

Definition analysisDir (e : Engine) : string :=
  filepath_Join (ResultsDir (config e)) analysisDirName.
Definition summaryPath (e : Engine) : string :=
  filepath_Join (analysisDir e) summaryFileName.

Definition evCollect (e : Engine) (ctx : ContextT) ans : Event :=
  Ev (Collect (aggregator e) ctx (ResultsDir (config e))) ans.
Definition evRegistry (data : KrknAIData) reg : Event :=
  Ev (tools_NewRegistry (LogArtifacts data)) reg.
Definition evRender (e : Engine) (data : KrknAIData) ans : Event :=
  Ev (RenderPrompt (promptStore e) krknAIPromptTemplate (templateVars data))
     ans.
Definition evAnalyze (e : Engine) (ctx : ContextT) (userPrompt : string)
  (cfg0 : llm_AnalysisConfig) (reg : ToolRegistryT) ans : Event :=
  Ev (Analyze (llmClient e) ctx userPrompt (applyOverrides (config e) cfg0)
        reg) ans.
Definition evMkdir (e : Engine) ans : Event :=
  Ev (os_MkdirAll (analysisDir e) 493) ans.
Definition evNow (now : TimeT) : Event := Ev time_Now now.
Definition evMarshal (now : TimeT) (r : Result) (data : KrknAIData) ans
  : Event :=
  Ev (yaml_Marshal (summaryDoc now r data)) ans.
Definition evWrite (e : Engine) (yamlData : list byte) ans : Event :=
  Ev (os_WriteFile (summaryPath e) yamlData 420) ans.

(** The three calls that precede the model invocation, all answered
    without error. *)
Definition prepared (e : Engine) (ctx : ContextT) (data : KrknAIData)
  (reg : ToolRegistryT) (userPrompt : string) (cfg0 : llm_AnalysisConfig)
  : list Event :=
  [evCollect e ctx (inr data); evRegistry data reg;
   evRender e data (inr (userPrompt, cfg0))].

(** The reporters Run dispatches to. *)
Definition configuredReporters (cfg : Config)
  : list reporter_ReporterConfig :=
  match NotificationConfig cfg with
  | Some nc => if Enabled nc then Reporters nc else []
  | None => []
  end.

(** The calls of the dispatch loop, given each reporter entry with the
    answer its send got: one send per entry, and one line on stderr after
    each send that failed. *)
Definition notifyTrace (e : Engine) (ctx : ContextT)
  (rr : reporter_AnalysisResult)
  (answers : list (reporter_ReporterConfig * option error)) : list Event :=
  flat_map
    (fun '(rc, ans) =>
       Ev (SendNotification (reporterRegistry e) ctx rr rc) ans ::
       match ans with
       | Some err => [Ev (Fprintf_Stderr (warning rc err)) tt]
       | None => []
       end)
    answers.

(** All the ways [writeSummary] can go. *)
Inductive writeSummaryTrace (e : Engine) (result : Result)
  (data : KrknAIData) : option error -> list Event -> Prop :=
| ws_mkdir_failed err :
    writeSummaryTrace e result data
      (Some (fmt_Errorf_w "failed to create analysis directory: " err))
      [evMkdir e (Some err)]
| ws_marshal_failed now err :
    writeSummaryTrace e result data
      (Some (fmt_Errorf_w "failed to marshal summary to YAML: " err))
      [evMkdir e None; evNow now; evMarshal now result data (inl err)]
| ws_write_failed now yamlData err :
    writeSummaryTrace e result data
      (Some (fmt_Errorf_w "failed to write summary file: " err))
      [evMkdir e None; evNow now; evMarshal now result data (inr yamlData);
       evWrite e yamlData (Some err)]
| ws_done now yamlData :
    writeSummaryTrace e result data None
      [evMkdir e None; evNow now; evMarshal now result data (inr yamlData);
       evWrite e yamlData None].

(** All the ways [Run] can go. *)
Inductive RunTrace (e : Engine) (ctx : ContextT)
  : option Result * option error -> list Event -> Prop :=
| run_collect_failed err :
    RunTrace e ctx
      (None, Some (fmt_Errorf_w "failed to collect krkn-ai results: " err))
      [evCollect e ctx (inl err)]
| run_render_failed data reg err :
    RunTrace e ctx
      (None, Some (fmt_Errorf_w "failed to render prompt: " err))
      [evCollect e ctx (inr data); evRegistry data reg;
       evRender e data (inl err)]
| run_analyze_failed data reg userPrompt cfg0 err :
    RunTrace e ctx
      (None, Some (fmt_Errorf_w "LLM analysis failed: " err))
      (prepared e ctx data reg userPrompt cfg0
       ++ [evAnalyze e ctx userPrompt cfg0 reg (inl err)])
| run_summary_failed data reg userPrompt cfg0 res err trW :
    writeSummaryTrace e (buildResult data userPrompt res) data (Some err) trW ->
    RunTrace e ctx
      (None, Some (fmt_Errorf_w "failed to write analysis summary: " err))
      (prepared e ctx data reg userPrompt cfg0
       ++ [evAnalyze e ctx userPrompt cfg0 reg (inr res)] ++ trW)
| run_done data reg userPrompt cfg0 res trW answers :
    writeSummaryTrace e (buildResult data userPrompt res) data None trW ->
    map fst answers = configuredReporters (config e) ->
    RunTrace e ctx
      (Some (buildResult data userPrompt res), None)
      (prepared e ctx data reg userPrompt cfg0
       ++ [evAnalyze e ctx userPrompt cfg0 reg (inr res)] ++ trW
       ++ notifyTrace e ctx
            (toReporterResult (buildResult data userPrompt res)) answers).

(** A caller's override of one optional parameter, in the words of the
    specification: the caller's value if present, else the default. *)
Definition overridden {A} (caller : option A) (default : option A)
  : option A :=
  match caller with
  | Some v => Some v
  | None => default
  end.

(** The entries of a tool-call list that name the file-read tool. *)
Definition readFileCalls (tcs : list genai_FunctionCall)
  : list genai_FunctionCall :=
  List.filter (fun tc => String.eqb (Name tc) "read_file") tcs.

(** The caller's value for one of the optional parameters: absent when
    the caller gave no LLM configuration at all. *)
Definition callerValue {A} (cfg : Config)
  (field : llm_AnalysisConfig -> option A) : option A :=
  match LLMConfig cfg with
  | Some o => field o
  | None => None
  end.

(** The sends of a dispatch, as [sends] reads them from a trace. *)
Definition sent (e : Engine) (ctx : ContextT) (rr : reporter_AnalysisResult)
  (answers : list (reporter_ReporterConfig * option error)) :=
  map (fun a : reporter_ReporterConfig * option error =>
         (reporterRegistry e, ctx, rr, fst a, snd a)) answers.

(** The lines a dispatch writes to stderr: one per failed send. *)
Definition warnings
  (answers : list (reporter_ReporterConfig * option error)) : list string :=
  omap (fun a : reporter_ReporterConfig * option error =>
          match snd a with
          | Some err => Some (warning (fst a) err)
          | None => None
          end) answers.

(** What the specification lists as the content of the summary document:
    a timestamp, the analysis-type tag, the run-summary block, the two
    scenario lists as aggregation returned them, and the result's status,
    prompt, content, metadata and error. *)
Definition runSummaryContains (rs : gmap string any) (data : KrknAIData)
  : Prop :=
  rs !! "total_scenarios" = Some (any_int (TotalScenarioCount (Summary data)))
  /\ rs !! "successful_scenarios"
     = Some (any_int (SuccessfulScenarioCount (Summary data)))
  /\ rs !! "failed_scenarios"
     = Some (any_int (FailedScenarioCount (Summary data)))
  /\ rs !! "generations" = Some (any_int (Generations (Summary data)))
  /\ rs !! "max_fitness_score"
     = Some (any_float64 (MaxFitnessScore (Summary data)))
  /\ rs !! "avg_fitness_score"
     = Some (any_float64 (AvgFitnessScore (Summary data)))
  /\ rs !! "scenario_types"
     = Some (any_ScenarioTypes (ScenarioTypes (Summary data))).

Definition summaryContains (doc : gmap string any) (now : TimeT)
  (r : Result) (data : KrknAIData) : Prop :=
  doc !! "timestamp" = Some (any_string (time_Format_RFC3339 now))
  /\ doc !! "analysis_type" = Some (any_string "krknai")
  /\ (exists rs, doc !! "run_summary" = Some (any_map rs)
                 /\ runSummaryContains rs data)
  /\ doc !! "top_scenarios" = Some (any_TopScenarios (TopScenarios data))
  /\ doc !! "failed_scenarios"
     = Some (any_FailedScenarios (FailedScenarios data))
  /\ doc !! "status" = Some (any_string (Status r))
  /\ doc !! "prompt" = Some (any_string (Prompt r))
  /\ doc !! "response" = Some (any_string (Content r))
  /\ doc !! "metadata" = Some (any_map (Metadata r))
  /\ doc !! "error" = Some (any_string (Error r)).

End Traces.

(** ** A concrete world

    One instance of the external types and a scripted environment, used to
    run the engine on concrete inputs. *)

Module Demo.

#[local] Instance externals : Externals := {|
  ContextT := unit;
  KrknAIAggregatorT := unit;
  PromptStoreT := unit;
  LLMClientT := unit;
  ReporterRegistryT := unit;
  ReporterT := unit;
  embedFS := unit;
  fsFS := unit;
  ToolRegistryT := list string;
  TimeT := string;
  Float64T := Z * Z;                  (* a decimal: mantissa, exponent *)
  ScenarioTypesT := gmap string Z;
  TopScenariosT := list string;
  FailedScenariosT := list string;
  HealthCheckReportT := string;
  LogArtifactsT := list string;
  ConfigSummaryT := string;
  TemperatureT := Z * Z;
  MaxTokensT := Z;
  TopPT := Z * Z;
  LLMOtherT := string;
  FunctionCallRestT := unit;
  ReporterSettingsT := string;
  krknaiTemplatesFS := tt;
  filepath_Join := fun a b => a ++ "/" ++ b;
  time_Format_RFC3339 := fun t => t
|}.

(** The answers of the scripted environment. *)
Record Script : Type := {
  collectAns : error + KrknAIData;
  renderAns : error + string * llm_AnalysisConfig;
  analyzeAns : error + llm_AnalysisResult;
  mkdirAns : option error;
  marshalAns : error + list byte;
  writeAns : option error;
  sendAns : reporter_ReporterConfig -> option error
}.

(** The state counts the calls made so far. *)
Definition env (sc : Script) : Env nat :=
  fun X (e : Effect X) (n : nat) =>
    (match e in Effect X return X with
     | NewKrknAIAggregator _ => tt
     | WithTopScenariosCount _ _ => tt
     | fs_Sub _ _ => inr tt
     | NewPromptStore _ => inr tt
     | NewGeminiClient _ _ => inr tt
     | NewReporterRegistry => tt
     | NewSlackReporter => tt
     | Register _ _ => tt
     | Collect _ _ _ => collectAns sc
     | tools_NewRegistry logs => logs
     | RenderPrompt _ _ _ => renderAns sc
     | Analyze _ _ _ _ _ => analyzeAns sc
     | os_MkdirAll _ _ => mkdirAns sc
     | time_Now => "2025-01-01T00:00:00Z"
     | yaml_Marshal _ => marshalAns sc
     | os_WriteFile _ _ _ => writeAns sc
     | SendNotification _ _ _ rc => sendAns sc rc
     | Fprintf_Stderr _ => tt
     end, S n).

Definition summary : SummaryT := {|
  TotalScenarioCount := 50;
  SuccessfulScenarioCount := 45;
  FailedScenarioCount := 5;
  Generations := 7;
  MaxFitnessScore := (935, -1);
  AvgFitnessScore := (412, -1);
  ScenarioTypes := {[ "pod-scenarios" := 30; "node-cpu-hog" := 20 ]}
|}.

Definition data : KrknAIData := {|
  Summary := summary;
  TopScenarios := ["pod-scenarios/12"];
  FailedScenarios := ["node-cpu-hog/3"];
  HealthCheckReport := "healthy";
  LogArtifacts := ["run.log"; "krkn.log"];
  ConfigSummary := "generations: 7"
|}.

Definition templateDefaults : llm_AnalysisConfig := {|
  Temperature := Some (2, -1);
  MaxTokens := Some 4096;
  TopP := Some (9, -1);
  llm_Other := "system instruction"
|}.

Definition toolCall (name : string) : genai_FunctionCall :=
  {| Name := name; FunctionCall_rest := tt |}.

Definition analysis : llm_AnalysisResult := {|
  llm_Content := "two scenarios degrade the API server";
  llm_ToolCalls :=
    Some [toolCall "read_file"; toolCall "read_file"; toolCall "other_tool"]
|}.

Definition slack : reporter_ReporterConfig :=
  {| reporter_Type := "slack"; reporter_Settings := "https://hooks/a" |}.
Definition pager : reporter_ReporterConfig :=
  {| reporter_Type := "pager"; reporter_Settings := "https://hooks/b" |}.

(** The caller overrides the temperature only; both reporters are
    configured. *)
Definition cfg : Config := {|
  ResultsDir := "/results";
  APIKey := "key";
  LLMConfig := Some {| Temperature := Some (7, -1); MaxTokens := None;
                       TopP := None; llm_Other := "" |};
  NotificationConfig :=
    Some {| Enabled := true; Reporters := [slack; pager] |};
  TopScenariosCount := 10
|}.

Definition engine : Engine := {|
  config := cfg;
  aggregator := tt;
  promptStore := tt;
  llmClient := tt;
  reporterRegistry := tt
|}.

Definition yamlBytes : list byte := [x6f; x6b].

(** Everything succeeds, except that the pager reporter fails. *)
Definition happy : Script := {|
  collectAns := inr data;
  renderAns := inr ("analyse this run", templateDefaults);
  analyzeAns := inr analysis;
  mkdirAns := None;
  marshalAns := inr yamlBytes;
  writeAns := None;
  sendAns := fun rc =>
    if String.eqb (reporter_Type rc) "pager"
    then Some (errors_New "webhook returned 500") else None
|}.

(** Aggregation fails. *)
Definition noResults : Script := {|
  collectAns := inl (errors_New "no results found");
  renderAns := renderAns happy;
  analyzeAns := analyzeAns happy;
  mkdirAns := None;
  marshalAns := marshalAns happy;
  writeAns := None;
  sendAns := sendAns happy
|}.

(** The results directory is read-only. *)
Definition readOnly : Script := {|
  collectAns := collectAns happy;
  renderAns := renderAns happy;
  analyzeAns := analyzeAns happy;
  mkdirAns := Some (errors_New "permission denied");
  marshalAns := marshalAns happy;
  writeAns := None;
  sendAns := sendAns happy
|}.

Definition result : Result :=
  buildResult data "analyse this run" analysis.

(** The calls of the run in which everything succeeds. *)
Definition happyTrace : list Event :=
  snd (interp (env happy) (Run engine tt) 0%nat).

(** A configuration without a results directory. *)
Definition missingDir : Config := {|
  ResultsDir := "";
  APIKey := "key";
  LLMConfig := None;
  NotificationConfig := None;
  TopScenariosCount := 0
|}.

End Demo.

(** ** More ways to read the engine's traces *)

Section MoreTraces.
Context `{Externals}.

(** The name of the function a call went to. *)
Definition callName (ev : Event) : string :=
  match ev with
  | Ev e _ =>
      match e with
      | NewKrknAIAggregator _ => "krknAggregator.NewKrknAIAggregator"
      | WithTopScenariosCount _ _ => "WithTopScenariosCount"
      | fs_Sub _ _ => "fs.Sub"
      | NewPromptStore _ => "prompts.NewPromptStore"
      | NewGeminiClient _ _ => "llm.NewGeminiClient"
      | NewReporterRegistry => "reporter.NewReporterRegistry"
      | NewSlackReporter => "reporter.NewSlackReporter"
      | Register _ _ => "Register"
      | Collect _ _ _ => "Collect"
      | tools_NewRegistry _ => "tools.NewRegistry"
      | RenderPrompt _ _ _ => "RenderPrompt"
      | Analyze _ _ _ _ _ => "Analyze"
      | os_MkdirAll _ _ => "os.MkdirAll"
      | time_Now => "time.Now"
      | yaml_Marshal _ => "yaml.Marshal"
      | os_WriteFile _ _ _ => "os.WriteFile"
      | SendNotification _ _ _ _ => "SendNotification"
      | Fprintf_Stderr _ => "fmt.Fprintf"
      end
  end.

(** The stages of Run up to the written summary, in source order. *)
Definition pipeline : list string :=
  ["Collect"; "tools.NewRegistry"; "RenderPrompt"; "Analyze"; "os.MkdirAll";
   "time.Now"; "yaml.Marshal"; "os.WriteFile"].

Definition as_NewRegistry (ev : Event)
  : option (LogArtifactsT * ToolRegistryT) :=
  match ev with
  | Ev e x =>
      match e in Effect X return X -> option _ with
      | tools_NewRegistry logs => fun reg => Some (logs, reg)
      | _ => fun _ => None
      end x
  end.

Definition registries (tr : list Event) := omap as_NewRegistry tr.

(** The calls of New before the embedded templates are opened. *)
Definition aggregatorCalls (ctx : ContextT) (c : Config)
  (agg : KrknAIAggregatorT) : list Event :=
  Ev (NewKrknAIAggregator ctx) agg ::
  (if (0 <? TopScenariosCount c)%Z
   then [Ev (WithTopScenariosCount agg (TopScenariosCount c)) tt]
   else []).

End MoreTraces.

(** * The rest of the repository

    The same treatment for the other packages: a Go function is a tree of
    calls over the calls of its own package. *)

Module Go.

Section Prog.
Context {E : Type -> Type}.

Inductive Prog (A : Type) : Type :=
| Ret (a : A)
| Panic (msg : string)
| Vis {X : Type} (e : E X) (k : X -> Prog A).

Arguments Ret {A} a.
Arguments Panic {A} msg.
Arguments Vis {A X} e k.

Fixpoint bind {A B} (m : Prog A) (f : A -> Prog B) : Prog B :=
  match m with
  | Ret a => f a
  | Panic msg => Panic msg
  | Vis e k => Vis e (fun x => bind (k x) f)
  end.

Definition call {X} (e : E X) : Prog X := Vis e Ret.

Inductive Event : Type :=
| Ev {X : Type} (e : E X) (x : X).

Definition Env (S : Type) : Type := forall X, E X -> S -> X * S.

Fixpoint interp {S A} (h : Env S) (p : Prog A) (s : S)
  : Outcome A * S * list Event :=
  match p with
  | Ret a => (Returned a, s, [])
  | Panic msg => (Panicked msg, s, [])
  | Vis e k =>
      let '(x, s1) := h _ e s in
      let '(o, s2, tr) := interp h (k x) s1 in
      (o, s2, Ev e x :: tr)
  end.

End Prog.

Arguments Prog E A : clear implicits.
Arguments Ret {E A} a.
Arguments Panic {E A} msg.
Arguments Vis {E A X} e k.
Arguments Event E : clear implicits.
Arguments Env E S : clear implicits.

End Go.

Notation "'doE' x <- m ; k" := (Go.bind m (fun x => k))
  (at level 10, x name, m at level 100, k at level 200).

Definition nil_pointer : string :=
  "runtime error: invalid memory address or nil pointer dereference".

(** ** Package executor: the krkn-ai.yaml merge and the validator *)

Module executor.

(** What the package takes from strconv, path/filepath and yaml. *)
Class Library : Type := {
  Float64 : Type;
  YamlValue : Type;           (* what yaml decodes into an interface{} *)
  strconv_Atoi : string -> error + Z;
  strconv_ParseFloat64 : string -> error + Float64;
  strconv_ParseBool : string -> error + bool;
  filepath_Dir : string -> string;
  filepath_Join : string -> string -> string
}.

Section Model.
Context `{Library}.

(** A value of type interface{}: a string the merge stored, or whatever
    yaml decoded. *)
Inductive iface : Type :=
| iface_string (s : string)
| iface_yaml (v : YamlValue).

(** FitnessFunction represents the fitness function configuration *)
Record FitnessFunction : Type := {
  Query : string;
  Type_ : string;
  IncludeKrknFailure : bool;
  IncludeHealthCheckFailure : bool;
  IncludeHealthCheckResponseTime : bool;
  Items : slice iface
}.

(** HealthCheckApp represents a single health check application *)
Record HealthCheckApp : Type := {
  Name : string;
  URL : string;
  StatusCode : Z;
  Timeout : Z;
  Interval : Z
}.

(** HealthChecks represents the health checks configuration *)
Record HealthChecks : Type := {
  StopWatcherOnFailure : bool;
  Applications : slice HealthCheckApp
}.

(** ScenarioToggle represents a scenario enable/disable toggle *)
Record ScenarioToggle : Type := { Enable : bool }.

(** Scenario represents chaos scenario toggles *)
Record Scenario : Type := {
  ApplicationOutages : ScenarioToggle;
  PodScenarios : ScenarioToggle;
  ContainerScenarios : ScenarioToggle;
  NodeCPUHog : ScenarioToggle;
  NodeMemoryHog : ScenarioToggle;
  NodeIOHog : ScenarioToggle;
  TimeScenarios : ScenarioToggle;
  NetworkScenarios : ScenarioToggle;
  DNSOutage : ScenarioToggle;
  SynFlood : ScenarioToggle
}.

(** ClusterComponents represents discovered cluster components *)
Record ClusterComponents : Type := {
  Namespaces : slice iface;
  Nodes : slice iface
}.

(** KrknAIYAML represents the structure of krkn-ai.yaml; a nil
    Parameters map is [None]. *)
Record KrknAIYAML : Type := {
  KubeconfigFilePath : string;
  Parameters : option (gmap string iface);
  Generations : Z;
  PopulationSize : Z;
  WaitDuration : Z;
  MutationRate : Float64;
  ScenarioMutationRate : Float64;
  CrossoverRate : Float64;
  CompositionRate : Float64;
  PopulationInjectionRate : Float64;
  PopulationInjectionSize : Z;
  FitnessFunction_ : FitnessFunction;
  HealthChecks_ : HealthChecks;
  Scenario_ : Scenario;
  ClusterComponents_ : ClusterComponents
}.

(** KrknAIConfig, declared elsewhere in the package: the fields these
    functions read, all of them strings. *)
Record KrknAIConfig : Type := {
  Mode : string;
  cfg_Generations : string;
  cfg_PopulationSize : string;
  cfg_WaitDuration : string;
  cfg_CompositionRate : string;
  EnablePodScenarios : string;
  EnableContainerScenarios : string;
  EnableNodeCPUHog : string;
  EnableNodeMemoryHog : string;
  EnableNodeIOHog : string;
  EnableNetworkScenarios : string;
  EnableDNSOutage : string;
  EnableTimeScenarios : string;
  FitnessFunctionQuery : string;
  HealthChecksURL : string;
  Host : string
}.

(** Executor, declared elsewhere: [e.cfg.KrknAIConfig] is a pointer. *)
Record Executor : Type := {
  cfg_KrknAIConfig : option KrknAIConfig
}.

(** A value in the key/value list of a log line. *)
Inductive LogValue : Type :=
| LString (s : string)
| LInt (n : Z)
| LFloat (f : Float64)
| LBool (b : bool).

Inductive Effect : Type -> Type :=
| logger_Info (msg : string) (kv : list (string * LogValue)) : Effect unit
| logger_Error (err : error) (msg : string) (kv : list (string * LogValue))
    : Effect unit
| os_ReadFile (name : string) : Effect (error + list byte)
| yaml_Unmarshal (data : list byte) : Effect (error + KrknAIYAML)
| yaml_Marshal (v : KrknAIYAML) : Effect (error + list byte)
| os_WriteFile (name : string) (data : list byte) (perm : Z)
    : Effect (option error).

Definition Prog : Type -> Type := Go.Prog Effect.

Definition Info msg kv : Prog unit := Go.call (logger_Info msg kv).
Definition Error err msg kv : Prog unit := Go.call (logger_Error err msg kv).

(** *** Assignments to one field *)

Definition set_Generations (v : Z) (c : KrknAIYAML) : KrknAIYAML :=
  {| KubeconfigFilePath := KubeconfigFilePath c; Parameters := Parameters c;
     Generations := v; PopulationSize := PopulationSize c;
     WaitDuration := WaitDuration c; MutationRate := MutationRate c;
     ScenarioMutationRate := ScenarioMutationRate c;
     CrossoverRate := CrossoverRate c; CompositionRate := CompositionRate c;
     PopulationInjectionRate := PopulationInjectionRate c;
     PopulationInjectionSize := PopulationInjectionSize c;
     FitnessFunction_ := FitnessFunction_ c; HealthChecks_ := HealthChecks_ c;
     Scenario_ := Scenario_ c; ClusterComponents_ := ClusterComponents_ c |}.

Definition set_PopulationSize (v : Z) (c : KrknAIYAML) : KrknAIYAML :=
  {| KubeconfigFilePath := KubeconfigFilePath c; Parameters := Parameters c;
     Generations := Generations c; PopulationSize := v;
     WaitDuration := WaitDuration c; MutationRate := MutationRate c;
     ScenarioMutationRate := ScenarioMutationRate c;
     CrossoverRate := CrossoverRate c; CompositionRate := CompositionRate c;
     PopulationInjectionRate := PopulationInjectionRate c;
     PopulationInjectionSize := PopulationInjectionSize c;
     FitnessFunction_ := FitnessFunction_ c; HealthChecks_ := HealthChecks_ c;
     Scenario_ := Scenario_ c; ClusterComponents_ := ClusterComponents_ c |}.

Definition set_WaitDuration (v : Z) (c : KrknAIYAML) : KrknAIYAML :=
  {| KubeconfigFilePath := KubeconfigFilePath c; Parameters := Parameters c;
     Generations := Generations c; PopulationSize := PopulationSize c;
     WaitDuration := v; MutationRate := MutationRate c;
     ScenarioMutationRate := ScenarioMutationRate c;
     CrossoverRate := CrossoverRate c; CompositionRate := CompositionRate c;
     PopulationInjectionRate := PopulationInjectionRate c;
     PopulationInjectionSize := PopulationInjectionSize c;
     FitnessFunction_ := FitnessFunction_ c; HealthChecks_ := HealthChecks_ c;
     Scenario_ := Scenario_ c; ClusterComponents_ := ClusterComponents_ c |}.

Definition set_CompositionRate (v : Float64) (c : KrknAIYAML) : KrknAIYAML :=
  {| KubeconfigFilePath := KubeconfigFilePath c; Parameters := Parameters c;
     Generations := Generations c; PopulationSize := PopulationSize c;
     WaitDuration := WaitDuration c; MutationRate := MutationRate c;
     ScenarioMutationRate := ScenarioMutationRate c;
     CrossoverRate := CrossoverRate c; CompositionRate := v;
     PopulationInjectionRate := PopulationInjectionRate c;
     PopulationInjectionSize := PopulationInjectionSize c;
     FitnessFunction_ := FitnessFunction_ c; HealthChecks_ := HealthChecks_ c;
     Scenario_ := Scenario_ c; ClusterComponents_ := ClusterComponents_ c |}.

Definition set_Parameters (v : option (gmap string iface)) (c : KrknAIYAML)
  : KrknAIYAML :=
  {| KubeconfigFilePath := KubeconfigFilePath c; Parameters := v;
     Generations := Generations c; PopulationSize := PopulationSize c;
     WaitDuration := WaitDuration c; MutationRate := MutationRate c;
     ScenarioMutationRate := ScenarioMutationRate c;
     CrossoverRate := CrossoverRate c; CompositionRate := CompositionRate c;
     PopulationInjectionRate := PopulationInjectionRate c;
     PopulationInjectionSize := PopulationInjectionSize c;
     FitnessFunction_ := FitnessFunction_ c; HealthChecks_ := HealthChecks_ c;
     Scenario_ := Scenario_ c; ClusterComponents_ := ClusterComponents_ c |}.

Definition set_FitnessFunction (v : FitnessFunction) (c : KrknAIYAML)
  : KrknAIYAML :=
  {| KubeconfigFilePath := KubeconfigFilePath c; Parameters := Parameters c;
     Generations := Generations c; PopulationSize := PopulationSize c;
     WaitDuration := WaitDuration c; MutationRate := MutationRate c;
     ScenarioMutationRate := ScenarioMutationRate c;
     CrossoverRate := CrossoverRate c; CompositionRate := CompositionRate c;
     PopulationInjectionRate := PopulationInjectionRate c;
     PopulationInjectionSize := PopulationInjectionSize c;
     FitnessFunction_ := v; HealthChecks_ := HealthChecks_ c;
     Scenario_ := Scenario_ c; ClusterComponents_ := ClusterComponents_ c |}.

Definition set_HealthChecks (v : HealthChecks) (c : KrknAIYAML)
  : KrknAIYAML :=
  {| KubeconfigFilePath := KubeconfigFilePath c; Parameters := Parameters c;
     Generations := Generations c; PopulationSize := PopulationSize c;
     WaitDuration := WaitDuration c; MutationRate := MutationRate c;
     ScenarioMutationRate := ScenarioMutationRate c;
     CrossoverRate := CrossoverRate c; CompositionRate := CompositionRate c;
     PopulationInjectionRate := PopulationInjectionRate c;
     PopulationInjectionSize := PopulationInjectionSize c;
     FitnessFunction_ := FitnessFunction_ c; HealthChecks_ := v;
     Scenario_ := Scenario_ c; ClusterComponents_ := ClusterComponents_ c |}.

Definition set_Scenario (v : Scenario) (c : KrknAIYAML) : KrknAIYAML :=
  {| KubeconfigFilePath := KubeconfigFilePath c; Parameters := Parameters c;
     Generations := Generations c; PopulationSize := PopulationSize c;
     WaitDuration := WaitDuration c; MutationRate := MutationRate c;
     ScenarioMutationRate := ScenarioMutationRate c;
     CrossoverRate := CrossoverRate c; CompositionRate := CompositionRate c;
     PopulationInjectionRate := PopulationInjectionRate c;
     PopulationInjectionSize := PopulationInjectionSize c;
     FitnessFunction_ := FitnessFunction_ c; HealthChecks_ := HealthChecks_ c;
     Scenario_ := v; ClusterComponents_ := ClusterComponents_ c |}.

Definition set_Query (v : string) (f : FitnessFunction) : FitnessFunction :=
  {| Query := v; Type_ := Type_ f;
     IncludeKrknFailure := IncludeKrknFailure f;
     IncludeHealthCheckFailure := IncludeHealthCheckFailure f;
     IncludeHealthCheckResponseTime := IncludeHealthCheckResponseTime f;
     Items := Items f |}.

Definition set_Applications (v : slice HealthCheckApp) (hc : HealthChecks)
  : HealthChecks :=
  {| StopWatcherOnFailure := StopWatcherOnFailure hc; Applications := v |}.

Definition set_URL (v : string) (a : HealthCheckApp) : HealthCheckApp :=
  {| Name := Name a; URL := v; StatusCode := StatusCode a;
     Timeout := Timeout a; Interval := Interval a |}.

Definition set_PodScenarios (v : ScenarioToggle) (sc : Scenario) : Scenario :=
  {| ApplicationOutages := ApplicationOutages sc; PodScenarios := v;
     ContainerScenarios := ContainerScenarios sc; NodeCPUHog := NodeCPUHog sc;
     NodeMemoryHog := NodeMemoryHog sc; NodeIOHog := NodeIOHog sc;
     TimeScenarios := TimeScenarios sc;
     NetworkScenarios := NetworkScenarios sc; DNSOutage := DNSOutage sc;
     SynFlood := SynFlood sc |}.

Definition set_ContainerScenarios (v : ScenarioToggle) (sc : Scenario)
  : Scenario :=
  {| ApplicationOutages := ApplicationOutages sc;
     PodScenarios := PodScenarios sc;
     ContainerScenarios := v; NodeCPUHog := NodeCPUHog sc;
     NodeMemoryHog := NodeMemoryHog sc; NodeIOHog := NodeIOHog sc;
     TimeScenarios := TimeScenarios sc;
     NetworkScenarios := NetworkScenarios sc; DNSOutage := DNSOutage sc;
     SynFlood := SynFlood sc |}.

Definition set_NodeCPUHog (v : ScenarioToggle) (sc : Scenario) : Scenario :=
  {| ApplicationOutages := ApplicationOutages sc;
     PodScenarios := PodScenarios sc;
     ContainerScenarios := ContainerScenarios sc; NodeCPUHog := v;
     NodeMemoryHog := NodeMemoryHog sc; NodeIOHog := NodeIOHog sc;
     TimeScenarios := TimeScenarios sc;
     NetworkScenarios := NetworkScenarios sc; DNSOutage := DNSOutage sc;
     SynFlood := SynFlood sc |}.

Definition set_NodeMemoryHog (v : ScenarioToggle) (sc : Scenario)
  : Scenario :=
  {| ApplicationOutages := ApplicationOutages sc;
     PodScenarios := PodScenarios sc;
     ContainerScenarios := ContainerScenarios sc; NodeCPUHog := NodeCPUHog sc;
     NodeMemoryHog := v; NodeIOHog := NodeIOHog sc;
     TimeScenarios := TimeScenarios sc;
     NetworkScenarios := NetworkScenarios sc; DNSOutage := DNSOutage sc;
     SynFlood := SynFlood sc |}.

Definition set_NodeIOHog (v : ScenarioToggle) (sc : Scenario) : Scenario :=
  {| ApplicationOutages := ApplicationOutages sc;
     PodScenarios := PodScenarios sc;
     ContainerScenarios := ContainerScenarios sc; NodeCPUHog := NodeCPUHog sc;
     NodeMemoryHog := NodeMemoryHog sc; NodeIOHog := v;
     TimeScenarios := TimeScenarios sc;
     NetworkScenarios := NetworkScenarios sc; DNSOutage := DNSOutage sc;
     SynFlood := SynFlood sc |}.

Definition set_TimeScenarios (v : ScenarioToggle) (sc : Scenario)
  : Scenario :=
  {| ApplicationOutages := ApplicationOutages sc;
     PodScenarios := PodScenarios sc;
     ContainerScenarios := ContainerScenarios sc; NodeCPUHog := NodeCPUHog sc;
     NodeMemoryHog := NodeMemoryHog sc; NodeIOHog := NodeIOHog sc;
     TimeScenarios := v;
     NetworkScenarios := NetworkScenarios sc; DNSOutage := DNSOutage sc;
     SynFlood := SynFlood sc |}.

Definition set_NetworkScenarios (v : ScenarioToggle) (sc : Scenario)
  : Scenario :=
  {| ApplicationOutages := ApplicationOutages sc;
     PodScenarios := PodScenarios sc;
     ContainerScenarios := ContainerScenarios sc; NodeCPUHog := NodeCPUHog sc;
     NodeMemoryHog := NodeMemoryHog sc; NodeIOHog := NodeIOHog sc;
     TimeScenarios := TimeScenarios sc;
     NetworkScenarios := v; DNSOutage := DNSOutage sc;
     SynFlood := SynFlood sc |}.

Definition set_DNSOutage (v : ScenarioToggle) (sc : Scenario) : Scenario :=
  {| ApplicationOutages := ApplicationOutages sc;
     PodScenarios := PodScenarios sc;
     ContainerScenarios := ContainerScenarios sc; NodeCPUHog := NodeCPUHog sc;
     NodeMemoryHog := NodeMemoryHog sc; NodeIOHog := NodeIOHog sc;
     TimeScenarios := TimeScenarios sc;
     NetworkScenarios := NetworkScenarios sc; DNSOutage := v;
     SynFlood := SynFlood sc |}.

(** *** updateScenarioToggle is a helper function to update scenario
    enable/disable flags.  The toggle is passed by pointer; the new toggle
    is returned and the caller stores it. *)
Definition updateScenarioToggle (name value : string)
  (toggle : ScenarioToggle) : Prog ScenarioToggle :=
  if String.eqb value "" then Go.Ret toggle
  else
    match strconv_ParseBool value with
    | inr enable =>
        let oldValue := Enable toggle in
        let toggle := {| Enable := enable |} in
        doE _ <- Info "Updated scenario toggle"
                   [("scenario", LString name); ("from", LBool oldValue);
                    ("to", LBool enable)];
        Go.Ret toggle
    | inl err =>
        doE _ <- Error err "invalid boolean value for scenario"
                   [("scenario", LString name); ("value", LString value)];
        Go.Ret toggle
    end.

(** *** The blocks of UpdateKrknAIYAMLWithJenkinsParams, in source order *)

(** "Update Genetic Algorithm Parameters" *)
Definition updateGenerations (cfg : KrknAIConfig) (krknConfig : KrknAIYAML)
  : Prog KrknAIYAML :=
  if String.eqb (cfg_Generations cfg) "" then Go.Ret krknConfig
  else
    match strconv_Atoi (cfg_Generations cfg) with
    | inr gen =>
        doE _ <- Info "Updating generations"
                   [("from", LInt (Generations krknConfig)); ("to", LInt gen)];
        Go.Ret (set_Generations gen krknConfig)
    | inl err =>
        doE _ <- Error err "invalid generations value"
                   [("value", LString (cfg_Generations cfg))];
        Go.Ret krknConfig
    end.

Definition updatePopulationSize (cfg : KrknAIConfig)
  (krknConfig : KrknAIYAML) : Prog KrknAIYAML :=
  if String.eqb (cfg_PopulationSize cfg) "" then Go.Ret krknConfig
  else
    match strconv_Atoi (cfg_PopulationSize cfg) with
    | inr pop =>
        doE _ <- Info "Updating population_size"
                   [("from", LInt (PopulationSize krknConfig));
                    ("to", LInt pop)];
        Go.Ret (set_PopulationSize pop krknConfig)
    | inl err =>
        doE _ <- Error err "invalid population_size value"
                   [("value", LString (cfg_PopulationSize cfg))];
        Go.Ret krknConfig
    end.

Definition updateWaitDuration (cfg : KrknAIConfig) (krknConfig : KrknAIYAML)
  : Prog KrknAIYAML :=
  if String.eqb (cfg_WaitDuration cfg) "" then Go.Ret krknConfig
  else
    match strconv_Atoi (cfg_WaitDuration cfg) with
    | inr wait =>
        doE _ <- Info "Updating wait_duration"
                   [("from", LInt (WaitDuration krknConfig));
                    ("to", LInt wait)];
        Go.Ret (set_WaitDuration wait krknConfig)
    | inl err =>
        doE _ <- Error err "invalid wait_duration value"
                   [("value", LString (cfg_WaitDuration cfg))];
        Go.Ret krknConfig
    end.

Definition updateCompositionRate (cfg : KrknAIConfig)
  (krknConfig : KrknAIYAML) : Prog KrknAIYAML :=
  if String.eqb (cfg_CompositionRate cfg) "" then Go.Ret krknConfig
  else
    match strconv_ParseFloat64 (cfg_CompositionRate cfg) with
    | inr rate =>
        doE _ <- Info "Updating composition_rate"
                   [("from", LFloat (CompositionRate krknConfig));
                    ("to", LFloat rate)];
        Go.Ret (set_CompositionRate rate krknConfig)
    | inl err =>
        doE _ <- Error err "invalid composition_rate value"
                   [("value", LString (cfg_CompositionRate cfg))];
        Go.Ret krknConfig
    end.

(** "Update Scenario Toggles": eight calls, each on one field of
    krknConfig.Scenario. *)
Definition updateToggles (cfg : KrknAIConfig) (sc : Scenario)
  : Prog Scenario :=
  doE t <- updateScenarioToggle "pod_scenarios" (EnablePodScenarios cfg)
             (PodScenarios sc);
  let sc := set_PodScenarios t sc in
  doE t <- updateScenarioToggle "container_scenarios"
             (EnableContainerScenarios cfg) (ContainerScenarios sc);
  let sc := set_ContainerScenarios t sc in
  doE t <- updateScenarioToggle "node_cpu_hog" (EnableNodeCPUHog cfg)
             (NodeCPUHog sc);
  let sc := set_NodeCPUHog t sc in
  doE t <- updateScenarioToggle "node_memory_hog" (EnableNodeMemoryHog cfg)
             (NodeMemoryHog sc);
  let sc := set_NodeMemoryHog t sc in
  doE t <- updateScenarioToggle "node_io_hog" (EnableNodeIOHog cfg)
             (NodeIOHog sc);
  let sc := set_NodeIOHog t sc in
  doE t <- updateScenarioToggle "network_scenarios"
             (EnableNetworkScenarios cfg) (NetworkScenarios sc);
  let sc := set_NetworkScenarios t sc in
  doE t <- updateScenarioToggle "dns_outage" (EnableDNSOutage cfg)
             (DNSOutage sc);
  let sc := set_DNSOutage t sc in
  doE t <- updateScenarioToggle "time_scenarios" (EnableTimeScenarios cfg)
             (TimeScenarios sc);
  let sc := set_TimeScenarios t sc in
  Go.Ret sc.

(** "Update Fitness Function Query" *)
Definition updateFitnessQuery (cfg : KrknAIConfig) (krknConfig : KrknAIYAML)
  : Prog KrknAIYAML :=
  if String.eqb (FitnessFunctionQuery cfg) "" then Go.Ret krknConfig
  else
    doE _ <- Info "Updating fitness_function.query"
               [("to", LString (FitnessFunctionQuery cfg))];
    Go.Ret (set_FitnessFunction
              (set_Query (FitnessFunctionQuery cfg)
                 (FitnessFunction_ krknConfig)) krknConfig).

Definition defaultHealthCheck (url : string) : HealthCheckApp :=
  {| Name := "cluster-health"; URL := url; StatusCode := 200;
     Timeout := 4; Interval := 2 |}.

(** "Update Health Checks URL": with at least one application the first
    one is updated in place, otherwise the slice is replaced. *)
Definition updateHealthChecksURL (cfg : KrknAIConfig)
  (krknConfig : KrknAIYAML) : Prog KrknAIYAML :=
  if String.eqb (HealthChecksURL cfg) "" then Go.Ret krknConfig
  else
    doE _ <- Info "Updating health_checks URL"
               [("to", LString (HealthChecksURL cfg))];
    match elems (Applications (HealthChecks_ krknConfig)) with
    | first :: rest =>
        let oldURL := URL first in
        let krknConfig :=
          set_HealthChecks
            (set_Applications
               (Some (set_URL (HealthChecksURL cfg) first :: rest))
               (HealthChecks_ krknConfig)) krknConfig in
        doE _ <- Info "Updated health check URL"
                   [("from", LString oldURL);
                    ("to", LString (HealthChecksURL cfg))];
        Go.Ret krknConfig
    | [] =>
        let krknConfig :=
          set_HealthChecks
            (set_Applications
               (Some [defaultHealthCheck (HealthChecksURL cfg)])
               (HealthChecks_ krknConfig)) krknConfig in
        doE _ <- Info "Created new health check application"
                   [("url", LString (HealthChecksURL cfg))];
        Go.Ret krknConfig
    end.

(** "Update Host parameter" *)
Definition updateHost (cfg : KrknAIConfig) (krknConfig : KrknAIYAML)
  : Prog KrknAIYAML :=
  if String.eqb (Host cfg) "" then Go.Ret krknConfig
  else
    doE _ <- Info "Updating HOST parameter" [("to", LString (Host cfg))];
    let parameters :=
      match Parameters krknConfig with
      | None => ∅
      | Some m => m
      end in
    Go.Ret (set_Parameters
              (Some (<["HOST" := iface_string (Host cfg)]> parameters))
              krknConfig).

(** Everything between unmarshalling and marshalling. *)
Definition applyJenkinsParams (cfg : KrknAIConfig) (krknConfig : KrknAIYAML)
  : Prog KrknAIYAML :=
  doE krknConfig <- updateGenerations cfg krknConfig;
  doE krknConfig <- updatePopulationSize cfg krknConfig;
  doE krknConfig <- updateWaitDuration cfg krknConfig;
  doE krknConfig <- updateCompositionRate cfg krknConfig;
  doE sc <- updateToggles cfg (Scenario_ krknConfig);
  let krknConfig := set_Scenario sc krknConfig in
  doE krknConfig <- updateFitnessQuery cfg krknConfig;
  doE krknConfig <- updateHealthChecksURL cfg krknConfig;
  updateHost cfg krknConfig.

Definition backupPath (discoveredYAMLPath : string) : string :=
  filepath_Join (filepath_Dir discoveredYAMLPath) "krkn-ai-updated.yaml".

(** *** UpdateKrknAIYAMLWithJenkinsParams updates the discovered
    krkn-ai.yaml with Jenkins parameters *)
Definition UpdateKrknAIYAMLWithJenkinsParams (e : Executor)
  (discoveredYAMLPath : string) : Prog (option error) :=
  match cfg_KrknAIConfig e with
  | None => Go.Ret (Some (errors_New "KrknAIConfig is nil"))
  | Some cfg =>
  doE _ <- Info "Updating krkn-ai.yaml with Jenkins parameters"
             [("file", LString discoveredYAMLPath)];
  doE r <- Go.call (os_ReadFile discoveredYAMLPath);
  match r with
  | inl err => Go.Ret (Some (fmt_Errorf_w "reading discovered yaml: " err))
  | inr yamlData =>
  doE r <- Go.call (yaml_Unmarshal yamlData);
  match r with
  | inl err => Go.Ret (Some (fmt_Errorf_w "unmarshaling yaml: " err))
  | inr krknConfig =>
  doE krknConfig <- applyJenkinsParams cfg krknConfig;
  doE r <- Go.call (yaml_Marshal krknConfig);
  match r with
  | inl err => Go.Ret (Some (fmt_Errorf_w "marshaling updated yaml: " err))
  | inr updatedYAML =>
  doE r <- Go.call (os_WriteFile discoveredYAMLPath updatedYAML 420);
  match r with
  | Some err => Go.Ret (Some (fmt_Errorf_w "writing updated yaml: " err))
  | None =>
  let backupPath := backupPath discoveredYAMLPath in
  doE r <- Go.call (os_WriteFile backupPath updatedYAML 420);
  doE _ <- match r with
           | Some err =>
               Error err "failed to write backup yaml"
                 [("path", LString backupPath)]
           | None =>
               Info "Created backup of updated config"
                 [("path", LString backupPath)]
           end;
  doE _ <- Info "Successfully updated krkn-ai.yaml with Jenkins parameters"
             [("file", LString discoveredYAMLPath)];
  Go.Ret None
  end end end end
  end.

(** *** ValidateKrknAIConfig validates the KrknAI configuration
    parameters *)

Definition boolParams (cfg : KrknAIConfig) : gmap string string :=
  <["enable_pod_scenarios" := EnablePodScenarios cfg]>
  (<["enable_container_scenarios" := EnableContainerScenarios cfg]>
  (<["enable_node_cpu_hog" := EnableNodeCPUHog cfg]>
  (<["enable_node_memory_hog" := EnableNodeMemoryHog cfg]>
  (<["enable_node_io_hog" := EnableNodeIOHog cfg]>
  (<["enable_network_scenarios" := EnableNetworkScenarios cfg]>
  (<["enable_dns_outage" := EnableDNSOutage cfg]>
  (<["enable_time_scenarios" := EnableTimeScenarios cfg]> ∅))))))).

(** The loop over boolParams, given its entries in the order the
    iteration visits them. *)
Fixpoint checkBoolParams (entries : list (string * string))
  : option error :=
  match entries with
  | [] => None
  | (name, value) :: rest =>
      if String.eqb value "" then checkBoolParams rest
      else
        match strconv_ParseBool value with
        | inl _ =>
            Some (errors_New
                    ("invalid boolean value for " ++ name ++ ": " ++ value))
        | inr _ => checkBoolParams rest
        end
  end.

(** [range] is the order in which the [for ... range] statement visits a
    map, which Go does not fix. *)
Definition ValidateKrknAIConfig
  (range : gmap string string -> list (string * string))
  (cfg : option KrknAIConfig) : option error :=
  match cfg with
  | None => Some (errors_New "KrknAIConfig is nil")
  | Some cfg =>
    if negb (String.eqb (Mode cfg) "discover")
       && negb (String.eqb (Mode cfg) "run")
    then Some (errors_New
                 ("invalid mode: " ++ Mode cfg
                  ++ " (must be 'discover' or 'run')"))
    else
    match (if String.eqb (cfg_Generations cfg) "" then None
           else match strconv_Atoi (cfg_Generations cfg) with
                | inl _ =>
                    Some (errors_New ("invalid generations value: "
                                      ++ cfg_Generations cfg))
                | inr _ => None
                end) with
    | Some err => Some err
    | None =>
    match (if String.eqb (cfg_PopulationSize cfg) "" then None
           else match strconv_Atoi (cfg_PopulationSize cfg) with
                | inl _ =>
                    Some (errors_New ("invalid population_size value: "
                                      ++ cfg_PopulationSize cfg))
                | inr _ => None
                end) with
    | Some err => Some err
    | None =>
    match (if String.eqb (cfg_WaitDuration cfg) "" then None
           else match strconv_Atoi (cfg_WaitDuration cfg) with
                | inl _ =>
                    Some (errors_New ("invalid wait_duration value: "
                                      ++ cfg_WaitDuration cfg))
                | inr _ => None
                end) with
    | Some err => Some err
    | None => checkBoolParams (range (boolParams cfg))
    end end end
  end.

(** *** Reading a trace *)

Definition as_ErrorLog (ev : Go.Event Effect)
  : option (error * string * list (string * LogValue)) :=
  match ev with
  | Go.Ev e x =>
      match e in Effect X return X -> option _ with
      | logger_Error err msg kv => fun _ => Some (err, msg, kv)
      | _ => fun _ => None
      end x
  end.

Definition as_InfoLog (ev : Go.Event Effect)
  : option (string * list (string * LogValue)) :=
  match ev with
  | Go.Ev e x =>
      match e in Effect X return X -> option _ with
      | logger_Info msg kv => fun _ => Some (msg, kv)
      | _ => fun _ => None
      end x
  end.

Definition as_Read (ev : Go.Event Effect)
  : option (string * (error + list byte)) :=
  match ev with
  | Go.Ev e x =>
      match e in Effect X return X -> option _ with
      | os_ReadFile name => fun ans => Some (name, ans)
      | _ => fun _ => None
      end x
  end.

Definition as_Unmarshal (ev : Go.Event Effect)
  : option (list byte * (error + KrknAIYAML)) :=
  match ev with
  | Go.Ev e x =>
      match e in Effect X return X -> option _ with
      | yaml_Unmarshal data => fun ans => Some (data, ans)
      | _ => fun _ => None
      end x
  end.

Definition as_Marshal (ev : Go.Event Effect)
  : option (KrknAIYAML * (error + list byte)) :=
  match ev with
  | Go.Ev e x =>
      match e in Effect X return X -> option _ with
      | yaml_Marshal v => fun ans => Some (v, ans)
      | _ => fun _ => None
      end x
  end.

Definition as_Write (ev : Go.Event Effect)
  : option (string * list byte * Z * option error) :=
  match ev with
  | Go.Ev e x =>
      match e in Effect X return X -> option _ with
      | os_WriteFile name data perm => fun ans => Some (name, data, perm, ans)
      | _ => fun _ => None
      end x
  end.

Definition isLog (ev : Go.Event Effect) : bool :=
  match ev with
  | Go.Ev e _ =>
      match e with
      | logger_Info _ _ | logger_Error _ _ _ => true
      | _ => false
      end
  end.

Definition errorLogs (tr : list (Go.Event Effect)) := omap as_ErrorLog tr.
Definition infoLogs (tr : list (Go.Event Effect)) := omap as_InfoLog tr.
Definition reads (tr : list (Go.Event Effect)) := omap as_Read tr.
Definition unmarshals (tr : list (Go.Event Effect)) := omap as_Unmarshal tr.
Definition marshals (tr : list (Go.Event Effect)) := omap as_Marshal tr.
Definition writes (tr : list (Go.Event Effect)) := omap as_Write tr.

(** The errors that were logged, without the text around them. *)
Definition loggedErrors (tr : list (Go.Event Effect)) : list error :=
  map (fun l => fst (fst l)) (errorLogs tr).

(** *** The merge, field by field *)

(** An override under the best-effort policy: an empty value or one that
    does not parse leaves the old value. *)
Definition override {A} (parse : string -> error + A) (value : string)
  (old : A) : A :=
  if String.eqb value "" then old
  else match parse value with
       | inr v => v
       | inl _ => old
       end.

(** The parse error of an override that is present and does not parse. *)
Definition rejected {A} (parse : string -> error + A) (value : string)
  : list error :=
  if String.eqb value "" then []
  else match parse value with
       | inr _ => []
       | inl err => [err]
       end.

Definition overrideToggle (value : string) (t : ScenarioToggle)
  : ScenarioToggle :=
  {| Enable := override strconv_ParseBool value (Enable t) |}.

Definition mergedScenario (cfg : KrknAIConfig) (sc : Scenario) : Scenario :=
  {| ApplicationOutages := ApplicationOutages sc;
     PodScenarios := overrideToggle (EnablePodScenarios cfg) (PodScenarios sc);
     ContainerScenarios :=
       overrideToggle (EnableContainerScenarios cfg) (ContainerScenarios sc);
     NodeCPUHog := overrideToggle (EnableNodeCPUHog cfg) (NodeCPUHog sc);
     NodeMemoryHog :=
       overrideToggle (EnableNodeMemoryHog cfg) (NodeMemoryHog sc);
     NodeIOHog := overrideToggle (EnableNodeIOHog cfg) (NodeIOHog sc);
     TimeScenarios :=
       overrideToggle (EnableTimeScenarios cfg) (TimeScenarios sc);
     NetworkScenarios :=
       overrideToggle (EnableNetworkScenarios cfg) (NetworkScenarios sc);
     DNSOutage := overrideToggle (EnableDNSOutage cfg) (DNSOutage sc);
     SynFlood := SynFlood sc |}.

Definition mergedApplications (url : string) (apps : slice HealthCheckApp)
  : slice HealthCheckApp :=
  if String.eqb url "" then apps
  else match elems apps with
       | first :: rest => Some (set_URL url first :: rest)
       | [] => Some [defaultHealthCheck url]
       end.

Definition mergedParameters (host : string)
  (params : option (gmap string iface)) : option (gmap string iface) :=
  if String.eqb host "" then params
  else Some (<["HOST" := iface_string host]>
               (match params with None => ∅ | Some m => m end)).

(** The document that the merge leaves. *)
Definition merged (cfg : KrknAIConfig) (c : KrknAIYAML) : KrknAIYAML :=
  {| KubeconfigFilePath := KubeconfigFilePath c;
     Parameters := mergedParameters (Host cfg) (Parameters c);
     Generations :=
       override strconv_Atoi (cfg_Generations cfg) (Generations c);
     PopulationSize :=
       override strconv_Atoi (cfg_PopulationSize cfg) (PopulationSize c);
     WaitDuration :=
       override strconv_Atoi (cfg_WaitDuration cfg) (WaitDuration c);
     MutationRate := MutationRate c;
     ScenarioMutationRate := ScenarioMutationRate c;
     CrossoverRate := CrossoverRate c;
     CompositionRate :=
       override strconv_ParseFloat64 (cfg_CompositionRate cfg)
         (CompositionRate c);
     PopulationInjectionRate := PopulationInjectionRate c;
     PopulationInjectionSize := PopulationInjectionSize c;
     FitnessFunction_ :=
       set_Query
         (if String.eqb (FitnessFunctionQuery cfg) ""
          then Query (FitnessFunction_ c) else FitnessFunctionQuery cfg)
         (FitnessFunction_ c);
     HealthChecks_ :=
       set_Applications
         (mergedApplications (HealthChecksURL cfg)
            (Applications (HealthChecks_ c)))
         (HealthChecks_ c);
     Scenario_ := mergedScenario cfg (Scenario_ c);
     ClusterComponents_ := ClusterComponents_ c |}.

(** The parse errors of the overrides that do not parse, in the order in
    which the merge meets them. *)
Definition rejections (cfg : KrknAIConfig) : list error :=
  (rejected strconv_Atoi (cfg_Generations cfg)
   ++ rejected strconv_Atoi (cfg_PopulationSize cfg)
   ++ rejected strconv_Atoi (cfg_WaitDuration cfg)
   ++ rejected strconv_ParseFloat64 (cfg_CompositionRate cfg)
   ++ rejected strconv_ParseBool (EnablePodScenarios cfg)
   ++ rejected strconv_ParseBool (EnableContainerScenarios cfg)
   ++ rejected strconv_ParseBool (EnableNodeCPUHog cfg)
   ++ rejected strconv_ParseBool (EnableNodeMemoryHog cfg)
   ++ rejected strconv_ParseBool (EnableNodeIOHog cfg)
   ++ rejected strconv_ParseBool (EnableNetworkScenarios cfg)
   ++ rejected strconv_ParseBool (EnableDNSOutage cfg)
   ++ rejected strconv_ParseBool (EnableTimeScenarios cfg))%list.

(** A value is acceptable when it is empty or parses. *)
Definition acceptable {A} (parse : string -> error + A) (value : string)
  : Prop :=
  value = "" \/ exists v, parse value = inr v.

(** The calls of a merge: log lines only, the error lines carrying the
    rejections. *)
Definition mergeLog (cfg : KrknAIConfig) (tr : list (Go.Event Effect))
  : Prop :=
  forallb isLog tr = true /\ loggedErrors tr = rejections cfg.

(** A piece of the merge run against an environment: it returns [a]
    after log lines only, whose error lines carry [errs]. *)
Definition quiet {S A} (h : Go.Env Effect S) (p : Prog A) (a : A)
  (errs : list error) : Prop :=
  forall s, exists s' tr,
    Go.interp h p s = (Returned a, s', tr)
    /\ forallb isLog tr = true /\ loggedErrors tr = errs.

(** All the ways UpdateKrknAIYAMLWithJenkinsParams can go for a non-nil
    configuration. *)
Inductive UpdateRun (cfg : KrknAIConfig) (path : string)
  : option error -> list (Go.Event Effect) -> Prop :=
| update_read_failed start err :
    UpdateRun cfg path
      (Some (fmt_Errorf_w "reading discovered yaml: " err))
      [Go.Ev (logger_Info "Updating krkn-ai.yaml with Jenkins parameters"
                [("file", LString path)]) start;
       Go.Ev (os_ReadFile path) (inl err)]
| update_unmarshal_failed start yamlData err :
    UpdateRun cfg path
      (Some (fmt_Errorf_w "unmarshaling yaml: " err))
      [Go.Ev (logger_Info "Updating krkn-ai.yaml with Jenkins parameters"
                [("file", LString path)]) start;
       Go.Ev (os_ReadFile path) (inr yamlData);
       Go.Ev (yaml_Unmarshal yamlData) (inl err)]
| update_marshal_failed start yamlData c trM err :
    mergeLog cfg trM ->
    UpdateRun cfg path
      (Some (fmt_Errorf_w "marshaling updated yaml: " err))
      ([Go.Ev (logger_Info "Updating krkn-ai.yaml with Jenkins parameters"
                 [("file", LString path)]) start;
        Go.Ev (os_ReadFile path) (inr yamlData);
        Go.Ev (yaml_Unmarshal yamlData) (inr c)]
       ++ trM ++ [Go.Ev (yaml_Marshal (merged cfg c)) (inl err)])
| update_write_failed start yamlData c trM updatedYAML err :
    mergeLog cfg trM ->
    UpdateRun cfg path
      (Some (fmt_Errorf_w "writing updated yaml: " err))
      ([Go.Ev (logger_Info "Updating krkn-ai.yaml with Jenkins parameters"
                 [("file", LString path)]) start;
        Go.Ev (os_ReadFile path) (inr yamlData);
        Go.Ev (yaml_Unmarshal yamlData) (inr c)]
       ++ trM
       ++ [Go.Ev (yaml_Marshal (merged cfg c)) (inr updatedYAML);
           Go.Ev (os_WriteFile path updatedYAML 420) (Some err)])
| update_done_backup_failed start yamlData c trM updatedYAML err a b :
    mergeLog cfg trM ->
    UpdateRun cfg path None
      ([Go.Ev (logger_Info "Updating krkn-ai.yaml with Jenkins parameters"
                 [("file", LString path)]) start;
        Go.Ev (os_ReadFile path) (inr yamlData);
        Go.Ev (yaml_Unmarshal yamlData) (inr c)]
       ++ trM
       ++ [Go.Ev (yaml_Marshal (merged cfg c)) (inr updatedYAML);
           Go.Ev (os_WriteFile path updatedYAML 420) None;
           Go.Ev (os_WriteFile (backupPath path) updatedYAML 420) (Some err);
           Go.Ev (logger_Error err "failed to write backup yaml"
                    [("path", LString (backupPath path))]) a;
           Go.Ev (logger_Info
                    "Successfully updated krkn-ai.yaml with Jenkins parameters"
                    [("file", LString path)]) b])
| update_done start yamlData c trM updatedYAML a b :
    mergeLog cfg trM ->
    UpdateRun cfg path None
      ([Go.Ev (logger_Info "Updating krkn-ai.yaml with Jenkins parameters"
                 [("file", LString path)]) start;
        Go.Ev (os_ReadFile path) (inr yamlData);
        Go.Ev (yaml_Unmarshal yamlData) (inr c)]
       ++ trM
       ++ [Go.Ev (yaml_Marshal (merged cfg c)) (inr updatedYAML);
           Go.Ev (os_WriteFile path updatedYAML 420) None;
           Go.Ev (os_WriteFile (backupPath path) updatedYAML 420) None;
           Go.Ev (logger_Info "Created backup of updated config"
                    [("path", LString (backupPath path))]) a;
           Go.Ev (logger_Info
                    "Successfully updated krkn-ai.yaml with Jenkins parameters"
                    [("file", LString path)]) b]).

(** The best-effort policy for one override, in plain terms: an absent
    value and a value that does not parse leave the field as it was, and a
    value that parses replaces it. *)
Definition bestEffort {A} (parse : string -> error + A) (value : string)
  (old new : A) : Prop :=
  (value = "" -> new = old)
  /\ (forall v, value <> "" -> parse value = inr v -> new = v)
  /\ (forall err, parse value = inl err -> new = old).

(** An executor with the given configuration. *)
Definition withConfig (cfg : KrknAIConfig) : Executor :=
  {| cfg_KrknAIConfig := Some cfg |}.

(** In the run of UpdateKrknAIYAMLWithJenkinsParams against [h] from [s],
    every document handed to yaml.Marshal stands in relation [P] to the
    document that yaml.Unmarshal returned. *)
Definition everyMarshalled {S} (h : Go.Env Effect S) (cfg : KrknAIConfig)
  (path : string) (s : S) (P : KrknAIYAML -> KrknAIYAML -> Prop) : Prop :=
  exists out s' tr,
    Go.interp h (UpdateKrknAIYAMLWithJenkinsParams (withConfig cfg) path) s
    = (Returned out, s', tr)
    /\ forall c' ans,
         In (c', ans) (marshals tr) ->
         exists data c0, unmarshals tr = [(data, inr c0)] /\ P c0 c'.

(** The configuration with another composition rate. *)
Definition withCompositionRate (rate : string) (cfg : KrknAIConfig)
  : KrknAIConfig :=
  {| Mode := Mode cfg;
     cfg_Generations := cfg_Generations cfg;
     cfg_PopulationSize := cfg_PopulationSize cfg;
     cfg_WaitDuration := cfg_WaitDuration cfg;
     cfg_CompositionRate := rate;
     EnablePodScenarios := EnablePodScenarios cfg;
     EnableContainerScenarios := EnableContainerScenarios cfg;
     EnableNodeCPUHog := EnableNodeCPUHog cfg;
     EnableNodeMemoryHog := EnableNodeMemoryHog cfg;
     EnableNodeIOHog := EnableNodeIOHog cfg;
     EnableNetworkScenarios := EnableNetworkScenarios cfg;
     EnableDNSOutage := EnableDNSOutage cfg;
     EnableTimeScenarios := EnableTimeScenarios cfg;
     FitnessFunctionQuery := FitnessFunctionQuery cfg;
     HealthChecksURL := HealthChecksURL cfg;
     Host := Host cfg |}.

(** What the validator requires of a configuration. *)
Definition wellFormed (cfg : KrknAIConfig) : Prop :=
  (Mode cfg = "discover" \/ Mode cfg = "run")
  /\ acceptable strconv_Atoi (cfg_Generations cfg)
  /\ acceptable strconv_Atoi (cfg_PopulationSize cfg)
  /\ acceptable strconv_Atoi (cfg_WaitDuration cfg)
  /\ acceptable strconv_ParseBool (EnablePodScenarios cfg)
  /\ acceptable strconv_ParseBool (EnableContainerScenarios cfg)
  /\ acceptable strconv_ParseBool (EnableNodeCPUHog cfg)
  /\ acceptable strconv_ParseBool (EnableNodeMemoryHog cfg)
  /\ acceptable strconv_ParseBool (EnableNodeIOHog cfg)
  /\ acceptable strconv_ParseBool (EnableNetworkScenarios cfg)
  /\ acceptable strconv_ParseBool (EnableDNSOutage cfg)
  /\ acceptable strconv_ParseBool (EnableTimeScenarios cfg).

(** A visiting order for maps: every entry once. *)
Definition visitsAll (range : gmap string string -> list (string * string))
  : Prop :=
  forall m, range m ≡ₚ map_to_list m.

(** No override is present. *)
Definition noOverrides (cfg : KrknAIConfig) : Prop :=
  cfg_Generations cfg = "" /\ cfg_PopulationSize cfg = ""
  /\ cfg_WaitDuration cfg = "" /\ cfg_CompositionRate cfg = ""
  /\ EnablePodScenarios cfg = "" /\ EnableContainerScenarios cfg = ""
  /\ EnableNodeCPUHog cfg = "" /\ EnableNodeMemoryHog cfg = ""
  /\ EnableNodeIOHog cfg = "" /\ EnableNetworkScenarios cfg = ""
  /\ EnableDNSOutage cfg = "" /\ EnableTimeScenarios cfg = ""
  /\ FitnessFunctionQuery cfg = "" /\ HealthChecksURL cfg = ""
  /\ Host cfg = "".

End Model.
End executor.

(** A concrete strconv and a scripted environment for the executor. *)
Module ExecutorDemo.
Import executor.

Definition digit (c : Ascii.ascii) : option Z :=
  let n := Z.of_nat (Ascii.nat_of_ascii c) in
  if (48 <=? n)%Z && (n <=? 57)%Z then Some (n - 48)%Z else None.

Fixpoint digits (s : string) (acc : Z) : option Z :=
  match s with
  | EmptyString => Some acc
  | String c rest =>
      match digit c with
      | Some d => digits rest (10 * acc + d)%Z
      | None => None
      end
  end.

(** Decimal integers without a sign, standing in for strconv.Atoi. *)
Definition Atoi (s : string) : error + Z :=
  match s with
  | EmptyString => inl (errors_New "strconv.Atoi: invalid syntax")
  | _ => match digits s 0 with
         | Some n => inr n
         | None => inl (errors_New ("strconv.Atoi: invalid syntax: " ++ s))
         end
  end.

(** strconv.ParseBool accepts these twelve spellings. *)
Definition ParseBool (s : string) : error + bool :=
  if existsb (String.eqb s) ["1"; "t"; "T"; "TRUE"; "true"; "True"]
  then inr true
  else if existsb (String.eqb s) ["0"; "f"; "F"; "FALSE"; "false"; "False"]
  then inr false
  else inl (errors_New ("strconv.ParseBool: invalid syntax: " ++ s)).

(** Percentages as integers, standing in for strconv.ParseFloat. *)
Definition ParseFloat64 (s : string) : error + Z :=
  match Atoi s with
  | inr n => inr n
  | inl _ => inl (errors_New ("strconv.ParseFloat: invalid syntax: " ++ s))
  end.

#[local] Instance library : Library := {|
  Float64 := Z;
  YamlValue := string;
  strconv_Atoi := Atoi;
  strconv_ParseFloat64 := ParseFloat64;
  strconv_ParseBool := ParseBool;
  filepath_Dir := fun p => "/work";
  filepath_Join := fun a b => a ++ "/" ++ b
|}.

Definition off : ScenarioToggle := {| Enable := false |}.
Definition on : ScenarioToggle := {| Enable := true |}.

Definition api : HealthCheckApp :=
  {| Name := "api"; URL := "https://api.old/healthz"; StatusCode := 200;
     Timeout := 10; Interval := 5 |}.
Definition console : HealthCheckApp :=
  {| Name := "console"; URL := "https://console.old/health";
     StatusCode := 200; Timeout := 10; Interval := 5 |}.

(** A discovered krkn-ai.yaml. *)
Definition discovered : KrknAIYAML := {|
  KubeconfigFilePath := "/work/kubeconfig";
  Parameters := None;
  Generations := 5;
  PopulationSize := 10;
  WaitDuration := 30;
  MutationRate := 70;
  ScenarioMutationRate := 60;
  CrossoverRate := 60;
  CompositionRate := 0;
  PopulationInjectionRate := 0;
  PopulationInjectionSize := 2;
  FitnessFunction_ :=
    {| Query := "sum(kube_pod_container_status_restarts_total)";
       Type_ := "point"; IncludeKrknFailure := true;
       IncludeHealthCheckFailure := true;
       IncludeHealthCheckResponseTime := false; Items := None |};
  HealthChecks_ :=
    {| StopWatcherOnFailure := false; Applications := Some [api; console] |};
  Scenario_ :=
    {| ApplicationOutages := off; PodScenarios := on;
       ContainerScenarios := off; NodeCPUHog := on; NodeMemoryHog := on;
       NodeIOHog := off; TimeScenarios := off; NetworkScenarios := off;
       DNSOutage := off; SynFlood := off |};
  ClusterComponents_ :=
    {| Namespaces := Some [iface_yaml "openshift-etcd"]; Nodes := None |}
|}.

(** No override at all. *)
Definition plain : KrknAIConfig := {|
  Mode := "run";
  cfg_Generations := ""; cfg_PopulationSize := ""; cfg_WaitDuration := "";
  cfg_CompositionRate := "";
  EnablePodScenarios := ""; EnableContainerScenarios := "";
  EnableNodeCPUHog := ""; EnableNodeMemoryHog := ""; EnableNodeIOHog := "";
  EnableNetworkScenarios := ""; EnableDNSOutage := "";
  EnableTimeScenarios := "";
  FitnessFunctionQuery := ""; HealthChecksURL := ""; Host := ""
|}.

(** Three overrides that parse, one that does not (population_size), a
    health-check URL and a host. *)
Definition jenkins : KrknAIConfig := {|
  Mode := "run";
  cfg_Generations := "20"; cfg_PopulationSize := "ten";
  cfg_WaitDuration := "45"; cfg_CompositionRate := "";
  EnablePodScenarios := "false"; EnableContainerScenarios := "";
  EnableNodeCPUHog := ""; EnableNodeMemoryHog := ""; EnableNodeIOHog := "";
  EnableNetworkScenarios := ""; EnableDNSOutage := "";
  EnableTimeScenarios := "";
  FitnessFunctionQuery := ""; HealthChecksURL := "https://api.new/healthz";
  Host := "api.new"
|}.

(** Accepted by the validator, with a composition rate that is not a
    number. *)
Definition validated : KrknAIConfig := {|
  Mode := "discover";
  cfg_Generations := "20"; cfg_PopulationSize := "";
  cfg_WaitDuration := ""; cfg_CompositionRate := "high";
  EnablePodScenarios := "true"; EnableContainerScenarios := "";
  EnableNodeCPUHog := ""; EnableNodeMemoryHog := ""; EnableNodeIOHog := "0";
  EnableNetworkScenarios := ""; EnableDNSOutage := "";
  EnableTimeScenarios := "";
  FitnessFunctionQuery := ""; HealthChecksURL := ""; Host := ""
|}.

(** Two switches that are not booleans. *)
Definition twoBadSwitches : KrknAIConfig := {|
  Mode := "run";
  cfg_Generations := ""; cfg_PopulationSize := ""; cfg_WaitDuration := "";
  cfg_CompositionRate := "";
  EnablePodScenarios := "yes"; EnableContainerScenarios := "";
  EnableNodeCPUHog := ""; EnableNodeMemoryHog := ""; EnableNodeIOHog := "";
  EnableNetworkScenarios := ""; EnableDNSOutage := "no";
  EnableTimeScenarios := "";
  FitnessFunctionQuery := ""; HealthChecksURL := ""; Host := ""
|}.

Definition range (m : gmap string string) : list (string * string) :=
  map_to_list m.

(** The file is read and parsed as [discovered]; marshalling answers with
    two bytes; the backup write fails when [backupFails]. *)
Definition env (backupFails : bool) : Go.Env Effect nat :=
  fun X (e : Effect X) (n : nat) =>
    (match e in Effect X return X with
     | logger_Info _ _ => tt
     | logger_Error _ _ _ => tt
     | os_ReadFile _ => inr [x67; x3a]
     | yaml_Unmarshal _ => inr discovered
     | yaml_Marshal _ => inr [x6f; x6b]
     | os_WriteFile name _ _ =>
         if backupFails && String.eqb name "/work/krkn-ai-updated.yaml"
         then Some (errors_New "disk full") else None
     end, S n).

Definition jenkinsTrace : list (Go.Event Effect) :=
  snd (Go.interp (env true)
         (UpdateKrknAIYAMLWithJenkinsParams (withConfig jenkins)
            "/work/krkn-ai.yaml") 0%nat).

End ExecutorDemo.

(** ** Package accountsmgmt/v1: RegistryCredentialListBuilder

    The builder keeps a slice of item builders.  Slices are views of arrays
    in a store, so that what [Items] copies and what it shares can be
    told apart. *)

Module listbuilder.

(** The arrays behind the slices of item builders. *)
Abbreviation Store ItemBuilder := (gmap positive (list ItemBuilder)).

Section Model.
(** [*RegistryCredentialBuilder] and [*RegistryCredential], both declared
    elsewhere in the package. *)
Context {ItemBuilder Item : Type}.

(** A slice: [len] elements of an array, from [off]. *)
Record Slice : Type := {
  array : positive;
  off : nat;
  len : nat
}.

(** The elements a slice shows; a nil slice shows none. *)
Definition view (st : Store ItemBuilder) (sl : option Slice) : list ItemBuilder :=
  match sl with
  | None => []
  | Some sl =>
      match st !! array sl with
      | Some a => take (len sl) (drop (off sl) a)
      | None => []
      end
  end.

(** A slice lies within its array. *)
Definition valid (st : Store ItemBuilder) (sl : Slice) : Prop :=
  exists a, st !! array sl = Some a /\ (off sl + len sl <= length a)%nat.

(** The assignment [sl[i] = x]; out of range it panics, which leaves the
    store as it was. *)
Definition assign (st : Store ItemBuilder) (sl : Slice) (i : nat)
  (x : ItemBuilder) : Store ItemBuilder :=
  match st !! array sl with
  | Some a =>
      if (i <? len sl)%nat then <[array sl := <[(off sl + i)%nat := x]> a]> st
      else st
  | None => st
  end.

(** RegistryCredentialListBuilder contains the data and logic needed to
    build 'registry_credential' objects. *)
Record RegistryCredentialListBuilder : Type := {
  items : option Slice
}.

(** RegistryCredentialList, declared elsewhere: the field Build sets. *)
Record RegistryCredentialList : Type := {
  list_items : list Item
}.

(** NewRegistryCredentialList creates a new builder of
    'registry_credential' objects. *)
Definition NewRegistryCredentialList : RegistryCredentialListBuilder :=
  {| items := None |}.

(** Items sets the items of the list: a new array of [len(values)]
    elements is made and the values are copied into it.  The receiver is
    a pointer; [None] is nil. *)
Definition Items (b : option RegistryCredentialListBuilder)
  (values : option Slice) (st : Store ItemBuilder)
  : Outcome (RegistryCredentialListBuilder * Store ItemBuilder) :=
  match b with
  | None => Panicked nil_pointer
  | Some _ =>
      let made := fresh (dom st) in
      let copied := view st values in
      Returned ({| items := Some {| array := made; off := 0;
                                    len := length copied |} |},
                <[made := copied]> st)
  end.

Inductive Effect : Type -> Type :=
| item_Build (item : ItemBuilder) : Effect (Item * option error).

(** The loop of Build: [built] holds what earlier iterations stored. *)
Fixpoint buildItems (rest : list ItemBuilder) (built : list Item)
  : Go.Prog Effect (list Item + error) :=
  match rest with
  | [] => Go.Ret (inl built)
  | item :: rest =>
      doE r <- Go.call (item_Build item);
      match snd r with
      | Some err => Go.Ret (inr err)
      | None => buildItems rest (built ++ [fst r])
      end
  end.

(** Build creates a list of 'registry_credential' objects using the
    configuration stored in the builder. *)
Definition Build (b : option RegistryCredentialListBuilder)
  (st : Store ItemBuilder)
  : Go.Prog Effect (option RegistryCredentialList * option error) :=
  match b with
  | None => Go.Panic nil_pointer
  | Some b =>
      doE r <- buildItems (view st (items b)) [];
      match r with
      | inr err => Go.Ret (None, Some err)
      | inl items => Go.Ret (Some {| list_items := items |}, None)
      end
  end.

(** The item builders that were asked to build, with the answers. *)
Definition built (tr : list (Go.Event Effect))
  : list (ItemBuilder * (Item * option error)) :=
  map (fun ev => match ev with
                 | Go.Ev e x =>
                     match e in Effect X return X -> _ with
                     | item_Build item => fun ans => (item, ans)
                     end x
                 end) tr.

End Model.

Arguments RegistryCredentialList Item : clear implicits.
Arguments Effect ItemBuilder Item : clear implicits.

End listbuilder.

(** ** Package clustersmgmt/v1: the JSON form of 'group' *)

Module group.

(** What the file takes from the rest of its package and from helpers:
    the two kind constants, the conversions of the user list, and the
    types it only passes along. *)
Class Library : Type := {
  UserList : Type;
  userListLinkData : Type;
  Encoder : Type;
  Decoder : Type;
  Target : Type;
  Source : Type;
  GroupKind : string;
  GroupLinkKind : string;
  wrapLink : option UserList -> option userListLinkData * option error;
  unwrapLink : option userListLinkData -> option UserList * option error
}.

Section Model.
Context `{Library}.

(** Group, declared elsewhere in the package: the fields this file uses.
    A nil pointer is [None]. *)
Record Group : Type := {
  id : option string;
  href : option string;
  link : bool;
  users : option UserList
}.

(** groupData is the data structure used internally to marshal and
    unmarshal objects of type 'group'. *)
Record groupData : Type := {
  Kind : option string;
  ID : option string;
  HREF : option string;
  Users : option userListLinkData
}.

(** wrap is the method used internally to convert a value of the 'group'
    value to a JSON document.  Both results are named: the data is
    returned also when wrapLink failed. *)
Definition wrap (o : option Group) : option groupData * option error :=
  match o with
  | None => (None, None)
  | Some o =>
      let kind := if link o then GroupLinkKind else GroupKind in
      let '(users, err) := wrapLink (users o) in
      (Some {| Kind := Some kind; ID := id o; HREF := href o;
               Users := users |}, err)
  end.

Definition unexpectedKind (kind : string) : error :=
  errors_New ("expected kind '" ++ GroupKind ++ "' or '" ++ GroupLinkKind
              ++ "' but got '" ++ kind ++ "'").

(** unwrap is the function used internally to convert the JSON
    unmarshalled data to a value of the 'group' type.  The switch tries
    GroupKind first. *)
Definition unwrap (d : option groupData) : option Group * option error :=
  match d with
  | None => (None, None)
  | Some d =>
      let finish (isLink : bool) :=
        let '(users, err) := unwrapLink (Users d) in
        (Some {| id := ID d; href := HREF d; link := isLink;
                 users := users |}, err) in
      match Kind d with
      | None => finish false
      | Some kind =>
          if String.eqb kind GroupKind then finish false
          else if String.eqb kind GroupLinkKind then finish true
          else (Some {| id := ID d; href := HREF d; link := false;
                        users := None |},
                Some (unexpectedKind kind))
      end
  end.

Inductive Effect : Type -> Type :=
| helpers_NewEncoder (target : Target) : Effect (error + Encoder)
| Encode (encoder : Encoder) (data : option groupData)
    : Effect (option error)
| helpers_NewDecoder (source : Source) : Effect (error + Decoder)
| Decode (decoder : Decoder) : Effect (groupData * option error).

(** MarshalGroup writes a value of the 'group' to the given target, which
    can be a writer or a JSON encoder. *)
Definition MarshalGroup (object : option Group) (target : Target)
  : Go.Prog Effect (option error) :=
  doE r <- Go.call (helpers_NewEncoder target);
  match r with
  | inl err => Go.Ret (Some err)
  | inr encoder =>
      let '(data, err) := wrap object in
      match err with
      | Some err => Go.Ret (Some err)
      | None => Go.call (Encode encoder data)
      end
  end.

(** UnmarshalGroup reads a value of the 'group' type from the given
    source, which can be an slice of bytes, a string, a reader or a JSON
    decoder.  Decode fills a new groupData. *)
Definition UnmarshalGroup (source : Source)
  : Go.Prog Effect (option Group * option error) :=
  doE r <- Go.call (helpers_NewDecoder source);
  match r with
  | inl err => Go.Ret (None, Some err)
  | inr decoder =>
      doE r <- Go.call (Decode decoder);
      match snd r with
      | Some err => Go.Ret (None, Some err)
      | None => Go.Ret (unwrap (Some (fst r)))
      end
  end.

Definition as_Encode (ev : Go.Event Effect)
  : option (Encoder * option groupData * option error) :=
  match ev with
  | Go.Ev e x =>
      match e in Effect X return X -> option _ with
      | Encode encoder data => fun ans => Some (encoder, data, ans)
      | _ => fun _ => None
      end x
  end.

Definition encodes (tr : list (Go.Event Effect)) := omap as_Encode tr.

(** The user-list conversions undo each other. *)
Definition linksRoundTrip : Prop :=
  forall u l, wrapLink u = (l, None) -> unwrapLink l = (u, None).

End Model.
End group.

(** ** Package accountsmgmt/v1: the client of the 'SKU' resource *)

Module sku.

(** What the file takes from net/http, net/url, context, helpers, errors
    and the rest of its package. *)
Class Library : Type := {
  RoundTripper : Type;        (* http.RoundTripper *)
  Values : Type;              (* url.Values *)
  HTTPHeader : Type;          (* http.Header *)
  Context : Type;             (* a non-nil context.Context *)
  ReadCloser : Type;          (* the Body of a response *)
  Value : Type;               (* an interface{} argument *)
  ApiError : Type;            (* what *errors.Error points to *)
  SKU : Type;
  skuData : Type;
  context_Background : Context;
  helpers_CopyQuery : Values -> Values;
  helpers_SetHeader : HTTPHeader -> string -> HTTPHeader;
  helpers_AddValue : Values -> string -> Value -> Values;
  helpers_AddHeader : HTTPHeader -> string -> Value -> HTTPHeader;
  Values_Encode : Values -> string;
  skuData_unwrap : skuData -> option SKU * option error;
  (* the zero values of the two map types *)
  nil_Values : Values;
  nil_HTTPHeader : HTTPHeader
}.

Section Model.
Context `{Library}.

(** SKUClient is the client of the 'SKU' resource. *)
Record SKUClient : Type := {
  client_transport : RoundTripper;
  client_path : string;
  client_metric : string
}.

(** SKUGetRequest is the request for the 'get' method. *)
Record SKUGetRequest : Type := {
  transport : RoundTripper;
  path : string;
  metric : string;
  query : Values;
  header : HTTPHeader
}.

(** SKUGetResponse is the response for the 'get' method. *)
Record SKUGetResponse : Type := {
  status : Z;
  resp_header : HTTPHeader;
  err : option ApiError;
  body : option SKU
}.

(** The parts of http.Request that SendContext sets; the context is nil
    until WithContext attaches one. *)
Record Request : Type := {
  Method : string;
  URL_Path : string;
  URL_RawQuery : string;
  Header : HTTPHeader;
  ctx : option Context
}.

(** The parts of http.Response that SendContext reads. *)
Record Response : Type := {
  StatusCode : Z;
  Response_Header : HTTPHeader;
  Body : ReadCloser
}.

(** A value of the interface type [error]: an ordinary error, or a
    [*errors.Error], which is a non-nil interface value even when the
    pointer in it is nil. *)
Inductive goerror : Type :=
| plain (e : error)
| apiError (p : option ApiError).

(** NewSKUClient creates a new client for the 'SKU' resource using the
    given transport to sned the requests and receive the responses. *)
Definition NewSKUClient (transport : RoundTripper) (path metric : string)
  : SKUClient :=
  {| client_transport := transport; client_path := path;
     client_metric := metric |}.

(** Get creates a request for the 'get' method. *)
Definition Get (c : SKUClient) : SKUGetRequest :=
  {| transport := client_transport c; path := client_path c;
     metric := client_metric c; query := nil_Values;
     header := nil_HTTPHeader |}.

(** The method Parameter: it adds a query parameter. *)
Definition Parameter_ (r : SKUGetRequest) (name : string) (value : Value)
  : SKUGetRequest :=
  {| transport := transport r; path := path r; metric := metric r;
     query := helpers_AddValue (query r) name value; header := header r |}.

(** The method Header: it adds a request header. *)
Definition Header_ (r : SKUGetRequest) (name : string) (value : Value)
  : SKUGetRequest :=
  {| transport := transport r; path := path r; metric := metric r;
     query := query r;
     header := helpers_AddHeader (header r) name value |}.

Inductive Effect : Type -> Type :=
| RoundTrip (t : RoundTripper) (request : Request)
    : Effect (error + Response)
| Close (b : ReadCloser) : Effect (option error)
| errors_UnmarshalError (b : ReadCloser)
    : Effect (option ApiError * option error)
| json_Decode (reader : ReadCloser) : Effect (skuData * option error).

(** unmarshal is the method used internally to unmarshal responses to
    the 'get' method.  It returns the response with its body set, and the
    error. *)
Definition unmarshal (r : SKUGetResponse) (reader : ReadCloser)
  : Go.Prog Effect (SKUGetResponse * option error) :=
  doE d <- Go.call (json_Decode reader);
  match snd d with
  | Some e => Go.Ret (r, Some e)
  | None =>
      let '(b, e) := skuData_unwrap (fst d) in
      Go.Ret ({| status := status r; resp_header := resp_header r;
                 err := err r; body := b |}, e)
  end.

(** SendContext sends this request, waits for the response, and returns
    it.  [context] is an interface value, nil when [None].  The deferred
    Close runs after the results are set, on every return that follows a
    successful RoundTrip. *)
Definition SendContext (r : SKUGetRequest) (context : option Context)
  : Go.Prog Effect (option SKUGetResponse * option goerror) :=
  let query := helpers_CopyQuery (query r) in
  let header := helpers_SetHeader (header r) (metric r) in
  let request :=
    {| Method := "GET"; URL_Path := path r;
       URL_RawQuery := Values_Encode query; Header := header;
       ctx := None |} in
  let request :=
    match context with
    | Some c =>
        {| Method := Method request; URL_Path := URL_Path request;
           URL_RawQuery := URL_RawQuery request; Header := Header request;
           ctx := Some c |}
    | None => request
    end in
  doE rt <- Go.call (RoundTrip (transport r) request);
  match rt with
  | inl e => Go.Ret (None, Some (plain e))
  | inr response =>
      let result :=
        {| status := StatusCode response;
           resp_header := Response_Header response;
           err := None; body := None |} in
      doE out <-
        (if (400 <=? status result)%Z then
           doE u <- Go.call (errors_UnmarshalError (Body response));
           let result :=
             {| status := status result; resp_header := resp_header result;
                err := fst u; body := body result |} in
           match snd u with
           | Some e => Go.Ret (Some result, Some (plain e))
           | None => Go.Ret (Some result, Some (apiError (err result)))
           end
         else
           doE u <- unmarshal result (Body response);
           match snd u with
           | Some e => Go.Ret (Some (fst u), Some (plain e))
           | None => Go.Ret (Some (fst u), None)
           end);
      doE _ <- Go.call (Close (Body response));
      Go.Ret out
  end.

(** Send sends this request, waits for the response, and returns it. *)
Definition Send (r : SKUGetRequest)
  : Go.Prog Effect (option SKUGetResponse * option goerror) :=
  SendContext r (Some context_Background).

(** The accessors of the response, on a pointer that may be nil. *)
Definition Status (r : option SKUGetResponse) : Outcome Z :=
  match r with
  | None => Panicked nil_pointer
  | Some r => Returned (status r)
  end.

Definition Error (r : option SKUGetResponse) : Outcome (option ApiError) :=
  match r with
  | None => Panicked nil_pointer
  | Some r => Returned (err r)
  end.

(** Body returns the value of the 'body' parameter. *)
Definition GetResponseBody (r : option SKUGetResponse) : option SKU :=
  match r with
  | None => None
  | Some r => body r
  end.

(** GetBody returns the value of the 'body' parameter and a flag
    indicating if the parameter has a value. *)
Definition GetBody (r : option SKUGetResponse) : option SKU * bool :=
  let ok :=
    match r with
    | None => false
    | Some r => match body r with Some _ => true | None => false end
    end in
  if ok then (GetResponseBody r, ok) else (None, ok).

Definition as_RoundTrip (ev : Go.Event Effect)
  : option (RoundTripper * Request * (error + Response)) :=
  match ev with
  | Go.Ev e x =>
      match e in Effect X return X -> option _ with
      | RoundTrip t request => fun ans => Some (t, request, ans)
      | _ => fun _ => None
      end x
  end.

Definition as_Close (ev : Go.Event Effect) : option ReadCloser :=
  match ev with
  | Go.Ev e x =>
      match e in Effect X return X -> option _ with
      | Close b => fun _ => Some b
      | _ => fun _ => None
      end x
  end.

Definition as_UnmarshalError (ev : Go.Event Effect)
  : option (ReadCloser * (option ApiError * option error)) :=
  match ev with
  | Go.Ev e x =>
      match e in Effect X return X -> option _ with
      | errors_UnmarshalError b => fun ans => Some (b, ans)
      | _ => fun _ => None
      end x
  end.

Definition as_Decode (ev : Go.Event Effect)
  : option (ReadCloser * (skuData * option error)) :=
  match ev with
  | Go.Ev e x =>
      match e in Effect X return X -> option _ with
      | json_Decode b => fun ans => Some (b, ans)
      | _ => fun _ => None
      end x
  end.

Definition roundTrips (tr : list (Go.Event Effect)) := omap as_RoundTrip tr.
Definition closes (tr : list (Go.Event Effect)) := omap as_Close tr.
Definition errorBodies (tr : list (Go.Event Effect)) :=
  omap as_UnmarshalError tr.
Definition decodes (tr : list (Go.Event Effect)) := omap as_Decode tr.

End Model.
End sku.

(** Concrete inputs for the three SDK files. *)
Module SdkDemo.

(** Item builders and items are strings; a builder named "bad" fails. *)
Definition buildEnv : Go.Env (listbuilder.Effect string string) nat :=
  fun X (e : listbuilder.Effect string string X) (n : nat) =>
    (match e in listbuilder.Effect _ _ X return X with
     | listbuilder.item_Build item =>
         if String.eqb item "bad"
         then ("", Some (errors_New "missing token"))
         else ("built " ++ item, None)
     end, S n).

Definition callerStore : gmap positive (list string) :=
  {[ 1%positive := ["quay"; "bad"; "redhat"; "docker"] ]}.

(** The caller's slice: the two elements after the first. *)
Definition callerValues : listbuilder.Slice :=
  {| listbuilder.array := 1; listbuilder.off := 1; listbuilder.len := 2 |}.

Definition goodValues : listbuilder.Slice :=
  {| listbuilder.array := 1; listbuilder.off := 2; listbuilder.len := 2 |}.

#[local] Instance groupLibrary : group.Library := {|
  group.UserList := list string;
  group.userListLinkData := list string;
  group.Encoder := unit;
  group.Decoder := unit;
  group.Target := unit;
  group.Source := unit;
  group.GroupKind := "Group";
  group.GroupLinkKind := "GroupLink";
  group.wrapLink := fun u => (u, None);
  group.unwrapLink := fun l => (l, None)
|}.

Definition admins : group.Group :=
  {| group.id := Some "dedicated-admins";
     group.href := Some "/api/clusters_mgmt/v1/clusters/1/groups/admins";
     group.link := true;
     group.users := Some ["alice"; "bob"] |}.

Definition strangeData : group.groupData :=
  {| group.Kind := Some "Cluster"; group.ID := Some "x";
     group.HREF := None; group.Users := None |}.

#[local] Instance skuLibrary : sku.Library := {|
  sku.RoundTripper := unit;
  sku.Values := list (string * string);
  sku.HTTPHeader := list (string * string);
  sku.Context := string;
  sku.ReadCloser := string;
  sku.Value := string;
  sku.ApiError := string;
  sku.SKU := string;
  sku.skuData := string;
  sku.context_Background := "background";
  sku.helpers_CopyQuery := fun q => q;
  sku.helpers_SetHeader := fun hd metric => ("X-Metric", metric) :: hd;
  sku.helpers_AddValue := fun q name value => (q ++ [(name, value)])%list;
  sku.helpers_AddHeader :=
    fun hd name value => (hd ++ [(name, value)])%list;
  sku.Values_Encode :=
    fun q => String.concat "&" (map (fun kv => fst kv ++ "=" ++ snd kv) q);
  sku.skuData_unwrap := fun d => (Some d, None);
  sku.nil_Values := [];
  sku.nil_HTTPHeader := []
|}.

(** A server that answers every request with [code]; an error body parses
    to a nil API error without complaint. *)
Definition server (code : Z) : Go.Env sku.Effect nat :=
  fun X (e : sku.Effect X) (n : nat) =>
    (match e in sku.Effect X return X with
     | sku.RoundTrip _ _ =>
         inr {| sku.StatusCode := code; sku.Response_Header := [];
                sku.Body := "payload" |}
     | sku.Close _ => None
     | sku.errors_UnmarshalError _ => (None, None)
     | sku.json_Decode b => (b, None)
     end, S n).

Definition skuRequest : sku.SKUGetRequest :=
  sku.Parameter_ (sku.Get (sku.NewSKUClient tt "/api/accounts_mgmt/v1/skus/1"
                             "sku")) "fields" "id".

End SdkDemo.
(** ** How the engine executes *)

Section Execution.
Context `{Externals}.

(** Take the environment's answer to the next call. *)
Tactic Notation "answer" "as" simple_intropattern(pat) :=
  cbn [interp bind call];
  match goal with
  | h : Env _ |- _ =>
      match goal with
      | |- context [h ?X ?e ?s] => destruct (h X e s) as pat
      end
  end.

Ltac found c := do 3 eexists; split; [reflexivity | c].

Lemma interp_bind {S A B} (h : Env S) (m : Prog A) (f : A -> Prog B) (s : S) :
  interp h (bind m f) s =
  match interp h m s with
  | (Returned a, s1, t1) =>
      let '(o, s2, t2) := interp h (f a) s1 in (o, s2, (t1 ++ t2)%list)
  | (Panicked msg, s1, t1) => (Panicked msg, s1, t1)
  end.
Proof.
  revert s. induction m as [a | msg | X e k IH]; intros s.
  - cbn. destruct (interp h (f a) s) as [[o s2] t2]. reflexivity.
  - reflexivity.
  - answer as [x s0]. rewrite IH.
    destruct (interp h (k x) s0) as [[[a | msg] s1] t1].
    + destruct (interp h (f a) s1) as [[o s2] t2]. reflexivity.
    + reflexivity.
Qed.

Lemma writeSummary_exec {S} (h : Env S) e result data (s : S) :
  exists out s' tr,
    interp h (writeSummary e result data) s = (Returned out, s', tr)
    /\ writeSummaryTrace e result data out tr.
Proof.
  unfold writeSummary.
  answer as [[err | ] s1]; [found ltac:(apply ws_mkdir_failed) | ].
  answer as [now s2].
  answer as [[err | yamlData] s3]; [found ltac:(apply ws_marshal_failed) | ].
  answer as [[err | ] s4]; [found ltac:(apply ws_write_failed) | ].
  found ltac:(apply ws_done).
Qed.

Lemma sendEach_exec {S} (h : Env S) e ctx rr rcs (s : S) :
  exists s' answers,
    interp h (sendEach e ctx rr rcs) s
      = (Returned tt, s', notifyTrace e ctx rr answers)
    /\ map fst answers = rcs.
Proof.
  revert s. induction rcs as [ | rc rest IH]; intros s.
  - exists s, []. split; reflexivity.
  - cbn [sendEach]. answer as [[err | ] s1].
    + answer as [[] s2]. destruct (IH s2) as (s' & answers & Hrun & Hfst).
      rewrite Hrun. exists s', ((rc, Some err) :: answers). split.
      * reflexivity.
      * cbn. now rewrite Hfst.
    + cbn [interp bind call].
      destruct (IH s1) as (s' & answers & Hrun & Hfst).
      rewrite Hrun. exists s', ((rc, None) :: answers). split.
      * reflexivity.
      * cbn. now rewrite Hfst.
Qed.

(** The dispatch step of Run: the nil test and the enabled flag guard the
    only call of [sendNotifications], which therefore never panics. *)
Lemma dispatch_exec {S} (h : Env S) e ctx result (s : S) :
  exists s' answers,
    interp h (if notificationsEnabled (config e)
              then sendNotifications e ctx result
              else Ret tt) s
      = (Returned tt, s',
         notifyTrace e ctx (toReporterResult result) answers)
    /\ map fst answers = configuredReporters (config e).
Proof.
  unfold notificationsEnabled, configuredReporters, sendNotifications.
  destruct (NotificationConfig (config e)) as [nc | ].
  - destruct (Enabled nc).
    + apply sendEach_exec.
    + exists s, []. split; reflexivity.
  - exists s, []. split; reflexivity.
Qed.

(** Run always returns, and in one of the ways of [RunTrace]. *)
Lemma Run_exec {S} (h : Env S) e ctx (s : S) :
  exists out s' tr,
    interp h (Run e ctx) s = (Returned out, s', tr) /\ RunTrace e ctx out tr.
Proof.
  unfold Run.
  answer as [[err | data] s1]; [found ltac:(apply run_collect_failed) | ].
  answer as [reg s2].
  answer as [[err | [userPrompt cfg0]] s3];
    [found ltac:(apply run_render_failed) | ].
  answer as [[err | res] s4];
    [found ltac:(apply (run_analyze_failed e ctx data reg userPrompt cfg0 err))
    | ].
  cbn [interp bind call]. rewrite interp_bind.
  destruct (writeSummary_exec h e (buildResult data userPrompt res) data s4)
    as (out & s5 & trW & HrunW & HW).
  rewrite HrunW. destruct out as [err | ].
  { cbn [interp]. do 3 eexists. split; [reflexivity |].
    rewrite app_nil_r.
    apply (run_summary_failed e ctx data reg userPrompt cfg0 res err trW HW). }
  rewrite interp_bind.
  destruct (dispatch_exec h e ctx (buildResult data userPrompt res) s5)
    as (s6 & answers & HrunN & Hfst).
  rewrite HrunN. cbn [interp].
  do 3 eexists. split; [reflexivity |].
  rewrite app_nil_r.
  apply (run_done e ctx data reg userPrompt cfg0 res trW answers HW Hfst).
Qed.

End Execution.

(** ** Facts about traces *)

Section TraceFacts.
Context `{Externals}.

(** One step of an induction along the answers of a dispatch. *)
Ltac walk IH :=
  cbn; first [reflexivity | exact IH | f_equal; exact IH].

Lemma notifyTrace_sends e ctx rr answers :
  omap as_Send (notifyTrace e ctx rr answers) = sent e ctx rr answers.
Proof. induction answers as [ | [rc [err | ]] rest IH]; walk IH. Qed.

Lemma notifyTrace_stderr e ctx rr answers :
  omap as_Stderr (notifyTrace e ctx rr answers) = warnings answers.
Proof. induction answers as [ | [rc [err | ]] rest IH]; walk IH. Qed.

Lemma notifyTrace_collects e ctx rr answers :
  omap as_Collect (notifyTrace e ctx rr answers) = [].
Proof. induction answers as [ | [rc [err | ]] rest IH]; walk IH. Qed.

Lemma notifyTrace_renders e ctx rr answers :
  omap as_RenderPrompt (notifyTrace e ctx rr answers) = [].
Proof. induction answers as [ | [rc [err | ]] rest IH]; walk IH. Qed.

Lemma notifyTrace_analyzes e ctx rr answers :
  omap as_Analyze (notifyTrace e ctx rr answers) = [].
Proof. induction answers as [ | [rc [err | ]] rest IH]; walk IH. Qed.

Lemma notifyTrace_mkdirs e ctx rr answers :
  omap as_MkdirAll (notifyTrace e ctx rr answers) = [].
Proof. induction answers as [ | [rc [err | ]] rest IH]; walk IH. Qed.

Lemma notifyTrace_marshals e ctx rr answers :
  omap as_Marshal (notifyTrace e ctx rr answers) = [].
Proof. induction answers as [ | [rc [err | ]] rest IH]; walk IH. Qed.

Lemma notifyTrace_fileWrites e ctx rr answers :
  omap as_WriteFile (notifyTrace e ctx rr answers) = [].
Proof. induction answers as [ | [rc [err | ]] rest IH]; walk IH. Qed.

Lemma notifyTrace_clock e ctx rr answers :
  omap as_Now (notifyTrace e ctx rr answers) = [].
Proof. induction answers as [ | [rc [err | ]] rest IH]; walk IH. Qed.

Lemma int_wrap_small z : - 2 ^ 63 <= z <= int_max -> int_wrap z = z.
Proof.
  unfold int_wrap, int_max. intros Hz.
  rewrite Z.mod_small by lia. lia.
Qed.

Lemma readFileCalls_length tcs :
  (length (readFileCalls tcs) <= length tcs)%nat.
Proof.
  unfold readFileCalls. induction tcs as [ | tc rest IH]; cbn.
  - lia.
  - destruct (String.eqb (Name tc) "read_file"); cbn; lia.
Qed.

(** The counting loop, started at any count that leaves room for one
    increment per element. *)
Lemma count_loop tcs : forall count,
  0 <= count -> count + Z.of_nat (length tcs) <= int_max ->
  fold_left
    (fun count tc =>
       if String.eqb (Name tc) "read_file" then int_wrap (count + 1)
       else count) tcs count
  = count + Z.of_nat (length (readFileCalls tcs)).
Proof.
  unfold readFileCalls.
  induction tcs as [ | tc rest IH]; intros count Hlo Hhi; cbn [fold_left].
  - cbn. lia.
  - cbn [length] in Hhi. cbn [List.filter].
    destruct (String.eqb (Name tc) "read_file").
    + rewrite int_wrap_small by (unfold int_max in *; lia).
      rewrite IH by lia. cbn [length]. lia.
    + rewrite IH by lia. lia.
Qed.

Lemma artifactsExamined_count (toolCalls : slice genai_FunctionCall) :
  len toolCalls <= int_max ->
  artifactsExamined toolCalls
  = Z.of_nat (length (readFileCalls (elems toolCalls))).
Proof.
  unfold artifactsExamined, len. intros Hlen.
  rewrite count_loop by lia. lia.
Qed.

End TraceFacts.

(** Read a projection off a trace that is known stage by stage. *)
Ltac read_trace :=
  unfold collects, renders, analyzes, mkdirs, marshals, fileWrites, sends,
    stderr, clock, persisted;
  rewrite ?omap_app;
  rewrite ?notifyTrace_sends, ?notifyTrace_stderr, ?notifyTrace_collects,
    ?notifyTrace_renders, ?notifyTrace_analyzes, ?notifyTrace_mkdirs,
    ?notifyTrace_marshals, ?notifyTrace_fileWrites, ?notifyTrace_clock;
  cbn.

Tactic Notation "read_trace" "in_hyp" hyp(Hp) :=
  unfold collects, renders, analyzes, mkdirs, marshals, fileWrites, sends,
    stderr, clock, persisted in Hp;
  rewrite ?omap_app in Hp;
  rewrite ?notifyTrace_sends, ?notifyTrace_stderr, ?notifyTrace_collects,
    ?notifyTrace_renders, ?notifyTrace_analyzes, ?notifyTrace_mkdirs,
    ?notifyTrace_marshals, ?notifyTrace_fileWrites, ?notifyTrace_clock in Hp;
  cbn in Hp.

Section Claims.
Context `{Externals}.

(** What a run that returned a result went through. *)
Lemma Run_success_inv {S} (h : Env S) e ctx (s s' : S) r tr :
  interp h (Run e ctx) s = (Returned (Some r, None), s', tr) ->
  exists data reg userPrompt cfg0 res now yamlData answers,
    r = buildResult data userPrompt res
    /\ map fst answers = configuredReporters (config e)
    /\ tr = (prepared e ctx data reg userPrompt cfg0
             ++ [evAnalyze e ctx userPrompt cfg0 reg (inr res)]
             ++ [evMkdir e None; evNow now;
                 evMarshal now r data (inr yamlData); evWrite e yamlData None]
             ++ notifyTrace e ctx (toReporterResult r) answers)%list.
Proof.
  intros Hrun.
  destruct (Run_exec h e ctx s) as (out & s1 & tr1 & Hrun1 & Htr).
  rewrite Hrun1 in Hrun. injection Hrun as -> -> ->.
  inversion Htr as [ | | | | data reg userPrompt cfg0 res trW answers HW Hfst];
    subst.
  inversion HW as [ | | | now yamlData]; subst.
  exists data, reg, userPrompt, cfg0, res, now, yamlData, answers.
  repeat split; assumption || reflexivity.
Qed.

(** Every run, split by the stage at which it ended. *)
Ltac run_cases h e ctx s :=
  let out := fresh "out" in
  let s' := fresh "s'" in
  let tr := fresh "tr" in
  let Hrun := fresh "Hrun" in
  let Htr := fresh "Htr" in
  destruct (Run_exec h e ctx s) as (out & s' & tr & Hrun & Htr);
  exists out, s', tr; split; [exact Hrun | ]; clear Hrun;
  inversion Htr as
    [ err
    | data reg err
    | data reg userPrompt cfg0 err
    | data reg userPrompt cfg0 res err trW HW
    | data reg userPrompt cfg0 res trW answers HW Hfst ];
  subst; clear Htr;
  try (inversion HW as [ werr | now werr | now yamlData werr | now yamlData ];
       subst; clear HW).

(** C1. Whenever the aggregator's Collect answers with an error, Run
    returns a nil result and an error that wraps that error, and it has made
    no other call: in particular no directory was created, no document was
    marshalled and no file was written, so writeSummary was not reached. *)
Theorem Run_aggregation_failure {S} (h : Env S) e ctx (s s1 : S) err :
  h _ (Collect (aggregator e) ctx (ResultsDir (config e))) s = (inl err, s1) ->
  exists wrapped tr,
    interp h (Run e ctx) s = (Returned (None, Some wrapped), s1, tr)
    /\ errors_Unwrap wrapped = Some err
    /\ error_Error wrapped
       = "failed to collect krkn-ai results: " ++ error_Error err
    /\ tr = [evCollect e ctx (inl err)]
    /\ mkdirs tr = [] /\ marshals tr = [] /\ fileWrites tr = [].
Proof.
  intros Hcollect.
  exists (fmt_Errorf_w "failed to collect krkn-ai results: " err),
    [evCollect e ctx (inl err)].
  split; [ | repeat split].
  unfold Run. cbn [interp bind call]. rewrite Hcollect. reflexivity.
Qed.

(** C2. Whenever Run returns a result, its Status is "completed" and the
    metadata entries total_scenarios, successful_scenarios,
    failed_scenarios, generations and max_fitness_score hold the fields of
    the summary that Collect returned in this run. *)
Theorem Run_metadata_matches_summary {S} (h : Env S) e ctx (s s' : S) r tr :
  interp h (Run e ctx) s = (Returned (Some r, None), s', tr) ->
  Status r = "completed"
  /\ exists data,
      collects tr = [(aggregator e, ctx, ResultsDir (config e), inr data)]
      /\ Metadata r !! "total_scenarios"
         = Some (any_int (TotalScenarioCount (Summary data)))
      /\ Metadata r !! "successful_scenarios"
         = Some (any_int (SuccessfulScenarioCount (Summary data)))
      /\ Metadata r !! "failed_scenarios"
         = Some (any_int (FailedScenarioCount (Summary data)))
      /\ Metadata r !! "generations"
         = Some (any_int (Generations (Summary data)))
      /\ Metadata r !! "max_fitness_score"
         = Some (any_float64 (MaxFitnessScore (Summary data))).
Proof.
  intros Hrun.
  destruct (Run_success_inv h e ctx s s' r tr Hrun)
    as (data & reg & userPrompt & cfg0 & res & now & yamlData & answers
        & -> & Hfst & ->).
  split; [reflexivity | ].
  exists data. split; [read_trace; reflexivity | ].
  repeat split.
Qed.

(** C3. Whenever Run returns a result, the metadata entry tool_calls is
    the length of the tool-call list that Analyze returned in this run and
    the entry artifacts_examined is the number of its entries whose Name is
    "read_file" (the list being a Go slice, its length is an int); for the
    names read_file, read_file, other_tool the entries are 2 and 3. *)
Theorem Run_tool_call_counts {S} (h : Env S) e ctx (s s' : S) r tr :
  interp h (Run e ctx) s = (Returned (Some r, None), s', tr) ->
  exists userPrompt llmConfig reg res,
    analyzes tr = [(llmClient e, ctx, userPrompt, llmConfig, reg, inr res)]
    /\ Metadata r !! "tool_calls"
       = Some (any_int (Z.of_nat (length (elems (llm_ToolCalls res)))))
    /\ (Z.of_nat (length (elems (llm_ToolCalls res))) <= int_max ->
        Metadata r !! "artifacts_examined"
        = Some (any_int
                  (Z.of_nat
                     (length (readFileCalls (elems (llm_ToolCalls res)))))))
    /\ (map Name (elems (llm_ToolCalls res))
        = ["read_file"; "read_file"; "other_tool"] ->
        Metadata r !! "artifacts_examined" = Some (any_int 2)
        /\ Metadata r !! "tool_calls" = Some (any_int 3)).
Proof.
  intros Hrun.
  destruct (Run_success_inv h e ctx s s' r tr Hrun)
    as (data & reg & userPrompt & cfg0 & res & now & yamlData & answers
        & -> & Hfst & ->).
  exists userPrompt, (applyOverrides (config e) cfg0), reg, res.
  split; [read_trace; reflexivity | ].
  assert (Hlookup : forall n,
            artifactsExamined (llm_ToolCalls res) = n ->
            Metadata (buildResult data userPrompt res) !! "artifacts_examined"
            = Some (any_int n)).
  { intros n <-. reflexivity. }
  split; [reflexivity | ]. split.
  - intros Hlen. apply Hlookup. now apply artifactsExamined_count.
  - intros Hnames. split.
    + apply Hlookup. unfold artifactsExamined.
      destruct (elems (llm_ToolCalls res)) as [ | a [ | b [ | c [ | d l]]]];
        try discriminate Hnames.
      injection Hnames as Ha Hb Hc. cbn. rewrite Ha, Hb, Hc. reflexivity.
    + change (Metadata (buildResult data userPrompt res) !! "tool_calls")
        with (Some (any_int (len (llm_ToolCalls res)))).
      unfold len. rewrite <- (length_map Name), Hnames. reflexivity.
Qed.


Lemma summaryDoc_contains now r data :
  summaryContains (summaryDoc now r data) now r data.
Proof.
  unfold summaryContains.
  repeat match goal with |- _ /\ _ => split end; try reflexivity.
  exists (runSummary data). split; [reflexivity | ].
  unfold runSummaryContains. repeat split.
Qed.

(** C5. writeSummary writes the summary to the fixed path
    <results-dir>/llm-analysis/summary.yaml.  Whenever it is called it asks
    once for the directory <results-dir>/llm-analysis to be created; if that
    fails it returns an error wrapping the failure and marshals and writes
    nothing; otherwise it reads the clock and marshals the summary
    document, and when that succeeds it writes the marshalled bytes once to
    summary.yaml inside the directory, returning an error wrapping the
    failure of the write and nil when the write succeeded.  Run calls
    writeSummary whenever the analysis succeeded, on the result built from
    the model's answer and the data Collect returned.  The only directory
    Run creates is <results-dir>/llm-analysis and the only file it writes is
    summary.yaml inside it, after that directory was created; what it
    writes is the marshalled summary document, which holds the timestamp,
    the tag "krknai", the run-summary block, the two scenario lists that
    Collect returned, and the status, prompt, content, metadata and error of
    the result; a run that returns a result has written the file; and when
    creating the directory or writing the file fails, Run returns a nil
    result and an error that wraps that failure. *)
Theorem Run_persists_summary {S} (h : Env S) e ctx (s : S) :
  let dir := filepath_Join (ResultsDir (config e)) "llm-analysis" in
  let path := filepath_Join dir "summary.yaml" in
  (forall result data (s0 : S),
   exists out s1 tr made,
     interp h (writeSummary e result data) s0 = (Returned out, s1, tr)
     /\ mkdirs tr = [(dir, 493, made)]
     /\ (forall err, made = Some err ->
         out = Some (fmt_Errorf_w "failed to create analysis directory: "
                       err)
         /\ marshals tr = [] /\ fileWrites tr = [])
     /\ (made = None ->
         exists now marshalled,
           clock tr = [now]
           /\ marshals tr = [(summaryDoc now result data, marshalled)]
           /\ (forall err, marshalled = inl err ->
               out = Some (fmt_Errorf_w "failed to marshal summary to YAML: "
                             err)
               /\ fileWrites tr = [])
           /\ (forall yamlData, marshalled = inr yamlData ->
               exists written,
                 fileWrites tr = [(path, yamlData, 420, written)]
                 /\ out = match written with
                          | Some err =>
                              Some (fmt_Errorf_w
                                      "failed to write summary file: " err)
                          | None => None
                          end)))
  /\ exists out s' tr,
    interp h (Run e ctx) s = (Returned out, s', tr)
    /\ (forall c ctx' userPrompt llmConfig reg res,
          In (c, ctx', userPrompt, llmConfig, reg, inr res) (analyzes tr) ->
          exists data made,
            let r := buildResult data userPrompt res in
            collects tr
            = [(aggregator e, ctx, ResultsDir (config e), inr data)]
            /\ mkdirs tr = [(dir, 493, made)]
            /\ (made = None ->
                exists now marshalled,
                  clock tr = [now]
                  /\ marshals tr = [(summaryDoc now r data, marshalled)]
                  /\ (forall yamlData, marshalled = inr yamlData ->
                      exists written,
                        fileWrites tr = [(path, yamlData, 420, written)])))
    /\ (forall d, In d (mkdirs tr) -> exists ans, d = (dir, 493, ans))
    /\ (forall w, In w (fileWrites tr) ->
        exists data userPrompt res now yamlData,
          let r := buildResult data userPrompt res in
          collects tr = [(aggregator e, ctx, ResultsDir (config e), inr data)]
          /\ mkdirs tr = [(dir, 493, None)]
          /\ clock tr = [now]
          /\ marshals tr = [(summaryDoc now r data, inr yamlData)]
          /\ summaryContains (summaryDoc now r data) now r data
          /\ fileWrites tr = [w]
          /\ w = (path, yamlData, 420, snd w)
          /\ (snd w = None -> out = (Some r, None)))
    /\ (forall r, out = (Some r, None) -> persisted tr = true)
    /\ (forall d err, In d (mkdirs tr) -> snd d = Some err ->
        fileWrites tr = []
        /\ exists wrapped wrapped',
             out = (None, Some wrapped)
             /\ errors_Unwrap wrapped = Some wrapped'
             /\ errors_Unwrap wrapped' = Some err)
    /\ (forall w err, In w (fileWrites tr) -> snd w = Some err ->
        exists wrapped wrapped',
          out = (None, Some wrapped)
          /\ errors_Unwrap wrapped = Some wrapped'
          /\ errors_Unwrap wrapped' = Some err).
Proof.
  intros dir path. split.
  { intros result data s0.
    destruct (writeSummary_exec h e result data s0)
      as (out & s1 & tr & Hrun & Htr).
    inversion Htr as [ err | now err | now yamlData err | now yamlData ];
      subst; clear Htr.
    - exists (Some (fmt_Errorf_w "failed to create analysis directory: "
                      err)), s1, [evMkdir e (Some err)], (Some err).
      split; [exact Hrun | ]. split; [reflexivity | ]. split.
      + intros err0 Herr0. injection Herr0 as <-. repeat split.
      + intros Hmade. discriminate Hmade.
    - eexists _, s1, _, None.
      split; [exact Hrun | ]. split; [reflexivity | ]. split.
      + intros err0 Herr0. discriminate Herr0.
      + intros _. exists now, (inl err).
        split; [reflexivity | ]. split; [reflexivity | ]. split.
        * intros err0 Herr0. injection Herr0 as <-. split; reflexivity.
        * intros yamlData Hy. discriminate Hy.
    - eexists _, s1, _, None.
      split; [exact Hrun | ]. split; [reflexivity | ]. split.
      + intros err0 Herr0. discriminate Herr0.
      + intros _. exists now, (inr yamlData).
        split; [reflexivity | ]. split; [reflexivity | ]. split.
        * intros err0 Herr0. discriminate Herr0.
        * intros y Hy. injection Hy as <-. exists (Some err).
          split; reflexivity.
    - eexists _, s1, _, None.
      split; [exact Hrun | ]. split; [reflexivity | ]. split.
      + intros err0 Herr0. discriminate Herr0.
      + intros _. exists now, (inr yamlData).
        split; [reflexivity | ]. split; [reflexivity | ]. split.
        * intros err0 Herr0. discriminate Herr0.
        * intros y Hy. injection Hy as <-. exists None.
          split; reflexivity. }
  run_cases h e ctx s.
  all: split;
    [ intros c0 ctx0 p0 l0 reg0 res0 Hin; read_trace in_hyp Hin;
      try contradiction;
      destruct Hin as [Heq | []];
      first [ discriminate Heq
            | injection Heq as <- <- <- <- <- <- ]
    | ].
  all: lazymatch goal with
       | |- ex _ =>
           exists data; eexists; cbv zeta;
           split; [read_trace; reflexivity | ];
           split; [read_trace; reflexivity | ];
           first
             [ intros Hmade; discriminate Hmade
             | intros _; do 2 eexists;
               split; [read_trace; reflexivity | ];
               split; [read_trace; reflexivity | ];
               intros y Hy;
               first [ discriminate Hy
                     | injection Hy as <-; eexists; read_trace;
                       reflexivity ] ]
       | |- _ => idtac
       end.
  all: repeat match goal with |- _ /\ _ => split end.
  all: try (intros r Hr; first [discriminate Hr | read_trace; reflexivity]).
  all: try (intros x Hin; read_trace in_hyp Hin;
            repeat (destruct Hin as [<- | Hin]); try contradiction;
            eauto; fail).
  all: try (intros x err0 Hin Hsnd; read_trace in_hyp Hin;
            repeat (destruct Hin as [<- | Hin]); try contradiction;
            try discriminate Hsnd;
            injection Hsnd as ->;
            first [ split; [reflexivity | ] | idtac ];
            do 2 eexists; repeat split; fail).
  all: intros w Hin; read_trace in_hyp Hin;
    destruct Hin as [<- | []];
    exists data, userPrompt, res, now, yamlData; cbv zeta;
    repeat match goal with |- _ /\ _ => split end;
    try (read_trace; reflexivity); try reflexivity;
    try apply summaryDoc_contains;
    try discriminate.
Qed.

(** C6, as the code has it. For a non-nil configuration whose results
    directory or API key is empty, New returns a nil engine and an error,
    and it has called no collaborator at all: the environment is as it was
    and the trace is empty, so no I/O was attempted. *)
Theorem New_rejects_missing_inputs {S} (h : Env S) ctx c (s : S) :
  ResultsDir c = "" \/ APIKey c = "" ->
  exists err,
    interp h (New ctx (Some c)) s = (Returned (None, Some err), s, [])
    /\ (ResultsDir c = "" ->
        err = errors_New "results directory is required")
    /\ (ResultsDir c <> "" ->
        err = errors_New "GEMINI_API_KEY is required for krkn-ai analysis").
Proof.
  intros Hmissing. unfold New.
  destruct (String.eqb_spec (ResultsDir c) "") as [Hdir | Hdir].
  - eexists. split; [reflexivity | ]. split; [reflexivity | ].
    intros Hne. contradiction.
  - destruct Hmissing as [Hdir' | Hkey]; [contradiction | ].
    rewrite Hkey. cbn.
    eexists. split; [reflexivity | ]. split; [ | reflexivity].
    intros Hdir'. contradiction.
Qed.

(** C7. In every run, the parameters handed to Analyze are those that
    RenderPrompt returned with the template, except that each of
    temperature, max tokens and top-p is replaced by the caller's value
    when, and only when, the caller supplied one; everything else in the
    parameters is as the template supplied it. *)
Theorem Run_overrides_three_parameters {S} (h : Env S) e ctx (s : S) :
  exists out s' tr,
    interp h (Run e ctx) s = (Returned out, s', tr)
    /\ forall c ctx' userPrompt llmConfig reg ans,
         In (c, ctx', userPrompt, llmConfig, reg, ans) (analyzes tr) ->
         exists vars cfg0,
           renders tr = [(promptStore e, krknAIPromptTemplate, vars,
                          inr (userPrompt, cfg0))]
           /\ Temperature llmConfig
              = overridden (callerValue (config e) Temperature)
                           (Temperature cfg0)
           /\ MaxTokens llmConfig
              = overridden (callerValue (config e) MaxTokens)
                           (MaxTokens cfg0)
           /\ TopP llmConfig
              = overridden (callerValue (config e) TopP) (TopP cfg0)
           /\ llm_Other llmConfig = llm_Other cfg0.
Proof.
  run_cases h e ctx s.
  all: intros c ctx' p llmConfig reg' ans Hin; read_trace in_hyp Hin.
  all: try contradiction.
  all: destruct Hin as [Heq | []]; injection Heq as <- <- <- <- <- <-.
  all: exists (templateVars data), cfg0.
  all: split; [read_trace; reflexivity | ].
  all: unfold applyOverrides, callerValue.
  all: destruct (LLMConfig (config e)) as [o | ];
    [destruct (Temperature o), (MaxTokens o), (TopP o) | ];
    repeat split.
Qed.

(** C8, as the code has it. In every run, the variables handed to
    RenderPrompt are built from the data that Collect returned: they hold
    its six fields summary, top scenarios, failed scenarios, health-check
    report, log artifacts and config summary under the names Summary,
    TopScenarios, FailedScenarios, HealthCheckReport, LogArtifacts and
    ConfigSummary, and no other entry. *)
Theorem Run_template_variables {S} (h : Env S) e ctx (s : S) :
  exists out s' tr,
    interp h (Run e ctx) s = (Returned out, s', tr)
    /\ forall ps id vars ans,
         In (ps, id, vars, ans) (renders tr) ->
         exists data,
           collects tr
           = [(aggregator e, ctx, ResultsDir (config e), inr data)]
           /\ id = "krknai"
           /\ dom vars
              = {[ "Summary"; "TopScenarios"; "FailedScenarios";
                   "HealthCheckReport"; "LogArtifacts"; "ConfigSummary" ]}
           /\ size vars = 6%nat
           /\ vars !! "Summary" = Some (any_Summary (Summary data))
           /\ vars !! "TopScenarios"
              = Some (any_TopScenarios (TopScenarios data))
           /\ vars !! "FailedScenarios"
              = Some (any_FailedScenarios (FailedScenarios data))
           /\ vars !! "HealthCheckReport"
              = Some (any_HealthCheckReport (HealthCheckReport data))
           /\ vars !! "LogArtifacts"
              = Some (any_LogArtifacts (LogArtifacts data))
           /\ vars !! "ConfigSummary"
              = Some (any_ConfigSummary (ConfigSummary data)).
Proof.
  run_cases h e ctx s.
  all: intros ps id vars ans Hin; read_trace in_hyp Hin.
  all: try contradiction.
  all: destruct Hin as [Heq | []]; injection Heq as <- <- <- <-.
  all: exists data.
  all: split; [read_trace; reflexivity | ].
  all: split; [reflexivity | ].
  all: split; [unfold templateVars; rewrite !dom_insert_L, dom_empty_L;
               set_solver | ].
  all: split; [unfold templateVars;
               rewrite !map_size_insert_None, map_size_empty by done;
               reflexivity | ].
  all: repeat split.
Qed.

(** C9. Whenever Run returns a result, its ToolCalls field is nil.  The
    tool-call list that Analyze returned reaches the result through the two
    counts only: any other answer with the same content and the same two
    counts gives the same result.  The summary document is built from that
    result and has no tool-call entry, and every reporter is handed that
    result's status, content, metadata, error and prompt. *)
Theorem Run_result_without_tool_calls {S} (h : Env S) e ctx (s s' : S) r tr :
  interp h (Run e ctx) s = (Returned (Some r, None), s', tr) ->
  ToolCalls r = None
  /\ exists data userPrompt llmConfig reg res now yamlData,
       analyzes tr = [(llmClient e, ctx, userPrompt, llmConfig, reg, inr res)]
       /\ (forall res',
             llm_Content res' = llm_Content res ->
             len (llm_ToolCalls res') = len (llm_ToolCalls res) ->
             artifactsExamined (llm_ToolCalls res')
             = artifactsExamined (llm_ToolCalls res) ->
             buildResult data userPrompt res' = r)
       /\ marshals tr = [(summaryDoc now r data, inr yamlData)]
       /\ summaryDoc now r data !! "tool_calls" = None
       /\ (forall reg' ctx' rr rc ans,
             In (reg', ctx', rr, rc, ans) (sends tr) ->
             rr = toReporterResult r).
Proof.
  intros Hrun.
  destruct (Run_success_inv h e ctx s s' r tr Hrun)
    as (data & reg & userPrompt & cfg0 & res & now & yamlData & answers
        & -> & Hfst & ->).
  split; [reflexivity | ].
  exists data, userPrompt, (applyOverrides (config e) cfg0), reg, res, now,
    yamlData.
  split; [read_trace; reflexivity | ].
  split.
  { intros res' Hcontent Hlen Hcount.
    unfold buildResult, resultMetadata. now rewrite Hcontent, Hlen, Hcount. }
  split; [read_trace; reflexivity | ].
  split; [reflexivity | ].
  intros reg' ctx' rr rc ans Hin. read_trace in_hyp Hin.
  unfold sent in Hin. apply in_map_iff in Hin as (a & Heq & _).
  now injection Heq as _ _ <- _ _.
Qed.

(** C10. Whenever Run returns a result, its metadata has exactly the
    eight keys analysis_type, total_scenarios, successful_scenarios,
    failed_scenarios, generations, max_fitness_score, artifacts_examined
    and tool_calls.  The average fitness score is not among them: it is in
    the run_summary block of the summary document that this run
    marshalled, and that document carries the metadata unchanged. *)
Theorem Run_metadata_keys {S} (h : Env S) e ctx (s s' : S) r tr :
  interp h (Run e ctx) s = (Returned (Some r, None), s', tr) ->
  dom (Metadata r)
  = {[ "analysis_type"; "total_scenarios"; "successful_scenarios";
       "failed_scenarios"; "generations"; "max_fitness_score";
       "artifacts_examined"; "tool_calls" ]}
  /\ size (Metadata r) = 8%nat
  /\ Metadata r !! "avg_fitness_score" = None
  /\ exists data doc yamlData rs,
       collects tr = [(aggregator e, ctx, ResultsDir (config e), inr data)]
       /\ marshals tr = [(doc, inr yamlData)]
       /\ doc !! "run_summary" = Some (any_map rs)
       /\ rs !! "avg_fitness_score"
          = Some (any_float64 (AvgFitnessScore (Summary data)))
       /\ doc !! "avg_fitness_score" = None
       /\ doc !! "metadata" = Some (any_map (Metadata r)).
Proof.
  intros Hrun.
  destruct (Run_success_inv h e ctx s s' r tr Hrun)
    as (data & reg & userPrompt & cfg0 & res & now & yamlData & answers
        & -> & Hfst & ->).
  split.
  { cbn [Metadata buildResult]. unfold resultMetadata.
    rewrite !dom_insert_L, dom_empty_L. set_solver. }
  split.
  { cbn [Metadata buildResult]. unfold resultMetadata.
    rewrite !map_size_insert_None, map_size_empty by done. reflexivity. }
  split; [reflexivity | ].
  exists data, (summaryDoc now (buildResult data userPrompt res) data),
    yamlData, (runSummary data).
  split; [read_trace; reflexivity | ].
  split; [read_trace; reflexivity | ].
  repeat split.
Qed.

End Claims.

(** ** More about the engine *)

Tactic Notation "engine_answer" "as" simple_intropattern(pat) :=
  cbn [interp bind call];
  match goal with
  | h : Env _ |- _ =>
      match goal with
      | |- context [h ?X ?e ?s] => destruct (h X e s) as pat
      end
  end.

Section MoreClaims.
Context `{Externals}.

Lemma notifyTrace_registries e ctx rr answers :
  omap as_NewRegistry (notifyTrace e ctx rr answers) = [].
Proof.
  induction answers as [ | [rc [err | ]] rest IH]; cbn;
    first [reflexivity | exact IH].
Qed.

Lemma notifyTrace_callNames e ctx rr answers :
  Forall (fun name => name = "SendNotification" \/ name = "fmt.Fprintf")
    (map callName (notifyTrace e ctx rr answers)).
Proof.
  induction answers as [ | [rc [err | ]] rest IH]; cbn.
  - constructor.
  - constructor; [now left | ]. constructor; [now right | exact IH].
  - constructor; [now left | exact IH].
Qed.

(** Every run, split by the stage at which it ended. *)
Ltac run_stages h e ctx s :=
  let out := fresh "out" in
  let s' := fresh "s'" in
  let tr := fresh "tr" in
  let Hrun := fresh "Hrun" in
  let Htr := fresh "Htr" in
  destruct (Run_exec h e ctx s) as (out & s' & tr & Hrun & Htr);
  exists out, s', tr; split; [exact Hrun | ]; clear Hrun;
  inversion Htr as
    [ err
    | data reg err
    | data reg userPrompt cfg0 err
    | data reg userPrompt cfg0 res err trW HW
    | data reg userPrompt cfg0 res trW answers HW Hfst ];
  subst; clear Htr;
  try (inversion HW as [ werr | now werr | now yamlData werr | now yamlData ];
       subst; clear HW).

(** A run that ended after [n] calls without a result. *)
Ltac failed_at n :=
  exists n, []; split; [reflexivity | ];
  split; [lia | ]; split; [constructor | ]; split; [congruence | ];
  split;
  [ intros [r Hr]; discriminate Hr
  | intros [Hn Hp];
    first [discriminate Hn | read_trace in_hyp Hp; discriminate Hp] ].

(** X15. Whatever Run returns is exactly one of a result and an error,
    never both and never neither.  A returned error wraps the failure of a
    stage under one of four fixed prefixes, and then no reporter was called
    and nothing was written to stderr. *)
Theorem Run_result_or_error {S} (h : Env S) e ctx (s s' : S) out tr :
  interp h (Run e ctx) s = (Returned out, s', tr) ->
  (exists r, out = (Some r, None))
  \/ (exists prefix cause,
        out = (None, Some (fmt_Errorf_w prefix cause))
        /\ In prefix ["failed to collect krkn-ai results: ";
                      "failed to render prompt: ";
                      "LLM analysis failed: ";
                      "failed to write analysis summary: "]
        /\ sends tr = [] /\ stderr tr = []).
Proof.
  intros Hret.
  destruct (Run_exec h e ctx s) as (out0 & s0 & tr0 & Hrun & Htr).
  rewrite Hrun in Hret. injection Hret as <- <- <-.
  inversion Htr as
    [ err
    | data reg err
    | data reg userPrompt cfg0 err
    | data reg userPrompt cfg0 res err trW HW
    | data reg userPrompt cfg0 res trW answers HW Hfst ];
    subst; clear Htr.
  5: { left. eexists. reflexivity. }
  4: inversion HW as [ werr | now werr | now yamlData werr | ];
       subst; clear HW.
  all: right; do 2 eexists; split; [reflexivity | ].
  all: split; [cbn; tauto | ].
  all: split; read_trace; reflexivity.
Qed.

(** X16. When RenderPrompt fails, Run returns an error wrapping that
    failure and the model is never invoked; when Analyze fails, Run returns
    an error wrapping that failure.  In both cases nothing is created,
    marshalled or written under the results directory and no reporter is
    called. *)
Theorem Run_render_or_analyze_failure {S} (h : Env S) e ctx (s : S) :
  exists out s' tr,
    interp h (Run e ctx) s = (Returned out, s', tr)
    /\ (forall r err, In r (renders tr) -> snd r = inl err ->
        out = (None, Some (fmt_Errorf_w "failed to render prompt: " err))
        /\ analyzes tr = [] /\ mkdirs tr = [] /\ marshals tr = []
        /\ fileWrites tr = [] /\ sends tr = [])
    /\ (forall a err, In a (analyzes tr) -> snd a = inl err ->
        out = (None, Some (fmt_Errorf_w "LLM analysis failed: " err))
        /\ mkdirs tr = [] /\ marshals tr = []
        /\ fileWrites tr = [] /\ sends tr = []).
Proof.
  run_stages h e ctx s.
  all: split.
  all: intros x err0 Hin Hsnd; read_trace in_hyp Hin;
    repeat (destruct Hin as [<- | Hin]); try contradiction;
    try discriminate Hsnd.
  all: injection Hsnd as ->; repeat split.
Qed.

(** X17. When yaml.Marshal fails, Run returns an error that wraps it
    twice, with the text of both stages in front of the cause; the
    llm-analysis directory has already been created by then, but no file is
    written and no reporter is called. *)
Theorem Run_marshal_failure {S} (h : Env S) e ctx (s : S) :
  exists out s' tr,
    interp h (Run e ctx) s = (Returned out, s', tr)
    /\ forall m err, In m (marshals tr) -> snd m = inl err ->
       exists wrapped,
         out = (None, Some wrapped)
         /\ error_Error wrapped
            = "failed to write analysis summary: "
              ++ "failed to marshal summary to YAML: " ++ error_Error err
         /\ mkdirs tr
            = [(filepath_Join (ResultsDir (config e)) "llm-analysis", 493,
                None)]
         /\ fileWrites tr = [] /\ sends tr = [].
Proof.
  run_stages h e ctx s.
  all: intros m err0 Hin Hsnd; read_trace in_hyp Hin;
    repeat (destruct Hin as [<- | Hin]); try contradiction;
    try discriminate Hsnd.
  injection Hsnd as ->. eexists. repeat split.
Qed.

(** X18. Run calls its collaborators in one fixed order and never twice:
    the calls are a non-empty prefix of Collect, tools.NewRegistry,
    RenderPrompt, Analyze, os.MkdirAll, time.Now, yaml.Marshal,
    os.WriteFile, and only after all eight, in a run that returns a result,
    come the calls of the notification loop. *)
Theorem Run_call_order {S} (h : Env S) e ctx (s : S) :
  exists out s' tr,
    interp h (Run e ctx) s = (Returned out, s', tr)
    /\ exists n rest,
         map callName tr = (take n pipeline ++ rest)%list
         /\ (1 <= n <= 8)%nat
         /\ Forall (fun name => name = "SendNotification"
                                \/ name = "fmt.Fprintf") rest
         /\ (rest <> [] -> n = 8%nat)
         /\ ((exists r, out = (Some r, None)) <->
             (n = 8%nat /\ persisted tr = true)).
Proof.
  run_stages h e ctx s.
  - failed_at 1%nat.
  - failed_at 3%nat.
  - failed_at 4%nat.
  - failed_at 5%nat.
  - failed_at 7%nat.
  - failed_at 8%nat.
  - exists 8%nat,
      (map callName
         (notifyTrace e ctx
            (toReporterResult (buildResult data userPrompt res)) answers)).
    split.
    { rewrite !map_app. reflexivity. }
    split; [lia | ].
    split; [apply notifyTrace_callNames | ].
    split; [reflexivity | ].
    split.
    + intros _. split; [reflexivity | read_trace; reflexivity].
    + intros _. eexists. reflexivity.
Qed.

(** X19. Whenever the model is invoked, it is through the engine's client
    and context, with the prompt that RenderPrompt returned and with the
    tool registry that tools.NewRegistry built from exactly the log
    artifacts of the collected data; a result that Run returns echoes that
    prompt and carries the content of the model's answer. *)
Theorem Run_model_invocation {S} (h : Env S) e ctx (s : S) :
  exists out s' tr,
    interp h (Run e ctx) s = (Returned out, s', tr)
    /\ forall c ctx' userPrompt llmConfig reg ans,
         In (c, ctx', userPrompt, llmConfig, reg, ans) (analyzes tr) ->
         c = llmClient e /\ ctx' = ctx
         /\ exists data cfg0,
              collects tr
              = [(aggregator e, ctx, ResultsDir (config e), inr data)]
              /\ registries tr = [(LogArtifacts data, reg)]
              /\ renders tr
                 = [(promptStore e, "krknai", templateVars data,
                     inr (userPrompt, cfg0))]
              /\ forall r, out = (Some r, None) ->
                   Prompt r = userPrompt
                   /\ exists res, ans = inr res
                                  /\ Content r = llm_Content res.
Proof.
  run_stages h e ctx s.
  all: intros c ctx' p llmConfig reg' ans Hin; read_trace in_hyp Hin.
  all: try contradiction.
  all: destruct Hin as [Heq | []]; injection Heq as <- <- <- <- <- <-.
  all: split; [reflexivity | ]; split; [reflexivity | ].
  all: exists data, cfg0.
  all: split; [read_trace; reflexivity | ].
  all: split;
    [ unfold registries; rewrite ?omap_app, ?notifyTrace_registries;
      reflexivity | ].
  all: split; [read_trace; reflexivity | ].
  all: intros r Hr; try discriminate Hr.
  injection Hr as <-. split; [reflexivity | ].
  exists res. split; reflexivity.
Qed.

(** X20. For a configuration with a results directory and an API key, New
    goes one of four ways.  It creates the aggregator, sets its top-scenario
    count exactly when the configured count is positive, and then opens the
    embedded prompts, the prompt store and the Gemini client in that order;
    the first of these to fail ends New with a nil engine and an error
    wrapping the failure, and nothing after it is called.  Otherwise it
    creates the reporter registry, registers one Slack reporter in it, and
    returns an engine holding the configuration and what was created. *)
Theorem New_construction {S} (h : Env S) ctx c (s : S) :
  ResultsDir c <> "" -> APIKey c <> "" ->
  exists out s' tr agg,
    interp h (New ctx (Some c)) s = (Returned out, s', tr)
    /\ ((exists err,
           out = (None,
                  Some (fmt_Errorf_w "failed to access embedded prompts: "
                          err))
           /\ tr = (aggregatorCalls ctx c agg
                    ++ [Ev (fs_Sub krknaiTemplatesFS "prompts") (inl err)])
               %list)
        \/ (exists templatesFS err,
              out = (None,
                     Some (fmt_Errorf_w "failed to initialize prompt store: "
                             err))
              /\ tr = (aggregatorCalls ctx c agg
                       ++ [Ev (fs_Sub krknaiTemplatesFS "prompts")
                             (inr templatesFS);
                           Ev (NewPromptStore templatesFS) (inl err)])%list)
        \/ (exists templatesFS ps err,
              out = (None,
                     Some (fmt_Errorf_w "failed to initialize LLM client: "
                             err))
              /\ tr = (aggregatorCalls ctx c agg
                       ++ [Ev (fs_Sub krknaiTemplatesFS "prompts")
                             (inr templatesFS);
                           Ev (NewPromptStore templatesFS) (inr ps);
                           Ev (NewGeminiClient ctx (APIKey c)) (inl err)])
                  %list)
        \/ (exists templatesFS ps client reg slack,
              out = (Some {| config := c; aggregator := agg;
                             promptStore := ps; llmClient := client;
                             reporterRegistry := reg |}, None)
              /\ tr = (aggregatorCalls ctx c agg
                       ++ [Ev (fs_Sub krknaiTemplatesFS "prompts")
                             (inr templatesFS);
                           Ev (NewPromptStore templatesFS) (inr ps);
                           Ev (NewGeminiClient ctx (APIKey c)) (inr client);
                           Ev NewReporterRegistry reg;
                           Ev NewSlackReporter slack;
                           Ev (Register reg slack) tt])%list)).
Proof.
  intros Hdir Hkey. unfold New, aggregatorCalls.
  apply String.eqb_neq in Hdir, Hkey. rewrite Hdir, Hkey.
  engine_answer as [agg s1].
  assert (Hcount :
    exists s2,
      interp h (if (0 <? TopScenariosCount c)%Z
                then call (WithTopScenariosCount agg (TopScenariosCount c))
                else Ret tt) s1
      = (Returned tt, s2,
         if (0 <? TopScenariosCount c)%Z
         then [Ev (WithTopScenariosCount agg (TopScenariosCount c)) tt]
         else [])).
  { destruct (0 <? TopScenariosCount c)%Z.
    - engine_answer as [[] s2]. now exists s2.
    - now exists s1. }
  destruct Hcount as (s2 & Hcount).
  rewrite interp_bind, Hcount.
  engine_answer as [[err | templatesFS] s3].
  { exists (None, Some (fmt_Errorf_w "failed to access embedded prompts: "
                          err)), s3.
    eexists. exists agg. split; [reflexivity | ].
    left. exists err. split; reflexivity. }
  engine_answer as [[err | ps] s4].
  { eexists. exists s4. eexists. exists agg. split; [reflexivity | ].
    right. left. exists templatesFS, err. split; reflexivity. }
  engine_answer as [[err | client] s5].
  { eexists. exists s5. eexists. exists agg. split; [reflexivity | ].
    right. right. left. exists templatesFS, ps, err. split; reflexivity. }
  engine_answer as [reg s6]. engine_answer as [slack s7].
  engine_answer as [[] s8].
  eexists. exists s8. eexists. exists agg. split; [reflexivity | ].
  right. right. right. exists templatesFS, ps, client, reg, slack.
  split; reflexivity.
Qed.

End MoreClaims.

(** ** The engine on concrete inputs *)

#[local] Existing Instance Demo.externals.

(** Settle a closed equation by evaluating both sides. *)
Ltac by_vm :=
  lazymatch goal with
  | |- ?lhs = ?rhs => vm_cast_no_check (@eq_refl _ rhs)
  end.

(** The run in which everything but the pager reporter succeeds: eleven
    calls, a completed result, the summary written under the results
    directory, both reporters sent to and one warning on stderr. *)
Lemma happy_run :
  interp (Demo.env Demo.happy) (Run Demo.engine tt) 0%nat
  = (Returned (Some Demo.result, None), 11%nat, Demo.happyTrace).
Proof. by_vm. Defined.

Example happy_run_effects :
  fileWrites Demo.happyTrace
  = [("/results/llm-analysis/summary.yaml", Demo.yamlBytes, 420, None)]
  /\ mkdirs Demo.happyTrace = [("/results/llm-analysis", 493, None)]
  /\ map (fun x => reporter_Type (snd (fst x))) (sends Demo.happyTrace)
     = ["slack"; "pager"]
  /\ stderr Demo.happyTrace
     = ["Warning: Failed to send notification via pager: "
        ++ "webhook returned 500" ++ LF].
Proof. repeat split; by_vm. Qed.

(** The caller overrides the temperature only: the model is invoked with
    the caller's temperature and the template's other parameters. *)
Example happy_run_parameters :
  map (fun a => snd (fst (fst a))) (analyzes Demo.happyTrace)
  = [ {| Temperature := Some (7, -1); MaxTokens := Some 4096;
         TopP := Some (9, -1); llm_Other := "system instruction" |} ].
Proof. by_vm. Qed.

(** New on a complete configuration: eight calls, and an engine that holds
    the configuration it was given. *)
Example New_builds_engine :
  let '(out, calls, tr) :=
    interp (Demo.env Demo.happy) (New tt (Some Demo.cfg)) 0%nat in
  out = Returned (Some Demo.engine, None)
  /\ calls = 8%nat /\ length tr = 8%nat.
Proof. vm_compute. repeat split. Qed.

Example read_only_run :
  fst (interp (Demo.env Demo.readOnly) (Run Demo.engine tt) 0%nat)
  = (Returned
       (None,
        Some (fmt_Errorf_w "failed to write analysis summary: "
                (fmt_Errorf_w "failed to create analysis directory: "
                   (errors_New "permission denied")))),
     5%nat).
Proof. by_vm. Qed.

Lemma Run_aggregation_failure_witness :
  Demo.env Demo.noResults _ (Collect tt tt "/results") 0%nat
  = (inl (errors_New "no results found"), 1%nat)
  /\ exists wrapped,
      interp (Demo.env Demo.noResults) (Run Demo.engine tt) 0%nat
      = (Returned (None, Some wrapped), 1%nat,
         [evCollect Demo.engine tt (inl (errors_New "no results found"))])
      /\ errors_Unwrap wrapped = Some (errors_New "no results found")
      /\ error_Error wrapped
         = "failed to collect krkn-ai results: no results found".
Proof.
  split; [reflexivity | ].
  destruct (Run_aggregation_failure (Demo.env Demo.noResults) Demo.engine tt
              0%nat 1%nat (errors_New "no results found") eq_refl)
    as (wrapped & tr & Hrun & Hunwrap & Herror & Htr & _).
  exists wrapped. rewrite Htr in Hrun. auto.
Defined.

Lemma Run_metadata_matches_summary_witness :
  interp (Demo.env Demo.happy) (Run Demo.engine tt) 0%nat
  = (Returned (Some Demo.result, None), 11%nat, Demo.happyTrace)
  /\ Status Demo.result = "completed"
  /\ Metadata Demo.result !! "total_scenarios" = Some (any_int 50)
  /\ Metadata Demo.result !! "failed_scenarios" = Some (any_int 5).
Proof.
  split; [exact happy_run | ].
  destruct (Run_metadata_matches_summary _ _ _ _ _ _ _ happy_run)
    as (Hstatus & data & Hcollect & Htotal & _ & Hfailed & _).
  assert (Hdata : data = Demo.data).
  { assert (Hc : collects Demo.happyTrace
                 = [(tt, tt, "/results", inr Demo.data)]) by by_vm.
    rewrite Hc in Hcollect. now injection Hcollect. }
  rewrite Hdata in Htotal, Hfailed. auto.
Defined.

Lemma Run_tool_call_counts_witness :
  interp (Demo.env Demo.happy) (Run Demo.engine tt) 0%nat
  = (Returned (Some Demo.result, None), 11%nat, Demo.happyTrace)
  /\ Metadata Demo.result !! "artifacts_examined" = Some (any_int 2)
  /\ Metadata Demo.result !! "tool_calls" = Some (any_int 3).
Proof.
  split; [exact happy_run | ].
  destruct (Run_tool_call_counts _ _ _ _ _ _ _ happy_run)
    as (userPrompt & llmConfig & reg & res & Hanalyze & _ & _ & Hnames).
  assert (Hres : res = Demo.analysis).
  { assert (Ha : map snd (analyzes Demo.happyTrace) = [inr Demo.analysis])
      by by_vm.
    rewrite Hanalyze in Ha. now injection Ha. }
  apply Hnames. rewrite Hres. reflexivity.
Defined.

(** C6 as stated fails for the nil configuration: New reads
    config.ResultsDir before any test, so it panics and returns nothing. *)
Lemma New_nil_config_panics :
  interp (Demo.env Demo.happy) (New tt None) 0%nat
  = (Panicked nil_dereference, 0%nat, [])
  /\ ~ (exists err s' tr,
          interp (Demo.env Demo.happy) (New tt None) 0%nat
          = (Returned (None, Some err), s', tr)).
Proof.
  split; [reflexivity | ].
  intros (err & s' & tr & Hrun). discriminate Hrun.
Qed.

Lemma New_rejects_missing_inputs_witness :
  (ResultsDir Demo.missingDir = "" \/ APIKey Demo.missingDir = "")
  /\ interp (Demo.env Demo.happy) (New tt (Some Demo.missingDir)) 0%nat
     = (Returned (None, Some (errors_New "results directory is required")),
        0%nat, []).
Proof.
  split; [left; reflexivity | ].
  destruct (New_rejects_missing_inputs (Demo.env Demo.happy) tt
              Demo.missingDir 0%nat (or_introl eq_refl))
    as (err & Hrun & Hdir & _).
  rewrite (Hdir eq_refl) in Hrun. exact Hrun.
Defined.

(** C8 as stated fails on the count: the variables handed to RenderPrompt
    have six entries, not seven. *)
Lemma template_variables_are_not_seven :
  renders Demo.happyTrace
  = [(tt, "krknai", templateVars Demo.data,
      inr ("analyse this run", Demo.templateDefaults))]
  /\ size (templateVars Demo.data) = 6%nat
  /\ ~ (forall ps id vars ans,
          In (ps, id, vars, ans) (renders Demo.happyTrace) ->
          size vars = 7%nat).
Proof.
  assert (Hrenders : renders Demo.happyTrace
                     = [(tt, "krknai", templateVars Demo.data,
                         inr ("analyse this run", Demo.templateDefaults))])
    by by_vm.
  assert (Hsize : size (templateVars Demo.data) = 6%nat) by by_vm.
  split; [exact Hrenders | ].
  split; [exact Hsize | ].
  intros Hseven.
  specialize (Hseven tt "krknai" (templateVars Demo.data)
                (inr ("analyse this run", Demo.templateDefaults))).
  rewrite Hrenders in Hseven. specialize (Hseven (or_introl eq_refl)).
  rewrite Hsize in Hseven. discriminate Hseven.
Qed.

Lemma Run_result_without_tool_calls_witness :
  interp (Demo.env Demo.happy) (Run Demo.engine tt) 0%nat
  = (Returned (Some Demo.result, None), 11%nat, Demo.happyTrace)
  /\ llm_ToolCalls Demo.analysis <> None
  /\ ToolCalls Demo.result = None.
Proof.
  split; [exact happy_run | ]. split; [discriminate | ].
  exact (proj1 (Run_result_without_tool_calls _ _ _ _ _ _ _ happy_run)).
Defined.

Lemma Run_metadata_keys_witness :
  interp (Demo.env Demo.happy) (Run Demo.engine tt) 0%nat
  = (Returned (Some Demo.result, None), 11%nat, Demo.happyTrace)
  /\ size (Metadata Demo.result) = 8%nat
  /\ Metadata Demo.result !! "avg_fitness_score" = None.
Proof.
  split; [exact happy_run | ].
  destruct (Run_metadata_keys _ _ _ _ _ _ _ happy_run)
    as (_ & Hsize & Havg & _).
  auto.
Defined.

(** * Facts about the rest of the repository *)

Module GoFacts.
Section Facts.
Context {E : Type -> Type}.

Lemma go_interp_bind {S A B} (h : Go.Env E S) (m : Go.Prog E A)
  (f : A -> Go.Prog E B) (s : S) :
  Go.interp h (Go.bind m f) s =
  match Go.interp h m s with
  | (Returned a, s1, t1) =>
      let '(o, s2, t2) := Go.interp h (f a) s1 in (o, s2, (t1 ++ t2)%list)
  | (Panicked msg, s1, t1) => (Panicked msg, s1, t1)
  end.
Proof.
  revert s. induction m as [a | msg | X e k IH]; intros s.
  - cbn. destruct (Go.interp h (f a) s) as [[o s2] t2]. reflexivity.
  - reflexivity.
  - cbn [Go.interp Go.bind]. destruct (h X e s) as [x s0]. rewrite IH.
    destruct (Go.interp h (k x) s0) as [[[a | msg] s1] t1].
    + destruct (Go.interp h (f a) s1) as [[o s2] t2]. reflexivity.
    + reflexivity.
Qed.

End Facts.
End GoFacts.

(** Take the environment's answer to the next call of a [Go.Prog]. *)
Tactic Notation "go_answer" "as" simple_intropattern(pat) :=
  cbn [Go.interp Go.bind Go.call fst snd];
  match goal with
  | h : Go.Env _ _ |- _ =>
      match goal with
      | |- context [h ?X ?e ?s] => destruct (h X e s) as pat
      end
  end.

(** ** Package executor *)

Module ExecutorFacts.
Import executor.

Section Facts.
Context `{Library}.

Lemma quiet_ret {S A} (h : Go.Env Effect S) (a : A) :
  quiet h (Go.Ret a) a [].
Proof. intros s. exists s, []. repeat split. Qed.

Lemma quiet_info {S} (h : Go.Env Effect S) msg kv :
  quiet h (Info msg kv) tt [].
Proof.
  intros s. unfold Info. go_answer as [[] s1].
  do 2 eexists. repeat split.
Qed.

Lemma quiet_error {S} (h : Go.Env Effect S) err msg kv :
  quiet h (Error err msg kv) tt [err].
Proof.
  intros s. unfold Error. go_answer as [[] s1].
  do 2 eexists. repeat split.
Qed.

Lemma loggedErrors_app (t1 t2 : list (Go.Event Effect)) :
  loggedErrors (t1 ++ t2) = (loggedErrors t1 ++ loggedErrors t2)%list.
Proof. unfold loggedErrors, errorLogs. now rewrite omap_app, map_app. Qed.

Lemma quiet_bind {S A B} (h : Go.Env Effect S) (m : Prog A)
  (f : A -> Prog B) a b e1 e2 :
  quiet h m a e1 -> quiet h (f a) b e2 ->
  quiet h (Go.bind m f) b (e1 ++ e2)%list.
Proof.
  intros Hm Hf s.
  destruct (Hm s) as (s1 & t1 & Hrun1 & Hlog1 & Herr1).
  destruct (Hf s1) as (s2 & t2 & Hrun2 & Hlog2 & Herr2).
  exists s2, (t1 ++ t2)%list.
  rewrite GoFacts.go_interp_bind, Hrun1, Hrun2.
  split; [reflexivity | ]. split.
  - rewrite forallb_app, Hlog1, Hlog2. reflexivity.
  - rewrite loggedErrors_app. congruence.
Qed.

Lemma quiet_eq {S A} (h : Go.Env Effect S) (p : Prog A) a a' e e' :
  quiet h p a e -> a = a' -> e = e' -> quiet h p a' e'.
Proof. now intros Hq <- <-. Qed.

(** A logged step followed by a return. *)
Ltac logged :=
  first
    [ apply quiet_ret
    | eapply quiet_eq;
      [ eapply quiet_bind; [first [apply quiet_info | apply quiet_error] | ];
        cbn beta; apply quiet_ret
      | try reflexivity | try reflexivity ] ].

Lemma updateScenarioToggle_quiet {S} (h : Go.Env Effect S) name value t :
  quiet h (updateScenarioToggle name value t) (overrideToggle value t)
    (rejected strconv_ParseBool value).
Proof.
  unfold updateScenarioToggle, overrideToggle, override, rejected.
  destruct t as [b]. cbn [Enable].
  destruct (String.eqb value ""); [logged | ].
  destruct (strconv_ParseBool value) as [err | enable]; logged.
Qed.

Lemma updateGenerations_quiet {S} (h : Go.Env Effect S) cfg c :
  quiet h (updateGenerations cfg c)
    (set_Generations
       (override strconv_Atoi (cfg_Generations cfg) (Generations c)) c)
    (rejected strconv_Atoi (cfg_Generations cfg)).
Proof.
  unfold updateGenerations, override, rejected. destruct c.
  destruct (String.eqb (cfg_Generations cfg) ""); [logged | ].
  destruct (strconv_Atoi (cfg_Generations cfg)); logged.
Qed.

Lemma updatePopulationSize_quiet {S} (h : Go.Env Effect S) cfg c :
  quiet h (updatePopulationSize cfg c)
    (set_PopulationSize
       (override strconv_Atoi (cfg_PopulationSize cfg) (PopulationSize c)) c)
    (rejected strconv_Atoi (cfg_PopulationSize cfg)).
Proof.
  unfold updatePopulationSize, override, rejected. destruct c.
  destruct (String.eqb (cfg_PopulationSize cfg) ""); [logged | ].
  destruct (strconv_Atoi (cfg_PopulationSize cfg)); logged.
Qed.

Lemma updateWaitDuration_quiet {S} (h : Go.Env Effect S) cfg c :
  quiet h (updateWaitDuration cfg c)
    (set_WaitDuration
       (override strconv_Atoi (cfg_WaitDuration cfg) (WaitDuration c)) c)
    (rejected strconv_Atoi (cfg_WaitDuration cfg)).
Proof.
  unfold updateWaitDuration, override, rejected. destruct c.
  destruct (String.eqb (cfg_WaitDuration cfg) ""); [logged | ].
  destruct (strconv_Atoi (cfg_WaitDuration cfg)); logged.
Qed.

Lemma updateCompositionRate_quiet {S} (h : Go.Env Effect S) cfg c :
  quiet h (updateCompositionRate cfg c)
    (set_CompositionRate
       (override strconv_ParseFloat64 (cfg_CompositionRate cfg)
          (CompositionRate c)) c)
    (rejected strconv_ParseFloat64 (cfg_CompositionRate cfg)).
Proof.
  unfold updateCompositionRate, override, rejected. destruct c.
  destruct (String.eqb (cfg_CompositionRate cfg) ""); [logged | ].
  destruct (strconv_ParseFloat64 (cfg_CompositionRate cfg)); logged.
Qed.

Lemma updateToggles_quiet {S} (h : Go.Env Effect S) cfg sc :
  quiet h (updateToggles cfg sc) (mergedScenario cfg sc)
    (rejected strconv_ParseBool (EnablePodScenarios cfg)
     ++ rejected strconv_ParseBool (EnableContainerScenarios cfg)
     ++ rejected strconv_ParseBool (EnableNodeCPUHog cfg)
     ++ rejected strconv_ParseBool (EnableNodeMemoryHog cfg)
     ++ rejected strconv_ParseBool (EnableNodeIOHog cfg)
     ++ rejected strconv_ParseBool (EnableNetworkScenarios cfg)
     ++ rejected strconv_ParseBool (EnableDNSOutage cfg)
     ++ rejected strconv_ParseBool (EnableTimeScenarios cfg))%list.
Proof.
  unfold updateToggles.
  eapply quiet_eq.
  - repeat (eapply quiet_bind; [apply updateScenarioToggle_quiet | cbn zeta]).
    apply quiet_ret.
  - reflexivity.
  - now rewrite app_nil_r.
Qed.

Lemma updateFitnessQuery_quiet {S} (h : Go.Env Effect S) cfg c :
  quiet h (updateFitnessQuery cfg c)
    (set_FitnessFunction
       (set_Query
          (if String.eqb (FitnessFunctionQuery cfg) ""
           then Query (FitnessFunction_ c) else FitnessFunctionQuery cfg)
          (FitnessFunction_ c)) c) [].
Proof.
  unfold updateFitnessQuery. destruct c as [? ? ? ? ? ? ? ? ? ? ? [] ? ? ?].
  destruct (String.eqb (FitnessFunctionQuery cfg) ""); logged.
Qed.

Lemma updateHealthChecksURL_quiet {S} (h : Go.Env Effect S) cfg c :
  quiet h (updateHealthChecksURL cfg c)
    (set_HealthChecks
       (set_Applications
          (mergedApplications (HealthChecksURL cfg)
             (Applications (HealthChecks_ c)))
          (HealthChecks_ c)) c) [].
Proof.
  unfold updateHealthChecksURL, mergedApplications.
  destruct c as [? ? ? ? ? ? ? ? ? ? ? ? [stop apps] ? ?].
  cbn [HealthChecks_ Applications].
  destruct (String.eqb (HealthChecksURL cfg) ""); [logged | ].
  destruct (elems apps) as [ | first rest].
  - eapply quiet_eq.
    + eapply quiet_bind; [apply quiet_info | cbn beta].
      eapply quiet_bind; [apply quiet_info | cbn beta]. apply quiet_ret.
    + reflexivity.
    + reflexivity.
  - eapply quiet_eq.
    + eapply quiet_bind; [apply quiet_info | cbn beta].
      eapply quiet_bind; [apply quiet_info | cbn beta]. apply quiet_ret.
    + reflexivity.
    + reflexivity.
Qed.

Lemma updateHost_quiet {S} (h : Go.Env Effect S) cfg c :
  quiet h (updateHost cfg c)
    (set_Parameters (mergedParameters (Host cfg) (Parameters c)) c) [].
Proof.
  unfold updateHost, mergedParameters. destruct c.
  destruct (String.eqb (Host cfg) ""); logged.
Qed.

(** The merge computes [merged] and logs [rejections]. *)
Lemma applyJenkinsParams_quiet {S} (h : Go.Env Effect S) cfg c :
  quiet h (applyJenkinsParams cfg c) (merged cfg c) (rejections cfg).
Proof.
  unfold applyJenkinsParams.
  eapply quiet_eq.
  - eapply quiet_bind; [apply updateGenerations_quiet | cbn beta].
    eapply quiet_bind; [apply updatePopulationSize_quiet | cbn beta].
    eapply quiet_bind; [apply updateWaitDuration_quiet | cbn beta].
    eapply quiet_bind; [apply updateCompositionRate_quiet | cbn beta].
    eapply quiet_bind; [apply updateToggles_quiet | cbn beta zeta].
    eapply quiet_bind; [apply updateFitnessQuery_quiet | cbn beta].
    eapply quiet_bind; [apply updateHealthChecksURL_quiet | cbn beta].
    apply updateHost_quiet.
  - reflexivity.
  - unfold rejections. cbn [app].
    rewrite ?app_nil_r, <- ?app_assoc, ?app_nil_r. reflexivity.
Qed.

Lemma quiet_projections (tr : list (Go.Event Effect)) :
  forallb isLog tr = true ->
  omap as_Read tr = [] /\ omap as_Unmarshal tr = []
  /\ omap as_Marshal tr = [] /\ omap as_Write tr = [].
Proof.
  induction tr as [ | [X e x] tr IH]; [now repeat split | ].
  cbn [forallb]. intros Hlog.
  apply andb_true_iff in Hlog as [Hev Hrest].
  destruct (IH Hrest) as (Hr & Hu & Hm & Hw).
  destruct e; try discriminate Hev; cbn; now repeat split.
Qed.

(** Every run for a non-nil configuration returns, in one of the ways of
    [UpdateRun]. *)
Lemma Update_exec {S} (h : Go.Env Effect S) cfg path (s : S) :
  exists out s' tr,
    Go.interp h (UpdateKrknAIYAMLWithJenkinsParams (withConfig cfg) path) s
    = (Returned out, s', tr)
    /\ UpdateRun cfg path out tr.
Proof.
  unfold UpdateKrknAIYAMLWithJenkinsParams, withConfig.
  cbn [cfg_KrknAIConfig]. unfold Info at 1.
  go_answer as [start s1].
  go_answer as [[err | yamlData] s2].
  { do 3 eexists. split; [reflexivity | apply update_read_failed]. }
  go_answer as [[err | c] s3].
  { do 3 eexists. split; [reflexivity | apply update_unmarshal_failed]. }
  rewrite GoFacts.go_interp_bind.
  destruct (applyJenkinsParams_quiet h cfg c s3)
    as (s4 & trM & HrunM & Hlog & Herr).
  rewrite HrunM.
  assert (HM : mergeLog cfg trM) by (split; assumption).
  go_answer as [[err | updatedYAML] s5].
  { do 3 eexists. split; [reflexivity | ].
    apply (update_marshal_failed cfg path start yamlData c trM err HM). }
  go_answer as [[err | ] s6].
  { do 3 eexists. split; [reflexivity | ].
    apply (update_write_failed cfg path start yamlData c trM updatedYAML err
             HM). }
  go_answer as [[err | ] s7].
  - unfold Error, Info. go_answer as [a s8]. go_answer as [b s9].
    do 3 eexists. split; [reflexivity | ].
    apply (update_done_backup_failed cfg path start yamlData c trM updatedYAML
             err a b HM).
  - unfold Info. go_answer as [a s8]. go_answer as [b s9].
    do 3 eexists. split; [reflexivity | ].
    apply (update_done cfg path start yamlData c trM updatedYAML a b HM).
Qed.

End Facts.

(** Every run for a non-nil configuration, split by the way it ended. *)
Ltac update_cases h cfg path s :=
  let out := fresh "out" in
  let s' := fresh "s'" in
  let tr := fresh "tr" in
  let Hrun := fresh "Hrun" in
  let Htr := fresh "Htr" in
  destruct (Update_exec h cfg path s) as (out & s' & tr & Hrun & Htr);
  exists out, s', tr; split; [exact Hrun | ]; clear Hrun;
  inversion Htr as
    [ start err
    | start yamlData err
    | start yamlData c trM err [Hlog Herrs]
    | start yamlData c trM updatedYAML err [Hlog Herrs]
    | start yamlData c trM updatedYAML err a b [Hlog Herrs]
    | start yamlData c trM updatedYAML a b [Hlog Herrs] ];
  subst; clear Htr;
  try (destruct (quiet_projections trM Hlog) as (HqR & HqU & HqM & HqW)).

Ltac update_read :=
  unfold reads, unmarshals, marshals, writes, loggedErrors, errorLogs;
  rewrite ?omap_app;
  repeat match goal with
         | Hq : omap _ ?t = [] |- _ => rewrite Hq
         end;
  cbn.

Tactic Notation "update_read" "in_hyp" hyp(Hp) :=
  unfold reads, unmarshals, marshals, writes, loggedErrors, errorLogs in Hp;
  rewrite ?omap_app in Hp;
  repeat match goal with
         | Hq : omap _ ?t = [] |- _ => rewrite Hq in Hp
         end;
  cbn in Hp.

Section UpdateFacts.
Context `{Library}.

Lemma bestEffort_override {A} (parse : string -> error + A) value old :
  bestEffort parse value old (override parse value old).
Proof.
  unfold bestEffort, override.
  destruct (String.eqb_spec value "") as [Hempty | Hpresent].
  - split; [intros _; reflexivity | ].
    split; [intros v Hne; contradiction | intros err _; reflexivity].
  - split; [intros Hempty; contradiction | ].
    split.
    + intros v _ Hparse. now rewrite Hparse.
    + intros err Hparse. now rewrite Hparse.
Qed.

(** What is marshalled is the merge of what was unmarshalled. *)
Lemma Update_marshals_merged {S} (h : Go.Env Effect S) cfg path (s : S)
  (P : KrknAIYAML -> KrknAIYAML -> Prop) :
  (forall c0, P c0 (merged cfg c0)) ->
  everyMarshalled h cfg path s P.
Proof.
  intros HP. unfold everyMarshalled.
  update_cases h cfg path s.
  all: intros c' ans Hin; update_read in_hyp Hin.
  all: try contradiction.
  all: destruct Hin as [Heq | []]; injection Heq as <- <-.
  all: exists yamlData, c; split; [update_read; reflexivity | apply HP].
Qed.

(** X1. UpdateKrknAIYAMLWithJenkinsParams returns an error only for a nil
    configuration, in which case it has made no call at all, or when
    reading the file, unmarshalling it, marshalling the merged document or
    overwriting the file fails; the error then wraps that failure, no write
    succeeded and the backup copy was not attempted.  A malformed override
    never makes it fail. *)
Theorem Update_fails_only_on_io {S} (h : Go.Env Effect S) e path (s : S) :
  exists out s' tr,
    Go.interp h (UpdateKrknAIYAMLWithJenkinsParams e path) s
    = (Returned out, s', tr)
    /\ forall err, out = Some err ->
       (cfg_KrknAIConfig e = None /\ tr = []
        /\ err = errors_New "KrknAIConfig is nil")
       \/ (exists cause,
             errors_Unwrap err = Some cause
             /\ (reads tr = [(path, inl cause)]
                 \/ (exists data, unmarshals tr = [(data, inl cause)])
                 \/ (exists c, marshals tr = [(c, inl cause)])
                 \/ (exists data,
                       writes tr = [(path, data, 420, Some cause)]))
             /\ (forall w, In w (writes tr) ->
                 exists data, w = (path, data, 420, Some cause))).
Proof.
  destruct e as [[cfg | ]].
  - fold (withConfig cfg). update_cases h cfg path s.
    all: intros err0 Hout; try discriminate Hout.
    all: injection Hout as <-; right; exists err.
    all: split; [reflexivity | ].
    all: split;
      [ | intros w Hin; update_read in_hyp Hin;
          repeat (destruct Hin as [<- | Hin]); try contradiction;
          eexists; reflexivity ].
    + left. reflexivity.
    + right. left. exists yamlData. reflexivity.
    + right. right. left. exists (merged cfg c). update_read. reflexivity.
    + right. right. right. exists updatedYAML. update_read. reflexivity.
  - exists (Some (errors_New "KrknAIConfig is nil")), s, [].
    split; [reflexivity | ].
    intros err Hout. injection Hout as <-. left. repeat split.
Qed.

(** X2. It returns nil exactly when overwriting the discovered file
    succeeded.  It has then read the file once, unmarshalled what it read,
    marshalled the merged document once and written those same bytes first
    to the discovered path and then to krkn-ai-updated.yaml beside it, both
    with mode 0644; whether the second write failed does not matter. *)
Theorem Update_writes_file_and_backup {S} (h : Go.Env Effect S) cfg path
  (s : S) :
  exists out s' tr,
    Go.interp h (UpdateKrknAIYAMLWithJenkinsParams (withConfig cfg) path) s
    = (Returned out, s', tr)
    /\ (out = None <->
        exists data rest, writes tr = (path, data, 420, None) :: rest)
    /\ (out = None ->
        exists yamlData c0 updatedYAML backupAns,
          reads tr = [(path, inr yamlData)]
          /\ unmarshals tr = [(yamlData, inr c0)]
          /\ marshals tr = [(merged cfg c0, inr updatedYAML)]
          /\ writes tr
             = [(path, updatedYAML, 420, None);
                (filepath_Join (filepath_Dir path) "krkn-ai-updated.yaml",
                 updatedYAML, 420, backupAns)]).
Proof.
  update_cases h cfg path s.
  all: split; [split | ].
  all: try (intros Hout; discriminate Hout).
  all: try (intros (data & rest & Hw); update_read in_hyp Hw;
            discriminate Hw).
  all: try (intros _; do 2 eexists; update_read; reflexivity).
  all: try reflexivity.
  all: intros _; exists yamlData, c, updatedYAML.
  - exists (Some err). repeat split; update_read; reflexivity.
  - exists None. repeat split; update_read; reflexivity.
Qed.

(** X3. Once the file is unmarshalled, the errors on the log are the parse
    errors of the overrides that are present and do not parse, one each
    and in source order, followed by the error of the backup write exactly
    when that write was made and failed; the writes after the first all go
    to the backup path.  Before that point nothing is logged as an
    error. *)
Theorem Update_logs_rejected_overrides {S} (h : Go.Env Effect S) cfg path
  (s : S) :
  exists out s' tr,
    Go.interp h (UpdateKrknAIYAMLWithJenkinsParams (withConfig cfg) path) s
    = (Returned out, s', tr)
    /\ (forall u, In u (unmarshals tr) -> (exists err, snd u = inl err) ->
        loggedErrors tr = [])
    /\ (unmarshals tr = [] -> loggedErrors tr = [])
    /\ (forall u c0, In u (unmarshals tr) -> snd u = inr c0 ->
        loggedErrors tr
        = (rejections cfg ++ omap snd (drop 1 (writes tr)))%list
        /\ (forall w, In w (drop 1 (writes tr)) ->
            fst (fst (fst w)) = backupPath path)
        /\ (forall err,
              In err (omap snd (drop 1 (writes tr))) <->
              exists first data,
                writes tr = [first; (backupPath path, data, 420, Some err)])).
Proof.
  update_cases h cfg path s.
  all: repeat match goal with |- _ /\ _ => split end.
  all: try (intros u Hin; update_read in_hyp Hin;
            repeat (destruct Hin as [<- | Hin]); try contradiction;
            intros [err0 Herr0]; first [discriminate Herr0 | reflexivity]).
  all: try (intros Hu; update_read in_hyp Hu;
            first [discriminate Hu | reflexivity]).
  all: intros u c0 Hin Hsnd; update_read in_hyp Hin;
    repeat (destruct Hin as [<- | Hin]); try contradiction;
    try discriminate Hsnd.
  all: assert (Hlogged : forall t1 t2 : list (Go.Event Effect),
                 loggedErrors (t1 ++ t2)
                 = (loggedErrors t1 ++ loggedErrors t2)%list)
    by (intros t1 t2; unfold loggedErrors, errorLogs;
        now rewrite omap_app, map_app).
  all: rewrite !Hlogged, Herrs.
  all: unfold writes; rewrite !omap_app, HqW; cbn.
  all: split; [rewrite ?app_nil_r; reflexivity | ].
  all: split;
    [ intros w Hw; repeat (destruct Hw as [<- | Hw]); try contradiction;
      reflexivity | ].
  all: intros err0; split;
    [ intros Hin; repeat (destruct Hin as [<- | Hin]); try contradiction;
      do 2 eexists; reflexivity
    | intros (first & data & Heq); try discriminate Heq ].
  inversion Heq. left. reflexivity.
Qed.

(** X4. Each of the overrides generations, population_size, wait_duration
    (integers) and composition_rate (a float) is applied on its own: the
    field is replaced when the value parses and left as it was when the
    value is empty or does not parse, whatever the other overrides are. *)
Theorem Update_numeric_overrides {S} (h : Go.Env Effect S) cfg path (s : S) :
  everyMarshalled h cfg path s (fun c0 c' =>
    bestEffort strconv_Atoi (cfg_Generations cfg)
      (Generations c0) (Generations c')
    /\ bestEffort strconv_Atoi (cfg_PopulationSize cfg)
         (PopulationSize c0) (PopulationSize c')
    /\ bestEffort strconv_Atoi (cfg_WaitDuration cfg)
         (WaitDuration c0) (WaitDuration c')
    /\ bestEffort strconv_ParseFloat64 (cfg_CompositionRate cfg)
         (CompositionRate c0) (CompositionRate c')).
Proof.
  apply Update_marshals_merged. intros c0. cbn.
  repeat split; apply bestEffort_override.
Qed.

(** X5. The eight scenario toggles that have an override follow the same
    best-effort policy, each on its own flag; the two toggles without an
    override, application_outages and syn_flood, are never changed. *)
Theorem Update_scenario_toggles {S} (h : Go.Env Effect S) cfg path (s : S) :
  everyMarshalled h cfg path s (fun c0 c' =>
    let old := Scenario_ c0 in
    let new := Scenario_ c' in
    bestEffort strconv_ParseBool (EnablePodScenarios cfg)
      (Enable (PodScenarios old)) (Enable (PodScenarios new))
    /\ bestEffort strconv_ParseBool (EnableContainerScenarios cfg)
         (Enable (ContainerScenarios old)) (Enable (ContainerScenarios new))
    /\ bestEffort strconv_ParseBool (EnableNodeCPUHog cfg)
         (Enable (NodeCPUHog old)) (Enable (NodeCPUHog new))
    /\ bestEffort strconv_ParseBool (EnableNodeMemoryHog cfg)
         (Enable (NodeMemoryHog old)) (Enable (NodeMemoryHog new))
    /\ bestEffort strconv_ParseBool (EnableNodeIOHog cfg)
         (Enable (NodeIOHog old)) (Enable (NodeIOHog new))
    /\ bestEffort strconv_ParseBool (EnableNetworkScenarios cfg)
         (Enable (NetworkScenarios old)) (Enable (NetworkScenarios new))
    /\ bestEffort strconv_ParseBool (EnableDNSOutage cfg)
         (Enable (DNSOutage old)) (Enable (DNSOutage new))
    /\ bestEffort strconv_ParseBool (EnableTimeScenarios cfg)
         (Enable (TimeScenarios old)) (Enable (TimeScenarios new))
    /\ ApplicationOutages new = ApplicationOutages old
    /\ SynFlood new = SynFlood old).
Proof.
  apply Update_marshals_merged. intros c0. cbn.
  repeat split; apply bestEffort_override.
Qed.

(** X6. No configuration changes the kubeconfig path, the mutation,
    scenario-mutation, crossover and population-injection rates, the
    population-injection size, the cluster components, the
    stop-watcher-on-failure flag, or anything in the fitness function
    other than its query. *)
Theorem Update_untouched_fields {S} (h : Go.Env Effect S) cfg path (s : S) :
  everyMarshalled h cfg path s (fun c0 c' =>
    KubeconfigFilePath c' = KubeconfigFilePath c0
    /\ MutationRate c' = MutationRate c0
    /\ ScenarioMutationRate c' = ScenarioMutationRate c0
    /\ CrossoverRate c' = CrossoverRate c0
    /\ PopulationInjectionRate c' = PopulationInjectionRate c0
    /\ PopulationInjectionSize c' = PopulationInjectionSize c0
    /\ ClusterComponents_ c' = ClusterComponents_ c0
    /\ StopWatcherOnFailure (HealthChecks_ c')
       = StopWatcherOnFailure (HealthChecks_ c0)
    /\ Type_ (FitnessFunction_ c') = Type_ (FitnessFunction_ c0)
    /\ IncludeKrknFailure (FitnessFunction_ c')
       = IncludeKrknFailure (FitnessFunction_ c0)
    /\ IncludeHealthCheckFailure (FitnessFunction_ c')
       = IncludeHealthCheckFailure (FitnessFunction_ c0)
    /\ IncludeHealthCheckResponseTime (FitnessFunction_ c')
       = IncludeHealthCheckResponseTime (FitnessFunction_ c0)
    /\ Items (FitnessFunction_ c') = Items (FitnessFunction_ c0)).
Proof.
  apply Update_marshals_merged. intros c0. cbn. repeat split.
Qed.

(** X7. The fitness-function query and the host need no parsing: a
    non-empty query replaces the old one, and a non-empty host is stored
    under the key HOST of the parameters, which are created when nil and
    otherwise keep every other key; empty values change nothing. *)
Theorem Update_query_and_host {S} (h : Go.Env Effect S) cfg path (s : S) :
  everyMarshalled h cfg path s (fun c0 c' =>
    (FitnessFunctionQuery cfg = "" ->
     Query (FitnessFunction_ c') = Query (FitnessFunction_ c0))
    /\ (FitnessFunctionQuery cfg <> "" ->
        Query (FitnessFunction_ c') = FitnessFunctionQuery cfg)
    /\ (Host cfg = "" -> Parameters c' = Parameters c0)
    /\ (Host cfg <> "" ->
        exists m',
          Parameters c' = Some m'
          /\ m' !! "HOST" = Some (iface_string (Host cfg))
          /\ forall k, k <> "HOST" ->
               m' !! k = match Parameters c0 with
                         | Some m => m !! k
                         | None => None
                         end)).
Proof.
  apply Update_marshals_merged. intros c0. cbn. unfold mergedParameters.
  destruct (String.eqb_spec (FitnessFunctionQuery cfg) "") as [Hq | Hq];
    destruct (String.eqb_spec (Host cfg) "") as [Hh | Hh].
  all: repeat match goal with |- _ /\ _ => split end.
  all: try (intros; congruence).
  all: intros _; eexists; split; [reflexivity | ].
  all: split; [apply lookup_insert_eq | ].
  all: intros k Hk; rewrite lookup_insert_ne by congruence.
  all: destruct (Parameters c0); [reflexivity | apply lookup_empty].
Qed.

(** X8. A health-check URL override touches the first application only:
    its URL is replaced and its name, status code, timeout and interval
    stay, as do all later applications.  When there is no application it
    creates exactly one, named cluster-health, with status code 200,
    timeout 4 and interval 2.  Without the override the applications are
    unchanged. *)
Theorem Update_health_check_url {S} (h : Go.Env Effect S) cfg path (s : S) :
  everyMarshalled h cfg path s (fun c0 c' =>
    let old := Applications (HealthChecks_ c0) in
    let new := Applications (HealthChecks_ c') in
    (HealthChecksURL cfg = "" -> new = old)
    /\ (forall first rest,
          HealthChecksURL cfg <> "" -> elems old = first :: rest ->
          exists first',
            new = Some (first' :: rest)
            /\ URL first' = HealthChecksURL cfg
            /\ Name first' = Name first
            /\ StatusCode first' = StatusCode first
            /\ Timeout first' = Timeout first
            /\ Interval first' = Interval first)
    /\ (HealthChecksURL cfg <> "" -> elems old = [] ->
        new = Some [ {| Name := "cluster-health";
                        URL := HealthChecksURL cfg;
                        StatusCode := 200; Timeout := 4; Interval := 2 |} ])).
Proof.
  apply Update_marshals_merged. intros c0. cbn. unfold mergedApplications.
  destruct (String.eqb_spec (HealthChecksURL cfg) "") as [Hu | Hu].
  - repeat split; intros; congruence.
  - split; [intros; congruence | ]. split.
    + intros first rest _ Hold. rewrite Hold.
      eexists. split; [reflexivity | ]. repeat split.
    + intros _ Hold. rewrite Hold. reflexivity.
Qed.

Lemma merged_without_overrides cfg c0 :
  noOverrides cfg -> merged cfg c0 = c0.
Proof.
  intros (Hg & Hp & Hw & Hc & H1 & H2 & H3 & H4 & H5 & H6 & H7 & H8
          & Hq & Hu & Hh).
  unfold merged, mergedScenario, overrideToggle, override, mergedParameters,
    mergedApplications.
  rewrite Hg, Hp, Hw, Hc, H1, H2, H3, H4, H5, H6, H7, H8, Hq, Hu, Hh.
  cbn.
  destruct c0 as [? ? ? ? ? ? ? ? ? ? ? [] [] [[] [] [] [] [] [] [] [] [] []]
                  ?].
  reflexivity.
Qed.

(** No override is rejected when none is present. *)
Lemma rejections_without_overrides cfg :
  noOverrides cfg -> rejections cfg = [].
Proof.
  intros (Hg & Hp & Hw & Hc & H1 & H2 & H3 & H4 & H5 & H6 & H7 & H8 & _).
  unfold rejections, rejected.
  rewrite Hg, Hp, Hw, Hc, H1, H2, H3, H4, H5, H6, H7, H8. reflexivity.
Qed.

(** X9. With no override present the document that is marshalled and
    written back is the document that was unmarshalled, and the merge logs
    no error: the errors on the log of the run are those of the writes
    after the first, which go to the backup path. *)
Theorem Update_without_overrides {S} (h : Go.Env Effect S) cfg path (s : S) :
  noOverrides cfg ->
  exists out s' tr,
    Go.interp h (UpdateKrknAIYAMLWithJenkinsParams (withConfig cfg) path) s
    = (Returned out, s', tr)
    /\ (forall c' ans,
          In (c', ans) (marshals tr) ->
          exists data, unmarshals tr = [(data, inr c')])
    /\ loggedErrors tr = omap snd (drop 1 (writes tr))
    /\ (forall w, In w (drop 1 (writes tr)) ->
        fst (fst (fst w)) = backupPath path).
Proof.
  intros Hno. pose proof (rejections_without_overrides cfg Hno) as Hrej.
  assert (Hlogged : forall t1 t2 : list (Go.Event Effect),
             loggedErrors (t1 ++ t2)
             = (loggedErrors t1 ++ loggedErrors t2)%list).
  { intros t1 t2. unfold loggedErrors, errorLogs.
    now rewrite omap_app, map_app. }
  update_cases h cfg path s.
  all: split;
    [ intros c' ans Hin; update_read in_hyp Hin; try contradiction;
      destruct Hin as [Heq | []]; injection Heq as <- <-;
      exists yamlData; update_read;
      now rewrite (merged_without_overrides cfg c Hno)
    | ].
  all: rewrite ?Hlogged, ?Herrs, ?Hrej.
  all: unfold writes; rewrite ?omap_app, ?HqW; cbn.
  all: split; [reflexivity | ].
  all: intros w Hw; repeat (destruct Hw as [<- | Hw]); try contradiction;
    reflexivity.
Qed.

Lemma override_idempotent {A} (parse : string -> error + A) value old :
  override parse value (override parse value old) = override parse value old.
Proof.
  unfold override. destruct (String.eqb value ""); [reflexivity | ].
  destruct (parse value); reflexivity.
Qed.

Lemma merged_idempotent cfg c0 : merged cfg (merged cfg c0) = merged cfg c0.
Proof.
  unfold merged. cbn. f_equal.
  - unfold mergedParameters. destruct (String.eqb (Host cfg) "");
      [reflexivity | ]. cbn. now rewrite insert_insert_eq.
  - apply override_idempotent.
  - apply override_idempotent.
  - apply override_idempotent.
  - apply override_idempotent.
  - unfold set_Query. cbn. f_equal.
    destruct (String.eqb (FitnessFunctionQuery cfg) ""); reflexivity.
  - unfold set_Applications. cbn. f_equal. unfold mergedApplications.
    destruct (String.eqb (HealthChecksURL cfg) ""); [reflexivity | ].
    destruct (elems (Applications (HealthChecks_ c0))); reflexivity.
  - unfold mergedScenario, overrideToggle. cbn.
    now rewrite !override_idempotent.
Qed.

(** X10. The merge is idempotent: applied to a document it has produced,
    with the same configuration, it returns that document again. *)
Theorem Update_merge_idempotent {S} (h : Go.Env Effect S) cfg path (s : S) :
  everyMarshalled h cfg path s (fun c0 c' =>
    forall S' (h' : Go.Env Effect S') (s0 : S'),
    exists s1 tr1,
      Go.interp h' (applyJenkinsParams cfg c') s0 = (Returned c', s1, tr1)).
Proof.
  apply Update_marshals_merged. intros c0 S' h' s0.
  destruct (applyJenkinsParams_quiet h' cfg (merged cfg c0) s0)
    as (s1 & tr1 & Hrun & _).
  exists s1, tr1. now rewrite merged_idempotent in Hrun.
Qed.

End UpdateFacts.

Section ValidateFacts.
Context `{Library}.

Lemma acceptable_dec {A} (parse : string -> error + A) value :
  acceptable parse value
  \/ (value <> "" /\ exists err, parse value = inl err).
Proof.
  unfold acceptable.
  destruct (String.eqb_spec value "") as [Hv | Hv]; [now left; left | ].
  destruct (parse value) as [err | v] eqn:Hparse.
  - right. split; [assumption | now exists err].
  - left. right. now exists v.
Qed.

Lemma rejected_acceptable {A} (parse : string -> error + A) value :
  acceptable parse value -> rejected parse value = [].
Proof.
  unfold rejected. intros [-> | [v Hv]]; [reflexivity | ].
  rewrite Hv. now destruct (String.eqb value "").
Qed.

(** One of the three numeric checks. *)
Lemma numeric_check {A} (parse : string -> error + A) value (msg : string) :
  (if String.eqb value "" then None
   else match parse value with
        | inl _ => Some (errors_New msg)
        | inr _ => None
        end) = None <-> acceptable parse value.
Proof.
  unfold acceptable.
  destruct (String.eqb_spec value "") as [Hv | Hv].
  - split; auto.
  - destruct (parse value) as [err | v].
    + split; [discriminate | ]. intros [Hempty | [v Hv']]; [contradiction | ].
      discriminate Hv'.
    + split; [ | reflexivity]. intros _. right. now exists v.
Qed.

Lemma checkBoolParams_None entries :
  checkBoolParams entries = None
  <-> Forall (fun nv => acceptable strconv_ParseBool (snd nv)) entries.
Proof.
  induction entries as [ | [name value] rest IH]; cbn [checkBoolParams].
  - split; [constructor | reflexivity].
  - rewrite Forall_cons. cbn [snd]. unfold acceptable at 1.
    destruct (String.eqb_spec value "") as [Hv | Hv].
    + rewrite IH. split; [intros Hrest; split; auto | now intros [_ Hrest]].
    + destruct (strconv_ParseBool value) as [err | b].
      * split; [discriminate | ].
        intros [[Hempty | [v Hv']] _]; [contradiction | discriminate Hv'].
      * rewrite IH. split; [ | now intros [_ Hrest]].
        intros Hrest. split; [right; now exists b | assumption].
Qed.

Lemma checkBoolParams_Some entries err :
  checkBoolParams entries = Some err ->
  exists name value,
    In (name, value) entries /\ value <> ""
    /\ (exists e, strconv_ParseBool value = inl e)
    /\ err = errors_New
               ("invalid boolean value for " ++ name ++ ": " ++ value).
Proof.
  induction entries as [ | [name value] rest IH]; cbn [checkBoolParams];
    [discriminate | ].
  destruct (String.eqb_spec value "") as [Hv | Hv].
  - intros Hrest. destruct (IH Hrest) as (n & v & Hin & Hrest').
    exists n, v. split; [now right | assumption].
  - destruct (strconv_ParseBool value) as [e | b] eqn:Hparse.
    + intros Herr. injection Herr as <-. exists name, value.
      split; [now left | ]. split; [assumption | ].
      split; [now exists e | reflexivity].
    + intros Hrest. destruct (IH Hrest) as (n & v & Hin & Hrest').
      exists n, v. split; [now right | assumption].
Qed.

Lemma boolParams_Forall (P : string -> Prop) cfg :
  map_Forall (fun _ v => P v) (boolParams cfg)
  <-> P (EnablePodScenarios cfg) /\ P (EnableContainerScenarios cfg)
      /\ P (EnableNodeCPUHog cfg) /\ P (EnableNodeMemoryHog cfg)
      /\ P (EnableNodeIOHog cfg) /\ P (EnableNetworkScenarios cfg)
      /\ P (EnableDNSOutage cfg) /\ P (EnableTimeScenarios cfg).
Proof.
  unfold boolParams.
  rewrite !map_Forall_insert by done.
  split.
  - intros (H1 & H2 & H3 & H4 & H5 & H6 & H7 & H8 & _). tauto.
  - intros (H1 & H2 & H3 & H4 & H5 & H6 & H7 & H8).
    repeat split; try assumption. apply map_Forall_empty.
Qed.

Lemma visited_Forall range (P : string -> Prop) cfg :
  visitsAll range ->
  Forall (fun nv => P (snd nv)) (range (boolParams cfg))
  <-> map_Forall (fun _ v => P v) (boolParams cfg).
Proof.
  intros Hrange. rewrite (Hrange (boolParams cfg)).
  rewrite map_Forall_to_list. apply Forall_proper; [ | reflexivity].
  intros [n v]. reflexivity.
Qed.

(** Acceptance, case by case through the checks. *)
Lemma accepted_iff_wellFormed range cfg :
  visitsAll range ->
  ValidateKrknAIConfig range (Some cfg) = None <-> wellFormed cfg.
Proof.
  intros Hrange. unfold ValidateKrknAIConfig, wellFormed.
  pose proof (numeric_check strconv_Atoi (cfg_Generations cfg)
                ("invalid generations value: " ++ cfg_Generations cfg))
    as Hg.
  pose proof (numeric_check strconv_Atoi (cfg_PopulationSize cfg)
                ("invalid population_size value: "
                 ++ cfg_PopulationSize cfg)) as Hp.
  pose proof (numeric_check strconv_Atoi (cfg_WaitDuration cfg)
                ("invalid wait_duration value: "
                 ++ cfg_WaitDuration cfg)) as Hw.
  pose proof (checkBoolParams_None (range (boolParams cfg))) as Hb.
  rewrite (visited_Forall range (acceptable strconv_ParseBool) cfg Hrange),
    boolParams_Forall in Hb.
  destruct (String.eqb_spec (Mode cfg) "discover") as [Hd | Hd];
    destruct (String.eqb_spec (Mode cfg) "run") as [Hr | Hr]; cbn [negb andb].
  4: { split; [discriminate | ]. intros [[Hm | Hm] _]; contradiction. }
  all: destruct (if String.eqb (cfg_Generations cfg) "" then None else _)
    as [eg | ];
    [ split; [discriminate | ]; intros (_ & Hacc & _);
      apply Hg in Hacc; discriminate Hacc | ].
  all: destruct (if String.eqb (cfg_PopulationSize cfg) "" then None else _)
    as [ep | ];
    [ split; [discriminate | ]; intros (_ & _ & Hacc & _);
      apply Hp in Hacc; discriminate Hacc | ].
  all: destruct (if String.eqb (cfg_WaitDuration cfg) "" then None else _)
    as [ew | ];
    [ split; [discriminate | ]; intros (_ & _ & _ & Hacc & _);
      apply Hw in Hacc; discriminate Hacc | ].
  all: rewrite Hb.
  all: split;
    [ intros Hbools; split; [auto | ];
      split; [now apply Hg | ]; split; [now apply Hp | ];
      split; [now apply Hw | exact Hbools]
    | intros (_ & _ & _ & _ & Hbools); exact Hbools ].
Qed.

(** X11. Whatever the order in which the boolean parameters are visited,
    ValidateKrknAIConfig accepts a configuration exactly when its mode is
    discover or run, each of generations, population_size and
    wait_duration is empty or an integer, and each of the eight scenario
    switches is empty or a boolean. *)
Theorem Validate_accepts_iff range cfg :
  visitsAll range ->
  ValidateKrknAIConfig range (Some cfg) = None <-> wellFormed cfg.
Proof.
  intros Hrange. split.
  - intros Haccepted.
    now apply (proj1 (accepted_iff_wellFormed range cfg Hrange)).
  - intros Hwell.
    now apply (proj2 (accepted_iff_wellFormed range cfg Hrange)).
Qed.

(** X12. The checks run in a fixed order and the first violation is the
    one reported: a nil configuration, then the mode, then generations,
    population_size and wait_duration; later fields do not matter. *)
Theorem Validate_reports_first_violation range cfg :
  ValidateKrknAIConfig range None = Some (errors_New "KrknAIConfig is nil")
  /\ (Mode cfg <> "discover" -> Mode cfg <> "run" ->
      ValidateKrknAIConfig range (Some cfg)
      = Some (errors_New ("invalid mode: " ++ Mode cfg
                          ++ " (must be 'discover' or 'run')")))
  /\ (Mode cfg = "discover" \/ Mode cfg = "run" ->
      ~ acceptable strconv_Atoi (cfg_Generations cfg) ->
      ValidateKrknAIConfig range (Some cfg)
      = Some (errors_New ("invalid generations value: "
                          ++ cfg_Generations cfg)))
  /\ (Mode cfg = "discover" \/ Mode cfg = "run" ->
      acceptable strconv_Atoi (cfg_Generations cfg) ->
      ~ acceptable strconv_Atoi (cfg_PopulationSize cfg) ->
      ValidateKrknAIConfig range (Some cfg)
      = Some (errors_New ("invalid population_size value: "
                          ++ cfg_PopulationSize cfg)))
  /\ (Mode cfg = "discover" \/ Mode cfg = "run" ->
      acceptable strconv_Atoi (cfg_Generations cfg) ->
      acceptable strconv_Atoi (cfg_PopulationSize cfg) ->
      ~ acceptable strconv_Atoi (cfg_WaitDuration cfg) ->
      ValidateKrknAIConfig range (Some cfg)
      = Some (errors_New ("invalid wait_duration value: "
                          ++ cfg_WaitDuration cfg))).
Proof.
  assert (Hmode : Mode cfg = "discover" \/ Mode cfg = "run" ->
                  negb (String.eqb (Mode cfg) "discover")
                  && negb (String.eqb (Mode cfg) "run") = false).
  { intros [-> | ->]; reflexivity. }
  assert (Hok : forall (value msg : string),
             acceptable strconv_Atoi value ->
             (if String.eqb value "" then None
              else match strconv_Atoi value with
                   | inl _ => Some (errors_New msg)
                   | inr _ => None
                   end) = None).
  { intros value msg. apply (numeric_check strconv_Atoi value msg). }
  assert (Hbad : forall (value msg : string),
             ~ acceptable strconv_Atoi value ->
             (if String.eqb value "" then None
              else match strconv_Atoi value with
                   | inl _ => Some (errors_New msg)
                   | inr _ => None
                   end) = Some (errors_New msg)).
  { intros value msg Hnot.
    destruct (acceptable_dec strconv_Atoi value) as [Hacc | [Hne [e He]]];
      [contradiction | ].
    apply String.eqb_neq in Hne. now rewrite Hne, He. }
  split; [reflexivity | ].
  unfold ValidateKrknAIConfig.
  split.
  { intros Hd Hr. apply String.eqb_neq in Hd, Hr. now rewrite Hd, Hr. }
  split.
  { intros Hm Hg. rewrite (Hmode Hm). now rewrite Hbad. }
  split.
  { intros Hm Hg Hp. rewrite (Hmode Hm), (Hok _ _ Hg). now rewrite Hbad. }
  intros Hm Hg Hp Hw.
  rewrite (Hmode Hm), (Hok _ _ Hg), (Hok _ _ Hp). now rewrite Hbad.
Qed.

(** X13. When the three numeric fields pass and a scenario switch does
    not, the error names a switch of the configuration whose value is
    present and is not a boolean; which one, when several are malformed,
    depends on the visiting order. *)
Theorem Validate_boolean_error_names_culprit range cfg err :
  visitsAll range ->
  (Mode cfg = "discover" \/ Mode cfg = "run") ->
  acceptable strconv_Atoi (cfg_Generations cfg) ->
  acceptable strconv_Atoi (cfg_PopulationSize cfg) ->
  acceptable strconv_Atoi (cfg_WaitDuration cfg) ->
  ValidateKrknAIConfig range (Some cfg) = Some err ->
  exists name value,
    boolParams cfg !! name = Some value /\ value <> ""
    /\ (exists e, strconv_ParseBool value = inl e)
    /\ err = errors_New
               ("invalid boolean value for " ++ name ++ ": " ++ value).
Proof.
  intros Hrange Hm Hg Hp Hw. unfold ValidateKrknAIConfig.
  assert (Hmode : negb (String.eqb (Mode cfg) "discover")
                  && negb (String.eqb (Mode cfg) "run") = false).
  { destruct Hm as [-> | ->]; reflexivity. }
  rewrite Hmode.
  rewrite (proj2 (numeric_check strconv_Atoi _ _) Hg).
  rewrite (proj2 (numeric_check strconv_Atoi _ _) Hp).
  rewrite (proj2 (numeric_check strconv_Atoi _ _) Hw).
  intros Hcheck.
  destruct (checkBoolParams_Some _ _ Hcheck)
    as (name & value & Hin & Hne & Hparse & Herr).
  exists name, value. split; [ | auto].
  apply elem_of_map_to_list. rewrite <- (Hrange (boolParams cfg)).
  now apply list_elem_of_In.
Qed.

(** X14. Validation and merge disagree on one field only.  The validator
    never looks at composition_rate; and when the merge runs on a
    configuration the validator accepts, every error on its log is either
    the parse error of composition_rate or the failure of the backup
    write. *)
Theorem Validate_then_Update {S} (h : Go.Env Effect S) range cfg path
  (s : S) :
  visitsAll range ->
  ValidateKrknAIConfig range (Some cfg) = None ->
  (forall rate,
     ValidateKrknAIConfig range (Some (withCompositionRate rate cfg)) = None)
  /\ exists out s' tr,
       Go.interp h (UpdateKrknAIYAMLWithJenkinsParams (withConfig cfg) path) s
       = (Returned out, s', tr)
       /\ forall err, In err (loggedErrors tr) ->
            strconv_ParseFloat64 (cfg_CompositionRate cfg) = inl err
            \/ exists data,
                 In (backupPath path, data, 420, Some err) (writes tr).
Proof.
  intros Hrange Hvalid. split; [intros rate; exact Hvalid | ].
  assert (Hrej : rejections cfg
                 = rejected strconv_ParseFloat64 (cfg_CompositionRate cfg)).
  { apply (accepted_iff_wellFormed range cfg Hrange) in Hvalid
      as (_ & Hg & Hp & Hw & H1 & H2 & H3 & H4 & H5 & H6 & H7 & H8).
    unfold rejections.
    rewrite !(rejected_acceptable strconv_Atoi) by assumption.
    rewrite !(rejected_acceptable strconv_ParseBool) by assumption.
    cbn [app]. now rewrite app_nil_r. }
  assert (Hfloat : forall err,
             In err (rejections cfg) ->
             strconv_ParseFloat64 (cfg_CompositionRate cfg) = inl err).
  { intros err. rewrite Hrej. unfold rejected.
    destruct (String.eqb (cfg_CompositionRate cfg) ""); [intros [] | ].
    destruct (strconv_ParseFloat64 (cfg_CompositionRate cfg));
      [ | intros []].
    intros [<- | []]. reflexivity. }
  update_cases h cfg path s.
  all: intros err0 Hin.
  all: unfold loggedErrors, errorLogs in *;
    rewrite ?omap_app, ?map_app in Hin; cbn in Hin;
    rewrite ?app_nil_r in Hin.
  all: try contradiction.
  all: try (left; apply Hfloat; rewrite <- Herrs; exact Hin).
  apply in_app_iff in Hin as [Hin | [<- | []]].
  - left. apply Hfloat. rewrite <- Herrs. exact Hin.
  - right. exists updatedYAML. unfold writes. rewrite !omap_app, HqW.
    cbn. auto.
Qed.

End ValidateFacts.

End ExecutorFacts.

(** ** The executor on concrete inputs *)

Module ExecutorExamples.
Import executor ExecutorFacts.
#[local] Existing Instance ExecutorDemo.library.

(** A Jenkins run with a malformed population_size and a failing backup
    write: it succeeds, logs both errors, and writes the merged document
    to both paths. *)
Example jenkins_run :
  fst (fst (Go.interp (ExecutorDemo.env true)
              (UpdateKrknAIYAMLWithJenkinsParams
                 (withConfig ExecutorDemo.jenkins) "/work/krkn-ai.yaml")
              0%nat)) = Returned None
  /\ loggedErrors ExecutorDemo.jenkinsTrace
     = [errors_New "strconv.Atoi: invalid syntax: ten";
        errors_New "disk full"]
  /\ map (fun w => (fst (fst (fst w)), snd w))
       (writes ExecutorDemo.jenkinsTrace)
     = [("/work/krkn-ai.yaml", None);
        ("/work/krkn-ai-updated.yaml", Some (errors_New "disk full"))].
Proof. repeat split; by_vm. Qed.

Example jenkins_document :
  map (fun m => let c := fst m in
                (Generations c, PopulationSize c, WaitDuration c,
                 Enable (PodScenarios (Scenario_ c)),
                 map URL (elems (Applications (HealthChecks_ c)))))
    (marshals ExecutorDemo.jenkinsTrace)
  = [(20, 10, 45, false,
      ["https://api.new/healthz"; "https://console.old/health"])].
Proof. by_vm. Qed.

Lemma range_visitsAll : visitsAll ExecutorDemo.range.
Proof. intros m. reflexivity. Defined.

Lemma plain_noOverrides : noOverrides ExecutorDemo.plain.
Proof. repeat split. Defined.

Lemma Update_without_overrides_witness :
  noOverrides ExecutorDemo.plain
  /\ exists out s' tr,
       Go.interp (ExecutorDemo.env false)
         (UpdateKrknAIYAMLWithJenkinsParams (withConfig ExecutorDemo.plain)
            "/work/krkn-ai.yaml") 0%nat
       = (Returned out, s', tr)
       /\ (forall c' ans,
             In (c', ans) (marshals tr) ->
             exists data, unmarshals tr = [(data, inr c')])
       /\ loggedErrors tr = omap snd (drop 1 (writes tr))
       /\ (forall w, In w (drop 1 (writes tr)) ->
           fst (fst (fst w)) = backupPath "/work/krkn-ai.yaml").
Proof.
  split; [exact plain_noOverrides | ].
  exact (Update_without_overrides (ExecutorDemo.env false) ExecutorDemo.plain
           "/work/krkn-ai.yaml" 0%nat plain_noOverrides).
Defined.

Lemma validated_is_accepted :
  ValidateKrknAIConfig ExecutorDemo.range (Some ExecutorDemo.validated)
  = None.
Proof. by_vm. Defined.

Lemma Validate_accepts_iff_witness :
  visitsAll ExecutorDemo.range
  /\ ValidateKrknAIConfig ExecutorDemo.range (Some ExecutorDemo.validated)
     = None
  /\ wellFormed ExecutorDemo.validated.
Proof.
  split; [exact range_visitsAll | ].
  split; [exact validated_is_accepted | ].
  apply (Validate_accepts_iff ExecutorDemo.range ExecutorDemo.validated
           range_visitsAll).
  exact validated_is_accepted.
Defined.

Lemma twoBadSwitches_rejected :
  ValidateKrknAIConfig ExecutorDemo.range (Some ExecutorDemo.twoBadSwitches)
  = Some (errors_New "invalid boolean value for enable_dns_outage: no").
Proof. by_vm. Defined.

Lemma Validate_boolean_error_names_culprit_witness :
  ValidateKrknAIConfig ExecutorDemo.range (Some ExecutorDemo.twoBadSwitches)
  = Some (errors_New "invalid boolean value for enable_dns_outage: no")
  /\ exists name value,
       boolParams ExecutorDemo.twoBadSwitches !! name = Some value
       /\ value <> ""
       /\ (exists e, strconv_ParseBool value = inl e)
       /\ errors_New "invalid boolean value for enable_dns_outage: no"
          = errors_New
              ("invalid boolean value for " ++ name ++ ": " ++ value).
Proof.
  split; [exact twoBadSwitches_rejected | ].
  apply (Validate_boolean_error_names_culprit ExecutorDemo.range
           ExecutorDemo.twoBadSwitches _ range_visitsAll).
  - right. reflexivity.
  - left. reflexivity.
  - left. reflexivity.
  - left. reflexivity.
  - exact twoBadSwitches_rejected.
Defined.

Lemma Validate_then_Update_witness :
  ValidateKrknAIConfig ExecutorDemo.range (Some ExecutorDemo.validated)
  = None
  /\ strconv_ParseFloat64 (cfg_CompositionRate ExecutorDemo.validated)
     = inl (errors_New "strconv.ParseFloat: invalid syntax: high")
  /\ exists out s' tr,
       Go.interp (ExecutorDemo.env false)
         (UpdateKrknAIYAMLWithJenkinsParams
            (withConfig ExecutorDemo.validated) "/work/krkn-ai.yaml") 0%nat
       = (Returned out, s', tr)
       /\ forall err, In err (loggedErrors tr) ->
            strconv_ParseFloat64 (cfg_CompositionRate ExecutorDemo.validated)
            = inl err
            \/ exists data,
                 In (backupPath "/work/krkn-ai.yaml", data, 420, Some err)
                    (writes tr).
Proof.
  split; [exact validated_is_accepted | ].
  split; [reflexivity | ].
  exact (proj2 (Validate_then_Update (ExecutorDemo.env false)
                  ExecutorDemo.range ExecutorDemo.validated
                  "/work/krkn-ai.yaml" 0%nat range_visitsAll
                  validated_is_accepted)).
Defined.

End ExecutorExamples.

(** ** Package accountsmgmt/v1: RegistryCredentialListBuilder *)

Module ListBuilderFacts.
Import listbuilder.

Section Facts.
Context {ItemBuilder Item : Type}.

Lemma made_is_new (st : Store ItemBuilder) (sl : Slice) :
  valid st sl -> fresh (dom st) <> array sl.
Proof.
  intros (a & Ha & _) Heq.
  assert (Hin : array sl ∈ dom st) by (apply elem_of_dom; now exists a).
  rewrite <- Heq in Hin. exact (is_fresh _ Hin).
Qed.

(** The copy made by Items is out of reach of the caller's slice. *)
Lemma copy_survives (st : Store ItemBuilder) (values : Slice) i x :
  valid st values ->
  view (assign (<[fresh (dom st) := view st (Some values)]> st) values i x)
    (Some {| array := fresh (dom st); off := 0;
             len := length (view st (Some values)) |})
  = view st (Some values).
Proof.
  intros Hvalid. pose proof (made_is_new st values Hvalid) as Hnew.
  destruct Hvalid as (a & Ha & Hlen).
  remember (view st (Some values)) as copied eqn:Hcopied.
  assert (Hmade :
    forall st0 : Store ItemBuilder,
      st0 !! fresh (dom st) = Some copied ->
      view st0 (Some {| array := fresh (dom st); off := 0;
                        len := length copied |}) = copied).
  { intros st0 Hst0. cbn [view array off len]. rewrite Hst0.
    cbn [drop]. apply firstn_all. }
  apply Hmade. unfold assign.
  rewrite lookup_insert_ne by assumption. rewrite Ha.
  destruct (i <? len values)%nat.
  - rewrite lookup_insert_ne by congruence. apply lookup_insert_eq.
  - apply lookup_insert_eq.
Qed.

(** X21. Items stores a copy.  The builder's new slice shows the values
    that were passed, it is never nil, and it does not depend on what the
    builder held before; the caller's array is left as it was, a later
    assignment through the caller's slice does not change what the builder
    holds, and an assignment through the builder's slice does not change
    what the caller sees. *)
Theorem Items_stores_a_copy (b : RegistryCredentialListBuilder) (values : Slice)
  (st : Store ItemBuilder) :
  valid st values ->
  exists mine st',
    Items (Some b) (Some values) st
    = Returned ({| items := Some mine |}, st')
    /\ view st' (Some mine) = view st (Some values)
    /\ view st' (Some values) = view st (Some values)
    /\ (forall b0, Items (Some b0) (Some values) st
                   = Items (Some b) (Some values) st)
    /\ (forall i x,
          view (assign st' values i x) (Some mine) = view st (Some values))
    /\ (forall i x,
          view (assign st' mine i x) (Some values) = view st (Some values)).
Proof.
  intros Hvalid. pose proof (made_is_new st values Hvalid) as Hnew.
  destruct Hvalid as (a & Ha & Hlen).
  eexists. eexists. split; [reflexivity | ].
  assert (Hmine : forall st0 : Store ItemBuilder,
             st0 !! fresh (dom st) = Some (view st (Some values)) ->
             view st0 (Some {| array := fresh (dom st); off := 0;
                               len := length (view st (Some values)) |})
             = view st (Some values)).
  { intros st0 Hst0. cbn [view array off len]. rewrite Hst0.
    cbn [drop]. apply firstn_all. }
  assert (Hcaller : forall st0 : Store ItemBuilder,
             st0 !! array values = Some a ->
             view st0 (Some values) = view st (Some values)).
  { intros st0 Hst0. cbn [view]. now rewrite Hst0, Ha. }
  split; [apply Hmine, lookup_insert_eq | ].
  split; [apply Hcaller; now rewrite lookup_insert_ne | ].
  split; [reflexivity | ].
  split.
  - intros i x. apply Hmine. unfold assign.
    rewrite lookup_insert_ne by assumption. rewrite Ha.
    destruct (i <? len values)%nat.
    + rewrite lookup_insert_ne by congruence. apply lookup_insert_eq.
    + apply lookup_insert_eq.
  - intros i x. apply Hcaller. unfold assign. cbn [array off len].
    rewrite lookup_insert_eq.
    destruct (i <? length (view st (Some values)))%nat.
    + rewrite lookup_insert_ne by assumption.
      now rewrite lookup_insert_ne by assumption.
    + now rewrite lookup_insert_ne by assumption.
Qed.

Lemma built_cons (item : ItemBuilder) (ans : Item * option error)
  (tr : list (Go.Event (Effect ItemBuilder Item))) :
  built (Go.Ev (item_Build item) ans :: tr) = (item, ans) :: built tr.
Proof. reflexivity. Qed.

(** The loop, from any point: it either stores one item per remaining
    builder, or stops at the first builder that fails. *)
Lemma buildItems_exec {S} (h : Go.Env (Effect ItemBuilder Item) S) rest : forall acc (s : S),
  exists r s' tr,
    Go.interp h (buildItems rest acc) s = (Returned r, s', tr)
    /\ ((r = inl (acc ++ map (fun a => fst (snd a)) (built tr))%list
         /\ map fst (built tr) = rest
         /\ Forall (fun a => snd (snd a) = None) (built tr))
        \/ (exists err done last,
              r = inr err
              /\ built tr = (done ++ [last])%list
              /\ snd (snd last) = Some err
              /\ Forall (fun a => snd (snd a) = None) done
              /\ map fst (built tr) = take (length (built tr)) rest)).
Proof.
  induction rest as [ | item rest IH]; intros acc s.
  - exists (inl acc), s, []. split; [reflexivity | ]. left.
    cbn. rewrite app_nil_r. repeat split. constructor.
  - cbn [buildItems]. go_answer as [[it [err | ]] s1]; cbn [snd fst].
    + do 3 eexists. split; [reflexivity | ]. right.
      exists err, [], (item, (it, Some err)).
      rewrite built_cons. cbn. repeat split. constructor.
    + destruct (IH (acc ++ [it])%list s1) as (r & s' & tr & Hrun & Hcases).
      rewrite Hrun. do 3 eexists. split; [reflexivity | ].
      rewrite built_cons.
      destruct Hcases as [(Hr & Hfst & Hok)
                         | (err & done & last & Hr & Hb & Hlast & Hok & Hfst)].
      * left. cbn [map fst snd]. rewrite Hr, <- app_assoc. split; [reflexivity | ].
        split; [now rewrite Hfst | ].
        constructor; [reflexivity | assumption].
      * right. exists err, ((item, (it, None)) :: done), last.
        split; [assumption | ].
        split; [now rewrite Hb | ].
        split; [assumption | ].
        split; [constructor; [reflexivity | assumption] | ].
        cbn [map fst length take]. now rewrite Hfst.
Qed.

(** X22. Build is all or nothing.  It asks the item builders to build in
    slice order and stops at the first one that fails: it then returns a
    nil list and that item's error, and the later builders are never
    asked.  When none fails it returns a list with exactly one item per
    builder, in the same order, and no error; an empty builder gives an
    empty list without asking anyone. *)
Theorem Build_all_or_nothing {S} (h : Go.Env (Effect ItemBuilder Item) S) (b : RegistryCredentialListBuilder)
  (st : Store ItemBuilder) (s : S) :
  exists out s' tr,
    Go.interp h (Build (Some b) st) s = (Returned out, s', tr)
    /\ map fst (built tr)
       = take (length (built tr)) (view st (items b))
    /\ ((exists l,
           out = (Some l, None)
           /\ map fst (built tr) = view st (items b)
           /\ list_items l = map (fun a => fst (snd a)) (built tr)
           /\ Forall (fun a => snd (snd a) = None) (built tr))
        \/ (exists err done last,
              out = (None, Some err)
              /\ built tr = (done ++ [last])%list
              /\ snd (snd last) = Some err
              /\ Forall (fun a => snd (snd a) = None) done))
    /\ (view st (items b) = [] ->
        out = (Some {| list_items := [] |}, None) /\ tr = []).
Proof.
  unfold Build. rewrite GoFacts.go_interp_bind.
  destruct (buildItems_exec h (view st (items b)) [] s)
    as (r & s' & tr & Hrun & Hcases).
  rewrite Hrun.
  destruct Hcases as [(Hr & Hfst & Hok)
                     | (err & done & last & Hr & Hb & Hlast & Hok & Hfst)];
    subst r; cbn [Go.interp]; do 3 eexists; (split; [reflexivity | ]);
    rewrite app_nil_r.
  - split; [ | split].
    + rewrite <- Hfst. rewrite <- (length_map fst (built tr)).
      symmetry. apply firstn_all.
    + left. eexists. repeat split; assumption.
    + intros Hempty. rewrite Hempty in Hfst.
      destruct tr; [ | discriminate Hfst]. split; reflexivity.
  - split; [exact Hfst | split].
    + right. exists err, done, last. repeat split; assumption.
    + intros Hempty. rewrite Hempty, Hb in Hfst.
      rewrite map_app in Hfst. cbn in Hfst.
      rewrite firstn_nil in Hfst. symmetry in Hfst.
      now apply app_cons_not_nil in Hfst.
Qed.

(** X23. Items and Build compose: what Build asks to build after
    Items(values) are the values as they were when Items was called, in
    order, even if the caller has since assigned to an element of the
    slice it passed. *)
Theorem Items_then_Build {S} (h : Go.Env (Effect ItemBuilder Item) S) (b : RegistryCredentialListBuilder)
  (values : Slice) (st : Store ItemBuilder) (s : S) :
  valid st values ->
  exists b' st',
    Items (Some b) (Some values) st = Returned (b', st')
    /\ forall i x,
       exists out s' tr,
         Go.interp h (Build (Some b') (assign st' values i x)) s
         = (Returned out, s', tr)
         /\ map fst (built tr)
            = take (length (built tr)) (view st (Some values))
         /\ ((exists l, out = (Some l, None))
             -> map fst (built tr) = view st (Some values)).
Proof.
  intros Hvalid. pose proof (made_is_new st values Hvalid) as Hnew.
  destruct Hvalid as (a & Ha & Hlen).
  do 2 eexists. split; [reflexivity | ]. intros i x.
  pose proof (copy_survives st values i x (ex_intro _ a (conj Ha Hlen)))
    as Hview.
  unfold Build. cbn [items]. rewrite Hview.
  rewrite GoFacts.go_interp_bind.
  destruct (buildItems_exec h (view st (Some values)) [] s)
    as (r & s' & tr & Hrun & Hcases).
  rewrite Hrun.
  destruct Hcases as [(Hr & Hfst & Hok)
                     | (err & done & last & Hr & Hb & Hlast & Hok & Hfst)];
    subst r; cbn [Go.interp]; do 3 eexists; (split; [reflexivity | ]);
    rewrite app_nil_r.
  - split; [ | intros _; exact Hfst].
    rewrite <- Hfst. rewrite <- (length_map fst (built tr)).
    symmetry. apply firstn_all.
  - split; [exact Hfst | ]. intros [l Hl]. discriminate Hl.
Qed.

End Facts.
End ListBuilderFacts.

(** ** Package clustersmgmt/v1: the JSON form of 'group' *)

Module GroupFacts.
Import group.

Section Facts.
Context `{Library}.

(** X24. wrap and unwrap are inverse on every group that wraps without
    error, the nil group included, provided the two kind constants differ
    and the user-list conversions undo each other. *)
Theorem unwrap_wrap (o : option Group) (d : option groupData) :
  GroupKind <> GroupLinkKind ->
  linksRoundTrip ->
  wrap o = (d, None) ->
  unwrap d = (o, None).
Proof.
  intros Hkinds Hlinks. unfold wrap.
  destruct o as [[i hr l u] | ]; cbn [users link id href].
  - destruct (wrapLink u) as [ul err] eqn:Hwrap.
    intros Heq. injection Heq as <- ->.
    apply Hlinks in Hwrap. unfold unwrap. cbn [Kind Users ID HREF].
    rewrite Hwrap. destruct l.
    + rewrite (proj2 (String.eqb_neq _ _)) by congruence.
      now rewrite String.eqb_refl.
    + now rewrite String.eqb_refl.
  - intros Heq. injection Heq as <-. reflexivity.
Qed.

(** X25. wrap always writes a kind, GroupLinkKind for a link and GroupKind
    otherwise, and copies the id and the href; it returns the data even
    when wrapping the users failed.  unwrap never rejects the kind of data
    that wrap produced: the only error it can give on such data is the one
    of the user-list conversion. *)
Theorem wrap_sets_kind (g : Group) :
  exists d,
    fst (wrap (Some g)) = Some d
    /\ Kind d = Some (if link g then GroupLinkKind else GroupKind)
    /\ ID d = id g /\ HREF d = href g
    /\ Users d = fst (wrapLink (users g))
    /\ snd (wrap (Some g)) = snd (wrapLink (users g))
    /\ snd (unwrap (Some d)) = snd (unwrapLink (Users d)).
Proof.
  unfold wrap. destruct (wrapLink (users g)) as [ul err].
  eexists. split; [reflexivity | ]. cbn [Kind ID HREF Users fst snd].
  repeat split. unfold unwrap. cbn [Kind Users].
  destruct (link g).
  - destruct (String.eqb GroupLinkKind GroupKind);
      [ | rewrite String.eqb_refl];
      now destruct (unwrapLink ul).
  - rewrite String.eqb_refl. now destruct (unwrapLink ul).
Qed.

(** X26. unwrap reads a missing kind as a plain group and tells the two
    known kinds apart; any other kind is an error that names both
    constants and the kind found, and comes with a non-nil group that has
    the id and href but no users. *)
Theorem unwrap_kinds (d : groupData) :
  (Kind d = None \/ Kind d = Some GroupKind ->
   unwrap (Some d)
   = (Some {| id := ID d; href := HREF d; link := false;
              users := fst (unwrapLink (Users d)) |},
      snd (unwrapLink (Users d))))
  /\ (GroupKind <> GroupLinkKind -> Kind d = Some GroupLinkKind ->
      unwrap (Some d)
      = (Some {| id := ID d; href := HREF d; link := true;
                 users := fst (unwrapLink (Users d)) |},
         snd (unwrapLink (Users d))))
  /\ (forall kind,
        Kind d = Some kind -> kind <> GroupKind -> kind <> GroupLinkKind ->
        unwrap (Some d)
        = (Some {| id := ID d; href := HREF d; link := false;
                   users := None |},
           Some (errors_New
                   ("expected kind '" ++ GroupKind ++ "' or '"
                    ++ GroupLinkKind ++ "' but got '" ++ kind ++ "'")))).
Proof.
  unfold unwrap. repeat split.
  - intros [-> | ->]; [ | rewrite String.eqb_refl];
      now destruct (unwrapLink (Users d)).
  - intros Hkinds ->.
    rewrite (proj2 (String.eqb_neq _ _)) by congruence.
    rewrite String.eqb_refl. now destruct (unwrapLink (Users d)).
  - intros kind -> Hk Hl.
    rewrite (proj2 (String.eqb_neq _ _) Hk), (proj2 (String.eqb_neq _ _) Hl).
    reflexivity.
Qed.

(** X27. MarshalGroup encodes at most once.  It encodes the wrapped group,
    with the encoder that helpers.NewEncoder returned, only when creating
    the encoder and wrapping both succeeded, and then returns what Encode
    returned; when either fails it returns that error and encodes
    nothing. *)
Theorem MarshalGroup_encodes_once {S} (h : Go.Env Effect S) object target
  (s : S) :
  exists out s' tr,
    Go.interp h (MarshalGroup object target) s = (Returned out, s', tr)
    /\ ((exists err,
           tr = [Go.Ev (helpers_NewEncoder target) (inl err)]
           /\ out = Some err /\ encodes tr = [])
        \/ (exists encoder err,
              tr = [Go.Ev (helpers_NewEncoder target) (inr encoder)]
              /\ snd (wrap object) = Some err
              /\ out = Some err /\ encodes tr = [])
        \/ (exists encoder,
              tr = [Go.Ev (helpers_NewEncoder target) (inr encoder);
                    Go.Ev (Encode encoder (fst (wrap object))) out]
              /\ snd (wrap object) = None
              /\ encodes tr = [(encoder, fst (wrap object), out)])).
Proof.
  unfold MarshalGroup. go_answer as [[err | encoder] s1].
  { do 3 eexists. split; [reflexivity | ]. left. now exists err. }
  destruct (wrap object) as [data [err | ]].
  - do 3 eexists. split; [reflexivity | ]. right. left.
    now exists encoder, err.
  - go_answer as [out s2]. do 3 eexists. split; [reflexivity | ].
    right. right. now exists encoder.
Qed.

(** X28. UnmarshalGroup returns a nil group with the error when creating
    the decoder or decoding fails, without looking at what was decoded;
    when decoding succeeds it returns exactly what unwrap makes of the
    decoded data, so an unknown kind gives an error together with a
    non-nil group. *)
Theorem UnmarshalGroup_results {S} (h : Go.Env Effect S) source (s : S) :
  exists out s' tr,
    Go.interp h (UnmarshalGroup source) s = (Returned out, s', tr)
    /\ ((exists err,
           tr = [Go.Ev (helpers_NewDecoder source) (inl err)]
           /\ out = (None, Some err))
        \/ (exists decoder data err,
              tr = [Go.Ev (helpers_NewDecoder source) (inr decoder);
                    Go.Ev (Decode decoder) (data, Some err)]
              /\ out = (None, Some err))
        \/ (exists decoder data,
              tr = [Go.Ev (helpers_NewDecoder source) (inr decoder);
                    Go.Ev (Decode decoder) (data, None)]
              /\ out = unwrap (Some data)
              /\ (forall kind,
                    Kind data = Some kind -> kind <> GroupKind ->
                    kind <> GroupLinkKind ->
                    exists g, out = (Some g, Some (unexpectedKind kind))))).
Proof.
  unfold UnmarshalGroup. go_answer as [[err | decoder] s1].
  { do 3 eexists. split; [reflexivity | ]. left. now exists err. }
  go_answer as [[data [err | ]] s2]; cbn [fst snd].
  - do 3 eexists. split; [reflexivity | ]. right. left.
    now exists decoder, data, err.
  - do 3 eexists. split; [reflexivity | ]. right. right.
    exists decoder, data. repeat split.
    intros kind Hkind Hk Hl. unfold unwrap. rewrite Hkind.
    rewrite (proj2 (String.eqb_neq _ _) Hk), (proj2 (String.eqb_neq _ _) Hl).
    eexists. reflexivity.
Qed.

End Facts.
End GroupFacts.

(** ** Package accountsmgmt/v1: the client of the 'SKU' resource *)

Module SkuFacts.
Import sku.

Section Facts.
Context `{Library}.

(** X29. SendContext makes exactly one round trip, on the request's
    transport, with a GET for the request's path whose query is the
    encoded copy of the request's query, whose header is the request's
    header with the metric set, and which carries the context exactly when
    one was given.  When the round trip fails it returns a nil response
    and the error, and closes nothing.  When it succeeds it returns a
    non-nil response with the status and header received, and closes the
    body exactly once, as its last call, whatever happened in between. *)
Theorem SendContext_round_trip {S} (h : Go.Env Effect S) r context (s : S) :
  exists out s' tr request ans,
    Go.interp h (SendContext r context) s = (Returned out, s', tr)
    /\ roundTrips tr = [(transport r, request, ans)]
    /\ Method request = "GET" /\ URL_Path request = path r
    /\ URL_RawQuery request = Values_Encode (helpers_CopyQuery (query r))
    /\ Header request = helpers_SetHeader (header r) (metric r)
    /\ ctx request = context
    /\ (forall e, ans = inl e ->
        out = (None, Some (plain e)) /\ length tr = 1%nat /\ closes tr = [])
    /\ (forall response, ans = inr response ->
        (exists result,
           fst out = Some result
           /\ status result = StatusCode response
           /\ resp_header result = Response_Header response)
        /\ closes tr = [Body response]
        /\ exists before closed,
             tr = (before ++ [Go.Ev (Close (Body response)) closed])%list).
Proof.
  unfold SendContext.
  set (request := match context with Some c => _ | None => _ end).
  assert (Hreq : Method request = "GET" /\ URL_Path request = path r
                 /\ URL_RawQuery request
                    = Values_Encode (helpers_CopyQuery (query r))
                 /\ Header request = helpers_SetHeader (header r) (metric r)
                 /\ ctx request = context).
  { subst request. destruct context; repeat split. }
  clearbody request. destruct Hreq as (Hm & Hp & Hq & Hh & Hc).
  go_answer as [[e | response] s1].
  { do 3 eexists. exists request, (inl e).
    split; [reflexivity | ].
    repeat match goal with |- _ /\ _ => split end; try assumption;
      try reflexivity.
    - intros e0 Heq. injection Heq as <-. repeat split.
    - intros response Heq. discriminate Heq. }
  cbn [status resp_header err body].
  destruct (400 <=? StatusCode response)%Z.
  - go_answer as [[p [e | ]] s2]; cbn [fst snd].
    all: go_answer as [closed s3].
    all: do 3 eexists; exists request, (inr response).
    all: split; [reflexivity | ].
    all: repeat match goal with |- _ /\ _ => split end; try assumption;
      try reflexivity.
    all: try (intros e0 Heq; discriminate Heq).
    all: intros x Heq; injection Heq as <-.
    all: split; [eexists; repeat split | ].
    all: split; [reflexivity | ].
    all: eexists; exists closed;
      match goal with
      | |- ?a :: ?b :: ?c = _ => change (a :: b :: c) with ([a; b] ++ c)%list
      end; reflexivity.
  - unfold unmarshal.
    go_answer as [[d [e | ]] s2]; cbn [fst snd].
    2: destruct (skuData_unwrap d) as [b [e | ]]; cbn [fst snd].
    all: go_answer as [closed s3].
    all: do 3 eexists; exists request, (inr response).
    all: split; [reflexivity | ].
    all: repeat match goal with |- _ /\ _ => split end; try assumption;
      try reflexivity.
    all: try (intros e0 Heq; discriminate Heq).
    all: intros x Heq; injection Heq as <-.
    all: split; [eexists; repeat split | ].
    all: split; [reflexivity | ].
    all: eexists; exists closed;
      match goal with
      | |- ?a :: ?b :: ?c = _ => change (a :: b :: c) with ([a; b] ++ c)%list
      end; reflexivity.
Qed.

(** X30. After a successful round trip the status decides what is read.
    For a status of 400 or more the body is parsed as an API error and
    never as a SKU, and the returned error is never nil: it is the parse
    failure, or else the API error itself, which is a non-nil error value
    even if the parsed pointer is nil.  For a lower status the body is
    decoded as a SKU and never as an API error, and the returned error is
    nil exactly when decoding and unwrapping both succeed; the body of the
    response is set from unwrap even when unwrap fails, and stays nil when
    decoding fails. *)
Theorem SendContext_status_decides {S} (h : Go.Env Effect S) r context
  (s : S) :
  exists out s' tr,
    Go.interp h (SendContext r context) s = (Returned out, s', tr)
    /\ forall t request response,
         In (t, request, inr response) (roundTrips tr) ->
         ((400 <= StatusCode response)%Z ->
          decodes tr = []
          /\ exists p ue,
               errorBodies tr = [(Body response, (p, ue))]
               /\ out = (Some {| status := StatusCode response;
                                 resp_header := Response_Header response;
                                 err := p; body := None |},
                         Some (match ue with
                               | Some e => plain e
                               | None => apiError p
                               end)))
         /\ ((StatusCode response < 400)%Z ->
             errorBodies tr = []
             /\ exists d de,
                  decodes tr = [(Body response, (d, de))]
                  /\ (forall e, de = Some e ->
                      out = (Some {| status := StatusCode response;
                                     resp_header := Response_Header response;
                                     err := None; body := None |},
                             Some (plain e)))
                  /\ (de = None ->
                      out = (Some {| status := StatusCode response;
                                     resp_header := Response_Header response;
                                     err := None;
                                     body := fst (skuData_unwrap d) |},
                             match snd (skuData_unwrap d) with
                             | Some e => Some (plain e)
                             | None => None
                             end))).
Proof.
  unfold SendContext.
  set (request := match context with Some c => _ | None => _ end).
  clearbody request.
  go_answer as [[e | response] s1].
  { do 3 eexists. split; [reflexivity | ].
    intros t rq rs [Heq | []]. discriminate Heq. }
  cbn [status resp_header err body].
  destruct (Z.leb_spec 400 (StatusCode response)) as [Hhigh | Hlow].
  - go_answer as [[p ue] s2]. cbn [fst snd]. destruct ue as [e | ].
    all: go_answer as [closed s3].
    all: do 3 eexists; (split; [reflexivity | ]).
    all: intros t rq rs [Heq | []]; injection Heq as <- <- <-.
    all: split; [intros _ | intros Hlt; lia].
    all: split; [reflexivity | ].
    all: do 2 eexists; split; reflexivity.
  - unfold unmarshal.
    go_answer as [[d de] s2]. cbn [fst snd]. destruct de as [e | ].
    2: destruct (skuData_unwrap d) as [b [e | ]] eqn:Hunwrap.
    all: go_answer as [closed s3].
    all: do 3 eexists; (split; [reflexivity | ]).
    all: intros t rq rs [Heq | []]; injection Heq as <- <- <-.
    all: split; [intros Hge; lia | intros _].
    all: split; [reflexivity | ].
    all: do 2 eexists; split; [reflexivity | ].
    all: split; [intros e0 Heq | intros Heq]; try discriminate Heq.
    all: try (injection Heq as <-; reflexivity).
    all: rewrite ?Hunwrap; reflexivity.
Qed.

End Facts.
End SkuFacts.

(** ** The engine's constructor and the SDK files on concrete inputs *)

Lemma Run_result_or_error_witness :
  interp (Demo.env Demo.happy) (Run Demo.engine tt) 0%nat
  = (Returned (Some Demo.result, None), 11%nat, Demo.happyTrace)
  /\ ((exists r, (Some Demo.result, @None error) = (Some r, None))
      \/ (exists prefix cause,
            (Some Demo.result, @None error)
            = (None, Some (fmt_Errorf_w prefix cause))
            /\ In prefix ["failed to collect krkn-ai results: ";
                          "failed to render prompt: ";
                          "LLM analysis failed: ";
                          "failed to write analysis summary: "]
            /\ sends Demo.happyTrace = [] /\ stderr Demo.happyTrace = [])).
Proof.
  split; [exact happy_run | ].
  exact (Run_result_or_error (Demo.env Demo.happy) Demo.engine tt 0%nat
           11%nat (Some Demo.result, None) Demo.happyTrace happy_run).
Defined.

Lemma New_construction_witness :
  ResultsDir Demo.cfg <> "" /\ APIKey Demo.cfg <> ""
  /\ fst (fst (interp (Demo.env Demo.happy) (New tt (Some Demo.cfg)) 0%nat))
     = Returned (Some Demo.engine, None).
Proof.
  assert (Hdir : ResultsDir Demo.cfg <> "") by discriminate.
  assert (Hkey : APIKey Demo.cfg <> "") by discriminate.
  split; [exact Hdir | ]. split; [exact Hkey | ].
  destruct (New_construction (Demo.env Demo.happy) tt Demo.cfg 0%nat Hdir
              Hkey) as (out & s' & tr & agg & Hrun & _).
  rewrite Hrun. cbn [fst].
  assert (Hdemo :
    fst (fst (interp (Demo.env Demo.happy) (New tt (Some Demo.cfg)) 0%nat))
    = Returned (Some Demo.engine, None)) by by_vm.
  rewrite Hrun in Hdemo. exact Hdemo.
Defined.

Module SdkExamples.
Import listbuilder.

Lemma callerValues_valid : valid SdkDemo.callerStore SdkDemo.callerValues.
Proof.
  exists ["quay"; "bad"; "redhat"; "docker"].
  split; [reflexivity | cbn; lia].
Defined.

Lemma goodValues_valid : valid SdkDemo.callerStore SdkDemo.goodValues.
Proof.
  exists ["quay"; "bad"; "redhat"; "docker"].
  split; [reflexivity | cbn; lia].
Defined.

Lemma Items_stores_a_copy_witness :
  valid SdkDemo.callerStore SdkDemo.callerValues
  /\ exists mine st',
       Items (Some NewRegistryCredentialList) (Some SdkDemo.callerValues)
         SdkDemo.callerStore
       = Returned ({| items := Some mine |}, st')
       /\ view st' (Some mine) = ["bad"; "redhat"]
       /\ view (assign st' SdkDemo.callerValues 0 "fixed") (Some mine)
          = ["bad"; "redhat"].
Proof.
  split; [exact callerValues_valid | ].
  destruct (ListBuilderFacts.Items_stores_a_copy
              NewRegistryCredentialList
              SdkDemo.callerValues SdkDemo.callerStore callerValues_valid)
    as (mine & st' & Hitems & Hmine & _ & _ & Hassign & _).
  exists mine, st'. split; [exact Hitems | ].
  split; [rewrite Hmine; reflexivity | ].
  rewrite Hassign. reflexivity.
Defined.

(** Building stops at the builder that fails: the two builders after it
    are never asked. *)
Example Build_stops_at_bad :
  let whole := {| array := 1; off := 0; len := 4 |} in
  let '(out, calls, tr) :=
    Go.interp SdkDemo.buildEnv
      (Build (Item := string) (Some {| items := Some whole |})
         SdkDemo.callerStore) 0%nat in
  out = Returned (None, Some (errors_New "missing token"))
  /\ calls = 2%nat
  /\ map fst (built tr) = ["quay"; "bad"].
Proof. vm_compute. repeat split. Qed.

Lemma Items_then_Build_witness :
  valid SdkDemo.callerStore SdkDemo.goodValues
  /\ exists b' st',
       Items (Some NewRegistryCredentialList) (Some SdkDemo.goodValues)
         SdkDemo.callerStore = Returned (b', st')
       /\ exists out s' tr,
            Go.interp SdkDemo.buildEnv
              (Build (Some b') (assign st' SdkDemo.goodValues 0 "bad"))
              0%nat
            = (Returned out, s', tr)
            /\ map fst (built tr)
               = take (length (built tr)) ["redhat"; "docker"].
Proof.
  split; [exact goodValues_valid | ].
  destruct (ListBuilderFacts.Items_then_Build SdkDemo.buildEnv
              NewRegistryCredentialList SdkDemo.goodValues
              SdkDemo.callerStore 0%nat goodValues_valid)
    as (b' & st' & Hitems & Hbuild).
  exists b', st'. split; [exact Hitems | ].
  destruct (Hbuild 0%nat "bad") as (out & s' & tr & Hrun & Hprefix & _).
  exists out, s', tr. split; [exact Hrun | exact Hprefix].
Defined.

End SdkExamples.

Module GroupExamples.
Import group.
#[local] Existing Instance SdkDemo.groupLibrary.

Lemma unwrap_wrap_witness :
  GroupKind <> GroupLinkKind /\ linksRoundTrip
  /\ wrap (Some SdkDemo.admins)
     = (Some {| Kind := Some "GroupLink"; ID := Some "dedicated-admins";
                HREF := Some "/api/clusters_mgmt/v1/clusters/1/groups/admins";
                Users := Some ["alice"; "bob"] |}, None)
  /\ unwrap (fst (wrap (Some SdkDemo.admins)))
     = (Some SdkDemo.admins, None).
Proof.
  assert (Hkinds : GroupKind <> GroupLinkKind) by discriminate.
  assert (Hlinks : linksRoundTrip).
  { intros u l Hwrap. injection Hwrap as <-. reflexivity. }
  split; [exact Hkinds | ]. split; [exact Hlinks | ].
  split; [reflexivity | ].
  exact (GroupFacts.unwrap_wrap (Some SdkDemo.admins) _ Hkinds Hlinks
           eq_refl).
Defined.

(** An unknown kind: an error, and a group that is not nil. *)
Example unwrap_strange_kind :
  unwrap (Some SdkDemo.strangeData)
  = (Some {| id := Some "x"; href := None; link := false; users := None |},
     Some (errors_New
             "expected kind 'Group' or 'GroupLink' but got 'Cluster'")).
Proof. reflexivity. Qed.

End GroupExamples.

Module SkuExamples.
Import sku.
#[local] Existing Instance SdkDemo.skuLibrary.

(** A 404 whose body parses to a nil API error: the error returned is
    still not nil, the SKU decoder is not used, and the body is closed. *)
Example not_found :
  let '(out, calls, tr) :=
    Go.interp (SdkDemo.server 404) (Send SdkDemo.skuRequest) 0%nat in
  out = Returned (Some {| status := 404; resp_header := [];
                          err := None; body := None |},
                  Some (apiError None))
  /\ map (fun x => URL_RawQuery (snd (fst x))) (roundTrips tr)
     = ["fields=id"]
  /\ map (fun x => ctx (snd (fst x))) (roundTrips tr) = [Some "background"]
  /\ decodes tr = [] /\ closes tr = ["payload"].
Proof. vm_compute. repeat split. Qed.

Example found :
  let '(out, calls, tr) :=
    Go.interp (SdkDemo.server 200) (SendContext SdkDemo.skuRequest None)
      0%nat in
  out = Returned (Some {| status := 200; resp_header := [];
                          err := None; body := Some "payload" |}, None)
  /\ map (fun x => ctx (snd (fst x))) (roundTrips tr) = [None]
  /\ errorBodies tr = [] /\ closes tr = ["payload"].
Proof. vm_compute. repeat split. Qed.

End SkuExamples.
